(** * go-downloader: the download-and-verify reconciliation loop

    A shallow embedding of the program's [main] package: the [Hash] type
    with its lenient equality, the two skip policies, the integrity
    verifier [checkHash] with its sidecar cache, [downloadFile] and the
    loop of [main] that drives them, together with the properties the
    design document states about them.

    The operating system and the libraries the program calls are modelled
    just far enough to run the code: [encoding/hex] and [strings.Contains]
    after the Go standard library, SHA-256 after FIPS 180-4, the
    filesystem as a finite map from paths to nodes with explicit sets of
    failing paths, and the HTTP collector as an oracle that answers each
    request. *)

From Stdlib Require Import ZArith NArith List String Ascii Bool Lia.
From Stdlib.Strings Require Import Byte.
From stdpp Require Import gmap strings.
Import ListNotations.

Local Open Scope string_scope.
Local Open Scope list_scope.

(** ** Outcomes

    A Go function either returns or panics (an index out of range is the
    only panic this program could raise).  [Done a] is a normal return. *)

Inductive outcome (A : Type) : Type :=
| Done (a : A)
| Panic.

Arguments Done {A} a.
Arguments Panic {A}.

(** ** Bytes and strings

    A Go [string] is an immutable byte sequence: [string] here, with
    [list_byte_of_string] for the conversion [[]byte(s)] and
    [string_of_list_byte] for [string(b)]. *)

Definition byte_of_N (n : N) : byte :=
  match Byte.of_N (n mod 256) with
  | Some b => b
  | None => x00
  end.

Definition byte_neq (x y : byte) : bool := negb (Byte.eqb x y).

(** ** encoding/hex *)

Module hex.

Inductive error : Type :=
| InvalidByteError (b : byte)
| ErrLength.

(** [reverseHexTable]: the value of a hexadecimal digit, [0xff] for every
    other byte. *)
Definition reverseHexTable (c : byte) : N :=
  let n := Byte.to_N c in
  if (48 <=? n)%N && (n <=? 57)%N then (n - 48)%N
  else if (97 <=? n)%N && (n <=? 102)%N then (n - 87)%N
  else if (65 <=? n)%N && (n <=? 70)%N then (n - 55)%N
  else 255%N.

(** [Decode]: two digits per byte; the bytes decoded before an error are
    returned with it.  A trailing single character is checked for being
    a digit before the odd length is reported. *)
Fixpoint Decode (src : list byte) : list byte * option error :=
  match src with
  | [] => ([], None)
  | [p] =>
      if (15 <? reverseHexTable p)%N then ([], Some (InvalidByteError p))
      else ([], Some ErrLength)
  | p :: q :: rest =>
      let a := reverseHexTable p in
      let b := reverseHexTable q in
      if (15 <? a)%N then ([], Some (InvalidByteError p))
      else if (15 <? b)%N then ([], Some (InvalidByteError q))
      else
        let '(out, err) := Decode rest in
        (byte_of_N (N.lor (N.shiftl a 4) b) :: out, err)
  end.

Definition DecodeString (s : string) : list byte * option error :=
  Decode (list_byte_of_string s).

Definition hextable : list byte := list_byte_of_string "0123456789abcdef".

Definition Encode (src : list byte) : list byte :=
  flat_map
    (fun v =>
       [ nth (N.to_nat (N.shiftr (Byte.to_N v) 4)) hextable x00;
         nth (N.to_nat (N.land (Byte.to_N v) 15)) hextable x00 ])
    src.

Definition EncodeToString (src : list byte) : string :=
  string_of_list_byte (Encode src).

End hex.

(** ** The Hash type *)

Definition Hash : Type := string.

Definition Hash_Bytes (h : Hash) : list byte * option hex.error :=
  hex.DecodeString h.

(** The comparison loop [for ix := range self]: [count] iterations remain,
    [ix] is the index reached.  [other[ix]] panics when out of range. *)
Fixpoint Equal_loop (self other : list byte) (ix count : nat) : outcome bool :=
  match count with
  | O => Done true
  | S count' =>
      match self !! ix, other !! ix with
      | Some x, Some y =>
          if byte_neq x y then Done false
          else Equal_loop self other (S ix) count'
      | _, _ => Panic
      end
  end.

Definition Hash_Equal (h : Hash) (other : list byte) : outcome bool :=
  let '(self, err) := Hash_Bytes h in
  match err with
  | Some _ => Done false
  | None =>
      if negb (length self =? length other)%nat then Done false
      else Equal_loop self other 0 (length self)
  end.

(** ** The catalog model *)

Record File : Type := mkFile {
  Filename : string;
  OS : string;
  Architecture : string;
  Version : string;
  SHA256Sum : Hash;
  Size : N;          (* uint64 *)
  Kind : string
}.

Record Release : Type := mkRelease {
  RVersion : string;
  IsStable : bool;
  Downloads : list File
}.

Definition Releases : Type := list Release.

(** A [File] as the JSON decoder can produce it: [Size] fits a [uint64]. *)
Definition uint64_ok (n : N) : Prop := (n < 2 ^ 64)%N.

(** ** strings.Contains *)

Fixpoint HasPrefix (s prefix : string) {struct prefix} : bool :=
  match prefix, s with
  | EmptyString, _ => true
  | String _ _, EmptyString => false
  | String c prefix', String d s' => Ascii.eqb c d && HasPrefix s' prefix'
  end.

Fixpoint Contains (s substr : string) : bool :=
  HasPrefix s substr ||
  match s with
  | EmptyString => false
  | String _ s' => Contains s' substr
  end.

(** ** Skip policies *)

Definition skipVersions : list string := ["go1.2"].
Definition skipWords : list string := ["beta"; "rc"].

(** [for _, x := range xs { if p x { return true } }] *)
Fixpoint range_any {A : Type} (p : A -> bool) (xs : list A) : bool :=
  match xs with
  | [] => false
  | x :: xs' => if p x then true else range_any p xs'
  end.

Definition skipRelease (version : string) : bool :=
  if range_any (fun ver => String.eqb ver version) skipVersions then true
  else if range_any (fun word => Contains version word) skipWords then true
  else false.

Definition skipFile (file : File) : bool :=
  if (Size file =? 0)%N then true
  else if (String.length (SHA256Sum file) =? 0)%nat then true
  else false.

(** ** crypto.SHA256

    FIPS 180-4 on 32-bit words held in [N].  The program only ever feeds
    the hasher the whole content of a file and takes the final sum, so the
    streaming interface ([io.CopyBuffer] through [staticBuffer]) is the
    one-shot function [sha256.Sum]. *)

Module sha256.

Local Open Scope N_scope.

Definition mask32 : N := 4294967295.
Definition add32 (x y : N) : N := (x + y) mod 4294967296.
Definition rotr (n x : N) : N :=
  N.lor (N.shiftr x n) (N.land (N.shiftl x (32 - n)) mask32).
Definition xor3 (x y z : N) : N := N.lxor (N.lxor x y) z.

Definition ch (x y z : N) : N :=
  N.lxor (N.land x y) (N.land (N.lxor x mask32) z).
Definition maj (x y z : N) : N :=
  xor3 (N.land x y) (N.land x z) (N.land y z).
Definition bsig0 (x : N) : N := xor3 (rotr 2 x) (rotr 13 x) (rotr 22 x).
Definition bsig1 (x : N) : N := xor3 (rotr 6 x) (rotr 11 x) (rotr 25 x).
Definition ssig0 (x : N) : N := xor3 (rotr 7 x) (rotr 18 x) (N.shiftr x 3).
Definition ssig1 (x : N) : N := xor3 (rotr 17 x) (rotr 19 x) (N.shiftr x 10).

(** Round constants: the first 32 bits of the fractional parts of the
    cube roots of the first 64 primes. *)
Definition K : list N :=
  [ 1116352408; 1899447441; 3049323471; 3921009573; 961987163; 1508970993;
    2453635748; 2870763221; 3624381080; 310598401; 607225278; 1426881987;
    1925078388; 2162078206; 2614888103; 3248222580; 3835390401; 4022224774;
    264347078; 604807628; 770255983; 1249150122; 1555081692; 1996064986;
    2554220882; 2821834349; 2952996808; 3210313671; 3336571891; 3584528711;
    113926993; 338241895; 666307205; 773529912; 1294757372; 1396182291;
    1695183700; 1986661051; 2177026350; 2456956037; 2730485921; 2820302411;
    3259730800; 3345764771; 3516065817; 3600352804; 4094571909; 275423344;
    430227734; 506948616; 659060556; 883997877; 958139571; 1322822218;
    1537002063; 1747873779; 1955562222; 2024104815; 2227730452; 2361852424;
    2428436474; 2756734187; 3204031479; 3329325298 ].

(** Initial state: square roots of the first 8 primes. *)
Definition H0 : list N :=
  [ 1779033703; 3144134277; 1013904242; 2773480762;
    1359893119; 2600822924; 528734635; 1541459225 ].

(** Big-endian words and bytes. *)
Definition word_of_bytes (b0 b1 b2 b3 : byte) : N :=
  N.lor (N.shiftl (Byte.to_N b0) 24)
    (N.lor (N.shiftl (Byte.to_N b1) 16)
       (N.lor (N.shiftl (Byte.to_N b2) 8) (Byte.to_N b3))).

Definition bytes_of_word (x : N) : list byte :=
  [ byte_of_N (N.shiftr x 24); byte_of_N (N.shiftr x 16);
    byte_of_N (N.shiftr x 8); byte_of_N x ].

Fixpoint words_of_bytes (bs : list byte) : list N :=
  match bs with
  | b0 :: b1 :: b2 :: b3 :: rest =>
    word_of_bytes b0 b1 b2 b3 :: words_of_bytes rest
  | _ => []
  end.

(** Padding: a 1 bit, zeros up to 56 mod 64 bytes, the bit length on 64
    bits. *)
Definition pad (msg : list byte) : list byte :=
  let len := N.of_nat (length msg) in
  let zeros := N.to_nat ((119 - len mod 64) mod 64) in
  msg ++ x80 :: repeat x00 zeros
      ++ bytes_of_word (N.shiftr (8 * len) 32 mod 4294967296)
      ++ bytes_of_word ((8 * len) mod 4294967296).

(** Message schedule: [extend n ws] appends [n] words to [ws]. *)
Fixpoint extend (n : nat) (ws : list N) : list N :=
  match n with
  | O => ws
  | S n' =>
      let t := length ws in
      let at_ (i : nat) := nth (t - i) ws 0 in
      extend n' (ws ++ [add32 (add32 (ssig1 (at_ 2%nat)) (at_ 7%nat))
                              (add32 (ssig0 (at_ 15%nat)) (at_ 16%nat))])
  end.

Record regs : Type := mkRegs { ra : N; rb : N; rc : N; rd : N;
                               re : N; rf : N; rg : N; rh : N }.

Definition round (s : regs) (kw : N * N) : regs :=
  let t1 := add32 (add32 (add32 (rh s) (bsig1 (re s)))
                         (add32 (ch (re s) (rf s) (rg s)) (fst kw))) (snd kw) in
  let t2 := add32 (bsig0 (ra s)) (maj (ra s) (rb s) (rc s)) in
  mkRegs (add32 t1 t2) (ra s) (rb s) (rc s)
       (add32 (rd s) t1) (re s) (rf s) (rg s).

Definition regs_of (h : list N) : regs :=
  mkRegs (nth 0 h 0) (nth 1 h 0) (nth 2 h 0) (nth 3 h 0)
         (nth 4 h 0) (nth 5 h 0) (nth 6 h 0) (nth 7 h 0).

Definition compress (h : list N) (block : list N) : list N :=
  let s := fold_left round (combine K (extend 48 block)) (regs_of h) in
  List.map (fun p => add32 (fst p) (snd p))
    (combine h [ra s; rb s; rc s; rd s; re s; rf s; rg s; rh s]).

(** One 16-word block at a time; [fuel] bounds the number of blocks. *)
Fixpoint blocks (fuel : nat) (h : list N) (ws : list N) : list N :=
  match fuel, ws with
  | S fuel', _ :: _ => blocks fuel' (compress h (firstn 16 ws)) (skipn 16 ws)
  | _, _ => h
  end.

Definition Sum (msg : list byte) : list byte :=
  let ws := words_of_bytes (pad msg) in
  flat_map bytes_of_word (blocks (length ws) H0 ws).

End sha256.

(** ** path.Join

    [path.Clean] by its documented rules: empty and [.] elements vanish, an
    inner [..] removes the element before it, a [..] at the root of a
    rooted path vanishes, and the empty result is [.]. *)

Module path.

(** The elements between the slashes. *)
Fixpoint elements (s : string) : list string :=
  match s with
  | EmptyString => [EmptyString]
  | String c s' =>
      if Ascii.eqb c "/" then EmptyString :: elements s'
      else match elements s' with
           | [] => [String c EmptyString]
           | e :: es => String c e :: es
           end
  end.

(** The stack of kept elements, innermost first. *)
Definition clean_step (rooted : bool) (stack : list string) (e : string)
  : list string :=
  if String.eqb e "" || String.eqb e "." then stack
  else if String.eqb e ".." then
    match stack with
    | top :: below =>
        if String.eqb top ".." then e :: stack else below
    | [] => if rooted then [] else [e]
    end
  else e :: stack.

Definition Clean (p : string) : string :=
  if String.eqb p "" then "."
  else
    let rooted := HasPrefix p "/" in
    let kept := rev (fold_left (clean_step rooted) (elements p) []) in
    let body := String.concat "/" kept in
    if rooted then "/" ++ body
    else if String.eqb body "" then "." else body.

(** [Join] of two elements: empty elements before the first non-empty
    one are ignored, the rest is joined with slashes and cleaned. *)
Definition Join (a b : string) : string :=
  if String.eqb a "" then
    if String.eqb b "" then "" else Clean b
  else Clean (a ++ "/" ++ b).

End path.

(** ** The filesystem

    A finite map from path names to nodes.  Errors that do not follow from
    the node at the path are given by the world.  Three sets of paths:
    those that cannot be inspected, those that cannot be opened for
    reading, and those that cannot be opened for writing or created (no
    permission, a read-only volume, a missing parent directory, no room
    for a new entry).  And a map of the paths at which a write breaks off
    once the file is open (a full disk, a quota, an I/O error), with the
    number of bytes that reach the file before it does. *)

Inductive errno : Type := ENOENT | EACCES | EISDIR | EEXIST | EIO.

Inductive result (A : Type) : Type :=
| Ok (a : A)
| Err (e : errno).

Arguments Ok {A} a.
Arguments Err {A} e.

Inductive node : Type :=
| Dir (size : N)
| Regular (data : list byte).

Record FileSystem : Type := mkFS {
  nodes : gmap string node;
  statFails : gset string;
  openFails : gset string;
  writeFails : gset string;
  writeBreaks : gmap string nat
}.

Definition with_nodes (fs : FileSystem) (m : gmap string node) : FileSystem :=
  mkFS m (statFails fs) (openFails fs) (writeFails fs) (writeBreaks fs).

(** The filesystem with the node at one path replaced ([None]: removed). *)
Definition set_node (fs0 : FileSystem) (name : string) (n : option node)
  : FileSystem :=
  with_nodes fs0 (partial_alter (fun _ => n) name (nodes fs0)).

(** A filesystem in which nothing fails but what the nodes make fail. *)
Definition plainFS (m : gmap string node) : FileSystem := mkFS m ∅ ∅ ∅ ∅.

Record FileInfo : Type := mkInfo {
  info_Size : Z;       (* int64 *)
  info_IsDir : bool
}.

Definition node_info (n : node) : FileInfo :=
  match n with
  | Dir size => mkInfo (Z.of_N size) true
  | Regular data => mkInfo (Z.of_nat (length data)) false
  end.

(** The size a freshly made directory reports. *)
Definition newDirSize : N := 4096.

Module os.

Definition IsNotExist (e : errno) : bool :=
  match e with ENOENT => true | _ => false end.

Definition Stat (fs : FileSystem) (name : string) : result FileInfo :=
  if decide (name ∈ statFails fs) then Err EACCES
  else match nodes fs !! name with
       | None => Err ENOENT
       | Some n => Ok (node_info n)
       end.

Definition Open (fs : FileSystem) (name : string) : result node :=
  if decide (name ∈ openFails fs) then Err EACCES
  else match nodes fs !! name with
       | None => Err ENOENT
       | Some n => Ok n
       end.

Definition Mkdir (fs : FileSystem) (name : string)
  : option errno * FileSystem :=
  if decide (name ∈ writeFails fs) then (Some EACCES, fs)
  else match nodes fs !! name with
       | Some _ => (Some EEXIST, fs)
       | None => (None, with_nodes fs (<[name := Dir newDirSize]> (nodes fs)))
       end.

End os.

Module ioutil.

Definition ReadFile (fs : FileSystem) (name : string) : result (list byte) :=
  match os.Open fs name with
  | Err e => Err e
  | Ok (Dir _) => Err EISDIR
  | Ok (Regular data) => Ok data
  end.

(** The file as a write leaves it: whole, or, where the write breaks
    off, with the bytes that reached it (none of them, some, or all of
    them when it is the close that fails), and the error returned. *)
Definition written (fs : FileSystem) (name : string) (data : list byte)
  : option errno * FileSystem :=
  match writeBreaks fs !! name with
  | Some n =>
      (Some EIO,
       with_nodes fs (<[name := Regular (firstn n data)]> (nodes fs)))
  | None => (None, with_nodes fs (<[name := Regular data]> (nodes fs)))
  end.

(** [os.OpenFile(name, O_WRONLY|O_CREATE|O_TRUNC, perm)], [f.Write(data)]
    and [f.Close()].  A failure to open leaves the filesystem as it is; a
    failure after that leaves the truncated file with what was written. *)
Definition WriteFile (fs : FileSystem) (name : string) (data : list byte)
  : option errno * FileSystem :=
  if decide (name ∈ writeFails fs) then (Some EACCES, fs)
  else match nodes fs !! name with
       | Some (Dir _) => (Some EISDIR, fs)
       | _ => written fs name data
       end.

End ioutil.

(** [io.CopyBuffer(hasher, in, staticBuffer)] followed by [hasher.Sum(nil)]:
    reading a directory fails, a regular file is hashed whole. *)
Definition hashReader (f : node) : result (list byte) :=
  match f with
  | Dir _ => Err EISDIR
  | Regular data => Ok (sha256.Sum data)
  end.

(** ** The collector

    The answer of the collector to one [Visit]: the response handed to the
    [OnResponse] callback, if any, and the error [Visit] returns, if any.
    A collector answers the [n]-th request of a run for a URL. *)

Record Response : Type := mkResponse {
  StatusCode : Z;
  Body : list byte
}.

Record Visited : Type := mkVisited {
  delivered : option Response;
  visitErr : option string
}.

Definition Collector : Type := nat -> string -> Visited.

Definition StatusOK : Z := 200.
Definition fileDownloadFmt (filename : string) : string :=
  "https://golang.org/dl/" ++ filename.
Definition maxDownloadBody : N := 2 ^ 29.

(** [MaxBodySize]: the collector reads at most that many bytes of a body. *)
Fixpoint limitBody (max : N) (body : list byte) : list byte :=
  match body with
  | [] => []
  | b :: body' =>
      if (max =? 0)%N then [] else b :: limitBody (N.pred max) body'
  end.

(** What the collector makes of the answer of a server: a response with a
    status below 203 is handed to the [OnResponse] callback; with any
    other status the callback is not called and [Visit] returns the
    status text as its error. *)
Definition answered (status : Z) (body : list byte) (statusText : string)
  : Visited :=
  if (status <? 203)%Z then mkVisited (Some (mkResponse status body)) None
  else mkVisited None (Some statusText).

(** A collector before a server that answers every request with status
    200 and a fixed body, and one before a server that answers with a
    fixed status and an empty body. *)
Definition serving (body : list byte) : Collector :=
  fun _ _ => mkVisited (Some (mkResponse StatusOK body)) None.

Definition refusing (status : Z) (statusText : string) : Collector :=
  fun _ _ => answered status [] statusText.

(** ** Output

    The lines the program prints, by the stream they go to; a line is kept
    as the format it was printed with and its arguments. *)

Inductive stream : Type := statusOut | errOut.

Inductive line : Type :=
| ErrorParsing
| SkippingRelease (releaseName : string)
| SkippingFile (releaseName filename : string)
| AlreadyDownloaded (releaseName filename : string)
| Downloading (releaseName filename : string) (sum : Hash)
| CouldNotCreate (name : string) (e : errno)
| CouldNotStat (name : string) (e : errno)
| NotADirectory (name : string)
| CouldNotRead (name : string) (e : errno)
| CouldNotHash (name : string) (e : errno)
| SizeIs (target : string) (actual : Z) (declared : N)
| MalformedHashFile (hashFile : string) (e : hex.error)
| ShaDoesNotMatch (target : string) (expected : Hash) (got : list byte)
| CouldNotSave (target : string) (e : errno)
| Downloaded (target : string)
| SavedHash (hashFile : string)
| Getting (url : string)
| CouldNotVisit (url : string) (e : string)
| CouldNotWriteHash (hashFile : string) (e : errno)
| ResponseStatus (code : Z).

(** ** The state of a run and its monad *)

Record World : Type := mkWorld {
  fs : FileSystem;
  out : list (stream * line);     (* oldest first *)
  requests : list string          (* URLs visited, oldest first *)
}.

Definition M (A : Type) : Type := World -> outcome (A * World).

Definition ret {A : Type} (a : A) : M A := fun w => Done (a, w).

Definition bind {A B : Type} (m : M A) (k : A -> M B) : M B :=
  fun w =>
    match m w with
    | Done (a, w') => k a w'
    | Panic => Panic
    end.

Declare Scope go_scope.
Delimit Scope go_scope with go.
Notation "x <- m ;; k" := (bind m (fun x => k))
  (at level 100, m at next level, right associativity) : go_scope.
Notation "m ;; k" := (bind m (fun _ => k))
  (at level 100, right associativity) : go_scope.
Local Open Scope go_scope.

Definition lift {A : Type} (o : outcome A) : M A :=
  fun w => match o with Done a => Done (a, w) | Panic => Panic end.

(** The world after one more line, and with another filesystem. *)
Definition logged (w : World) (s : stream) (l : line) : World :=
  mkWorld (fs w) (out w ++ [(s, l)]) (requests w).

Definition with_fs (w : World) (fs' : FileSystem) : World :=
  mkWorld fs' (out w) (requests w).

Definition Fprintf (s : stream) (l : line) : M unit :=
  fun w => Done (tt, logged w s l).

(** A filesystem call that only reads. *)
Definition readFS {A : Type} (f : FileSystem -> A) : M A :=
  fun w => Done (f (fs w), w).

(** A filesystem call that may change the filesystem. *)
Definition writeFS {A : Type} (f : FileSystem -> A * FileSystem) : M A :=
  fun w =>
    let '(a, fs') := f (fs w) in
    Done (a, with_fs w fs').

(** [for _, x := range xs { body x }] *)
Fixpoint forRange {A : Type} (xs : list A) (body : A -> M unit) : M unit :=
  match xs with
  | [] => ret tt
  | x :: xs' => body x ;; forRange xs' body
  end.

Definition requested (w : World) (url : string) : World :=
  mkWorld (fs w) (out w) (requests w ++ [url]).

Definition Visit (c : Collector) (url : string) : M Visited :=
  fun w => Done (c (length (requests w)) url, requested w url).

(** [d.MaxBodySize = max] on a clone of the collector. *)
Definition withMaxBodySize (max : N) (c : Collector) : Collector :=
  fun n url =>
    let v := c n url in
    mkVisited
      (option_map (fun r => mkResponse (StatusCode r) (limitBody max (Body r)))
                  (delivered v))
      (visitErr v).

(** [Response.Save] writes the body with [ioutil.WriteFile]. *)
Definition Save (dr : Response) (fileName : string) : M (option errno) :=
  writeFS (fun fs => ioutil.WriteFile fs fileName (Body dr)).

(** ** The program *)

(** The conversion [int64(x)] of a [uint64]. *)
Definition int64 (x : N) : Z :=
  let z := (Z.of_N x mod 2 ^ 64)%Z in
  if (z <? 2 ^ 63)%Z then z else (z - 2 ^ 64)%Z.

Definition ensureDirectory (name : string) : M bool :=
  st <- readFS (fun fs => os.Stat fs name) ;;
  match st with
  | Err err =>
      if os.IsNotExist err then
        r <- writeFS (fun fs => os.Mkdir fs name) ;;
        match r with
        | Some err' => Fprintf errOut (CouldNotCreate name err') ;; ret false
        | None => ret true
        end
      else
        Fprintf errOut (CouldNotStat name err) ;; ret false
  | Ok info =>
      (* [info == nil] cannot hold when [err == nil] *)
      if negb (info_IsDir info) then
        Fprintf errOut (NotADirectory name) ;; ret false
      else ret true
  end.

Definition dlTarget (dir : string) (file : File) : string :=
  path.Join dir (Filename file).

Definition dlSHA (target : string) : string := target ++ ".sha".

Definition writeHash (hashFile hash : string) : M (option errno) :=
  r <- writeFS (fun fs =>
         ioutil.WriteFile fs hashFile (list_byte_of_string hash)) ;;
  match r with
  | Some err =>
      Fprintf errOut (CouldNotWriteHash hashFile err) ;; ret (Some err)
  | None => ret None
  end.

(** The result is the digest, or [nil] (the empty slice) on failure. *)
Definition computeHash (target : string) : M (list byte) :=
  opened <- readFS (fun fs => os.Open fs target) ;;
  match opened with
  | Err err => Fprintf errOut (CouldNotRead target err) ;; ret []
  | Ok f =>
      match hashReader f with
      | Err err => Fprintf errOut (CouldNotHash target err) ;; ret []
      | Ok hashBytes =>
          let hash := hex.EncodeToString hashBytes in
          let hashFile := dlSHA target in
          _ <- writeHash hashFile hash ;;
          ret hashBytes
      end
  end.

Definition checkHash (dir : string) (file : File) : M bool :=
  let target := dlTarget dir file in
  st <- readFS (fun fs => os.Stat fs target) ;;
  match st with
  | Err _ => ret false
  | Ok info =>
      if negb (info_Size info =? int64 (Size file))%Z then
        Fprintf errOut (SizeIs target (info_Size info) (Size file)) ;;
        ret false
      else
        let hashFile := dlSHA target in
        rd <- readFS (fun fs => ioutil.ReadFile fs hashFile) ;;
        match rd with
        | Err err =>
            if os.IsNotExist err then
              hashBytes <- computeHash target ;;
              lift (Hash_Equal (SHA256Sum file) hashBytes)
            else
              Fprintf errOut (CouldNotRead hashFile err) ;;
              ret false
        | Ok hd =>
            match hex.DecodeString (string_of_list_byte hd) with
            | (_, Some err) =>
                Fprintf errOut (MalformedHashFile hashFile err) ;;
                ret false
            | (hb, None) =>
                matches <- lift (Hash_Equal (SHA256Sum file) hb) ;;
                (if negb matches then
                   Fprintf errOut (ShaDoesNotMatch target (SHA256Sum file) hd)
                 else ret tt) ;;
                ret matches
            end
        end
  end.

(** The [OnResponse] callback registered by [downloadFile]. *)
Definition downloadFile_OnResponse (releaseName : string) (download : File)
    (dr : Response) : M unit :=
  if (StatusCode dr =? StatusOK)%Z then
    let target := dlTarget releaseName download in
    saved <- Save dr target ;;
    match saved with
    | Some err => Fprintf errOut (CouldNotSave target err)
    | None =>
        Fprintf statusOut (Downloaded target) ;;
        let hashFile := dlSHA target in
        wr <- writeHash hashFile (SHA256Sum download) ;;
        match wr with
        | Some _ => ret tt
        | None => Fprintf statusOut (SavedHash hashFile)
        end
    end
  else ret tt.

Definition downloadFile (c : Collector) (releaseName : string)
    (download : File) : M unit :=
  let d := withMaxBodySize maxDownloadBody c in
  let dl := fileDownloadFmt (Filename download) in
  Fprintf errOut (Getting dl) ;;
  v <- Visit d dl ;;
  match delivered v with
  | Some dr => downloadFile_OnResponse releaseName download dr
  | None => ret tt
  end ;;
  match visitErr v with
  | Some err => Fprintf errOut (CouldNotVisit dl err)
  | None => ret tt
  end.

(** The body of the inner loop of [main], over the downloads of a release. *)
Definition main_download (c : Collector) (releaseName : string)
    (download : File) : M unit :=
  if skipFile download then
    Fprintf errOut (SkippingFile releaseName (Filename download))
  else
    satisfied <- checkHash releaseName download ;;
    if satisfied then
      Fprintf errOut (AlreadyDownloaded releaseName (Filename download))
    else
      Fprintf statusOut
        (Downloading releaseName (Filename download) (SHA256Sum download)) ;;
      downloadFile c releaseName download.

(** The body of the outer loop of [main], over the releases. *)
Definition main_release (c : Collector) (release : Release) : M unit :=
  let releaseName := RVersion release in
  if skipRelease releaseName then
    Fprintf errOut (SkippingRelease releaseName)
  else
    ok <- ensureDirectory releaseName ;;
    if negb ok then ret tt
    else forRange (Downloads release) (main_download c releaseName).

(** The [OnResponse] callback of [main], given what [Parse] made of the
    body: the releases, or nothing when the document did not decode. *)
Definition main_OnResponse (c : Collector) (parsed : option Releases)
  : M unit :=
  match parsed with
  | None => Fprintf errOut ErrorParsing
  | Some releases => forRange releases (main_release c)
  end.

(** A run from a filesystem, with nothing printed or requested yet. *)
Definition start (fs0 : FileSystem) : World := mkWorld fs0 [] [].

(** ** The earlier revision

    [src/main.go] is the same program before [computeHash], [downloadFile]
    and [writeHash] were split off: the hashing and the fetch are written
    out in [checkHash] and in [main], there is no list of excluded
    versions, skips are silent, and everything is printed to [os.Stdout]
    and [os.Stderr] directly.  [skipFile], [ensureDirectory], [dlTarget],
    [dlSHA] and the [Hash] type are the same. *)

Module Earlier.

Definition skipRelease (version : string) : bool :=
  if Contains version "beta" then true
  else if Contains version "rc" then true
  else false.

Definition checkHash (dir : string) (file : File) : M bool :=
  let target := dlTarget dir file in
  st <- readFS (fun fs => os.Stat fs target) ;;
  match st with
  | Err _ => ret false
  | Ok info =>
      if negb (info_Size info =? int64 (Size file))%Z then
        Fprintf errOut (SizeIs target (info_Size info) (Size file)) ;;
        ret false
      else
        let hashFile := dlSHA target in
        rd <- readFS (fun fs => ioutil.ReadFile fs hashFile) ;;
        match rd with
        | Err err =>
            if os.IsNotExist err then
              opened <- readFS (fun fs => os.Open fs target) ;;
              match opened with
              | Err err' =>
                  Fprintf errOut (CouldNotRead target err') ;; ret false
              | Ok f =>
                  match hashReader f with
                  | Err err' =>
                      Fprintf errOut (CouldNotHash target err') ;; ret false
                  | Ok hashBytes =>
                      let hash := hex.EncodeToString hashBytes in
                      wr <- writeFS (fun fs =>
                              ioutil.WriteFile fs hashFile
                                (list_byte_of_string hash)) ;;
                      match wr with
                      | Some err' =>
                          Fprintf errOut (CouldNotWriteHash hashFile err')
                      | None => ret tt
                      end ;;
                      lift (Hash_Equal (SHA256Sum file) hashBytes)
                  end
              end
            else
              Fprintf errOut (CouldNotRead hashFile err) ;;
              ret false
        | Ok hd =>
            match hex.DecodeString (string_of_list_byte hd) with
            | (_, Some err) =>
                Fprintf errOut (MalformedHashFile hashFile err) ;;
                ret false
            | (hb, None) =>
                matches <- lift (Hash_Equal (SHA256Sum file) hb) ;;
                (if negb matches then
                   Fprintf errOut (ShaDoesNotMatch target (SHA256Sum file) hd)
                 else ret tt) ;;
                ret matches
            end
        end
  end.

(** The [OnResponse] callback registered in the loop of [main]. *)
Definition main_download_OnResponse (release_name : string) (download : File)
    (dr : Response) : M unit :=
  Fprintf errOut (ResponseStatus (StatusCode dr)) ;;
  if (StatusCode dr =? StatusOK)%Z then
    let target := dlTarget release_name download in
    saved <- Save dr target ;;
    match saved with
    | Some err => Fprintf errOut (CouldNotSave target err)
    | None =>
        Fprintf statusOut (Downloaded target) ;;
        let hashFile := dlSHA target in
        wr <- writeFS (fun fs =>
                ioutil.WriteFile fs hashFile
                  (list_byte_of_string (SHA256Sum download))) ;;
        match wr with
        | Some err => Fprintf errOut (CouldNotWriteHash hashFile err)
        | None => Fprintf statusOut (SavedHash hashFile)
        end
    end
  else ret tt.

(** The body of the inner loop of [main]. *)
Definition main_download (c : Collector) (release_name : string)
    (download : File) : M unit :=
  if skipFile download then ret tt
  else
    satisfied <- checkHash release_name download ;;
    if satisfied then
      Fprintf statusOut (AlreadyDownloaded release_name (Filename download))
    else
      Fprintf statusOut
        (Downloading release_name (Filename download) (SHA256Sum download)) ;;
      let d := withMaxBodySize maxDownloadBody c in
      let dl := fileDownloadFmt (Filename download) in
      Fprintf errOut (Getting dl) ;;
      v <- Visit d dl ;;
      match delivered v with
      | Some dr => main_download_OnResponse release_name download dr
      | None => ret tt
      end ;;
      match visitErr v with
      | Some err => Fprintf errOut (CouldNotVisit dl err)
      | None => ret tt
      end.

(** The body of the outer loop of [main]. *)
Definition main_release (c : Collector) (release : Release) : M unit :=
  let release_name := RVersion release in
  if skipRelease release_name then ret tt
  else
    ok <- ensureDirectory release_name ;;
    if negb ok then ret tt
    else forRange (Downloads release) (main_download c release_name).

Definition main_OnResponse (c : Collector) (parsed : option Releases)
  : M unit :=
  match parsed with
  | None => Fprintf errOut ErrorParsing
  | Some releases => forRange releases (main_release c)
  end.

End Earlier.

(** ** Vocabulary of the properties *)

(** The answer to the request [downloadFile] makes in world [w]: what the
    clone with the body limit delivers for the download URL of the file. *)
Definition fetched (c : Collector) (w : World) (file : File) : Visited :=
  withMaxBodySize maxDownloadBody c (length (requests w))
    (fileDownloadFmt (Filename file)).

(** The verifier hashed a file with content [data] whose sidecar was
    absent: the verdict [r] is the comparison of the expected hash with
    the digest of the content, and the world [w'] is [w] with the
    filesystem as the write of the digest to the sidecar left it and,
    when that write failed, the failure printed. *)
Definition hashed_and_cached (dir : string) (file : File) (w : World)
    (data : list byte) (r : bool) (w' : World) : Prop :=
  Hash_Equal (SHA256Sum file) (sha256.Sum data) = Done r
  /\ w' = match ioutil.WriteFile (fs w) (dlSHA (dlTarget dir file))
                  (list_byte_of_string
                     (hex.EncodeToString (sha256.Sum data))) with
          | (None, fs') => with_fs w fs'
          | (Some e, fs') =>
              logged (with_fs w fs') errOut
                (CouldNotWriteHash (dlSHA (dlTarget dir file)) e)
          end.

(** The world in which the callback of [downloadFile] runs: the request
    announced and made. *)
Definition asked (download : File) (w : World) : World :=
  requested (logged w errOut (Getting (fileDownloadFmt (Filename download))))
            (fileDownloadFmt (Filename download)).

(** The line printed when [Visit] returned an error to [downloadFile]. *)
Definition visit_reported (c : Collector) (download : File) (w w' : World)
  : World :=
  match visitErr (fetched c w download) with
  | Some err =>
      logged w' errOut (CouldNotVisit (fileDownloadFmt (Filename download)) err)
  | None => w'
  end.

(** The two paths an artifact lives at. *)
Definition paths_of (releaseName : string) (file : File) : list string :=
  [dlTarget releaseName file; dlSHA (dlTarget releaseName file)].

Definition same_faults (fs1 fs2 : FileSystem) : Prop :=
  statFails fs1 = statFails fs2
  /\ openFails fs1 = openFails fs2
  /\ writeFails fs1 = writeFails fs2
  /\ writeBreaks fs1 = writeBreaks fs2.

(** Two filesystems that fail at the same paths and hold the same nodes at
    the given paths, respectively everywhere but at the given paths. *)
Definition agree_at (paths : list string) (fs1 fs2 : FileSystem) : Prop :=
  same_faults fs1 fs2
  /\ forall p, In p paths -> nodes fs1 !! p = nodes fs2 !! p.

Definition agree_outside (paths : list string) (fs1 fs2 : FileSystem) : Prop :=
  same_faults fs1 fs2
  /\ forall p, ~ In p paths -> nodes fs1 !! p = nodes fs2 !! p.

(** An artifact is satisfied in a filesystem when the verifier says so
    and leaves the filesystem as it is. *)
Definition satisfied (fs0 : FileSystem) (releaseName : string) (file : File)
  : Prop :=
  exists w', checkHash releaseName file (start fs0) = Done (true, w')
             /\ fs w' = fs0.

(** The release directory is there and can be inspected. *)
Definition dir_ok (fs0 : FileSystem) (name : string) : Prop :=
  exists info, os.Stat fs0 name = Ok info /\ info_IsDir info = true.

(** The artifacts the loop verifies: the files that are not skipped, of
    the releases that are not skipped. *)
Definition wanted (releases : Releases) (releaseName : string) (file : File)
  : Prop :=
  exists release,
    In release releases
    /\ skipRelease (RVersion release) = false
    /\ RVersion release = releaseName
    /\ In file (Downloads release)
    /\ skipFile file = false.

(** The lines by which the program reports an artifact as done: "already
    downloaded" for one the verifier accepted, "saved hash" for one that
    was fetched and written with its sidecar. *)
Inductive report : Type :=
| ReportAlready (releaseName filename : string)
| ReportSaved (hashFile : string).

Definition report_of (l : stream * line) : option report :=
  match l with
  | (errOut, AlreadyDownloaded releaseName filename) =>
      Some (ReportAlready releaseName filename)
  | (statusOut, SavedHash hashFile) => Some (ReportSaved hashFile)
  | _ => None
  end.

Fixpoint reports (log : list (stream * line)) : list report :=
  match log with
  | [] => []
  | l :: log' =>
      match report_of l with
      | Some r => r :: reports log'
      | None => reports log'
      end
  end.

Definition reported_done (log : list (stream * line)) (releaseName : string)
    (file : File) : Prop :=
  In (errOut, AlreadyDownloaded releaseName (Filename file)) log
  \/ In (statusOut, SavedHash (dlSHA (dlTarget releaseName file))) log.

(** The three ways a turn of the inner loop can go. *)
Inductive turn (c : Collector) (releaseName : string) (download : File)
    (w w' : World) : Prop :=
| TurnSkipped :
    skipFile download = true ->
    w' = logged w errOut (SkippingFile releaseName (Filename download)) ->
    turn c releaseName download w w'
| TurnAlready (w1 : World) :
    skipFile download = false ->
    checkHash releaseName download w = Done (true, w1) ->
    w' = logged w1 errOut (AlreadyDownloaded releaseName (Filename download)) ->
    turn c releaseName download w w'
| TurnFetched (w1 : World) :
    skipFile download = false ->
    checkHash releaseName download w = Done (false, w1) ->
    downloadFile c releaseName download
      (logged w1 statusOut
         (Downloading releaseName (Filename download) (SHA256Sum download)))
    = Done (tt, w') ->
    turn c releaseName download w w'.

(** ** The conditions of idempotence *)

(** No two artifacts the loop verifies share a path, unless they are the
    same entry of the same release. *)
Definition paths_separate (releases : Releases) : Prop :=
  forall rn f rn' f',
    wanted releases rn f -> wanted releases rn' f' ->
    (rn = rn' /\ f = f')
    \/ (forall p, In p (paths_of rn f) -> ~ In p (paths_of rn' f')).

(** Every expected hash is well-formed hexadecimal. *)
Definition hashes_wellformed (releases : Releases) : Prop :=
  forall rn f,
    wanted releases rn f -> snd (hex.DecodeString (SHA256Sum f)) = None.

(** Every body the collector delivers with status 200 for an artifact has
    the size the catalog declares for it. *)
Definition bodies_sized (c : Collector) (releases : Releases) : Prop :=
  forall rn f n dr,
    wanted releases rn f ->
    delivered (withMaxBodySize maxDownloadBody c n
                 (fileDownloadFmt (Filename f))) = Some dr ->
    StatusCode dr = StatusOK ->
    Z.of_nat (length (Body dr)) = int64 (Size f).

(** The filesystem lets the files be inspected and the sidecars be read. *)
Definition readable_back (fs0 : FileSystem) (releases : Releases) : Prop :=
  forall rn f,
    wanted releases rn f ->
    (dlTarget rn f ∉ statFails fs0)
    /\ (dlSHA (dlTarget rn f) ∉ openFails fs0).

(** A write to a sidecar, once the file is open, goes through. *)
Definition sidecars_whole (fs0 : FileSystem) (releases : Releases) : Prop :=
  forall rn f,
    wanted releases rn f -> writeBreaks fs0 !! dlSHA (dlTarget rn f) = None.

(** The run reported every artifact it had to verify as done. *)
Definition all_reported_done (releases : Releases)
    (log : list (stream * line)) : Prop :=
  forall rn f, wanted releases rn f -> reported_done log rn f.

(** What holds during the first run: whatever was reported done so far is
    satisfied, in its directory. *)
Definition inv_first (releases : Releases) (fs0 : FileSystem) (w : World)
  : Prop :=
  same_faults fs0 (fs w)
  /\ forall rn f,
       wanted releases rn f ->
       In (ReportAlready rn (Filename f)) (reports (out w))
       \/ In (ReportSaved (dlSHA (dlTarget rn f))) (reports (out w)) ->
       satisfied (fs w) rn f /\ dir_ok (fs w) rn.

(** What holds during the second run: every artifact is satisfied. *)
Definition inv_second (releases : Releases) (w : World) : Prop :=
  forall rn f,
    wanted releases rn f -> satisfied (fs w) rn f /\ dir_ok (fs w) rn.

(** The world a complete run of the callback ends in. *)
Definition after_run (c : Collector) (releases : Releases) (fs0 : FileSystem)
  : World :=
  match main_OnResponse c (Some releases) (start fs0) with
  | Done (_, w) => w
  | Panic => start fs0
  end.

(** ** A small catalog and some filesystems

    One release with one archive of five bytes, as the catalog lists it,
    and the states of the working directory the properties below are
    tried on. *)

Definition helloBody : list byte := list_byte_of_string "hello".

Definition helloSum : Hash :=
  "2cf24dba5fb0a30e26e83b2ac5b9e29e1b161e5c1fa7425e73043362938b9824".

Definition helloFile : File :=
  mkFile "go1.21.0.linux-amd64.tar.gz" "linux" "amd64" "go1.21.0"
         helloSum 5 "archive".

Definition helloRelease : Release := mkRelease "go1.21.0" true [helloFile].

Definition helloTarget : string := "go1.21.0/go1.21.0.linux-amd64.tar.gz".
Definition helloSidecar : string := "go1.21.0/go1.21.0.linux-amd64.tar.gz.sha".

(** Only the release directory exists. *)
Definition fsFresh : FileSystem :=
  plainFS {[ "go1.21.0" := Dir newDirSize ]}.

(** The archive is there, without a sidecar. *)
Definition fsNoSidecar : FileSystem :=
  set_node fsFresh helloTarget (Some (Regular helloBody)).

(** The archive and its sidecar are there. *)
Definition fsMirrored : FileSystem :=
  set_node fsNoSidecar helloSidecar
    (Some (Regular (list_byte_of_string helloSum))).

(** The archive was cut short; the sidecar still holds the right hash. *)
Definition fsTruncated : FileSystem :=
  set_node fsMirrored helloTarget
    (Some (Regular (list_byte_of_string "hell"))).

(** The sidecar holds text that is not hexadecimal. *)
Definition fsGarbledSidecar : FileSystem :=
  set_node fsMirrored helloSidecar
    (Some (Regular (list_byte_of_string "not a hash"))).

(** The archive is there, without a sidecar, and cannot be opened. *)
Definition fsLocked : FileSystem :=
  mkFS (nodes fsNoSidecar) ∅ {[ helloTarget ]} ∅ ∅.

(** The archive is there and readable, but no sidecar can be created. *)
Definition fsReadOnly : FileSystem :=
  mkFS (nodes fsNoSidecar) ∅ ∅ {[ helloSidecar ]} ∅.

(** *** Catalogs and servers on which a second run fetches again *)

(** Nothing is there yet, not even the release directory. *)
Definition fsEmpty : FileSystem := plainFS ∅.

(** A server that sends four bytes for the archive of five. *)
Definition shortServer : Collector := serving (list_byte_of_string "hell").

(** The same archive with a hash that is not hexadecimal. *)
Definition garbledFile : File :=
  mkFile "go1.21.0.linux-amd64.tar.gz" "linux" "amd64" "go1.21.0"
         "zz" 5 "archive".

Definition garbledRelease : Release := mkRelease "go1.21.0" true [garbledFile].

(** Two entries of one release, the second named like the sidecar of the
    first. *)
Definition pkgFile : File :=
  mkFile "pkg" "linux" "amd64" "go1.21.0" helloSum 5 "archive".

Definition pkgShaFile : File :=
  mkFile "pkg.sha" "linux" "amd64" "go1.21.0" helloSum 5 "archive".

Definition clashRelease : Release :=
  mkRelease "go1.21.0" true [pkgFile; pkgShaFile].

(** A sidecar path that can be written but not read back. *)
Definition fsWriteOnly : FileSystem := mkFS ∅ ∅ {[ helloSidecar ]} ∅ ∅.

(** The archive cannot be opened and the catalog gives no hash for it. *)
Definition hashlessFile : File :=
  mkFile "go1.21.0.linux-amd64.tar.gz" "linux" "amd64" "go1.21.0"
         "" 5 "archive".

(** An archive the catalog declares at one GiB, above the body limit. *)
Definition hugeFile : File :=
  mkFile "go1.21.0.linux-amd64.tar.gz" "linux" "amd64" "go1.21.0"
         helloSum (2 ^ 30) "archive".

(** A directory stands where the archive should go. *)
Definition fsDirInTheWay : FileSystem :=
  set_node fsFresh helloTarget (Some (Dir newDirSize)).

(** Nothing of [fs1] is lost in [fs2]: the same calls fail, every path that
    held something still holds something, and a directory is still that
    directory. *)
Definition kept (fs1 fs2 : FileSystem) : Prop :=
  same_faults fs1 fs2
  /\ (forall p n, nodes fs1 !! p = Some n ->
                  exists n', nodes fs2 !! p = Some n')
  /\ (forall p size, nodes fs1 !! p = Some (Dir size) ->
                     nodes fs2 !! p = Some (Dir size)).

(** The paths a run over a catalog may write: the directory of a release
    that is not skipped, and the file and the sidecar of a wanted
    artifact. *)
Definition touchable (releases : Releases) (p : string) : Prop :=
  (exists release,
      In release releases
      /\ skipRelease (RVersion release) = false
      /\ p = RVersion release)
  \/ exists rn f, wanted releases rn f /\ In p (paths_of rn f).

(** A plain name: a single path element that [path.Clean] keeps as it
    is. *)
Fixpoint no_slash (s : string) : bool :=
  match s with
  | EmptyString => true
  | String c s' => negb (Ascii.eqb c "/") && no_slash s'
  end.

Definition plain_name (s : string) : Prop :=
  no_slash s = true /\ s <> "" /\ s <> "." /\ s <> "..".

(** *** Writes that break off *)

(** The archive is there without a sidecar, and a write to the sidecar
    breaks off after [n] bytes. *)
Definition fsBreaking (n : nat) : FileSystem :=
  mkFS (nodes fsNoSidecar) ∅ ∅ ∅ {[ helloSidecar := n ]}.


(** * Properties *)

(** ** SHA-256 test vectors (FIPS 180-4, appendix B) *)

Example sha256_abc :
  hex.EncodeToString (sha256.Sum (list_byte_of_string "abc"))
  = "ba7816bf8f01cfea414140de5dae2223b00361a396177a9cb410ff61f20015ad".
Proof. vm_compute. reflexivity. Qed.

Example sha256_empty :
  hex.EncodeToString (sha256.Sum [])
  = "e3b0c44298fc1c149afbf4c8996fb92427ae41e4649b934ca495991b7852b855".
Proof. vm_compute. reflexivity. Qed.

Example sha256_two_blocks :
  hex.EncodeToString (sha256.Sum (repeat "a"%byte 70))
  = "6bd5e5034855a11241f0dee8fc72850ffd9955b28347a86428b5fa19119f6ad0".
Proof. vm_compute. reflexivity. Qed.

(** ** encoding/hex: decoding inverts encoding *)

Lemma Decode_Encode_byte (v : byte) (rest : list byte) :
  hex.Decode (hex.Encode [v] ++ rest)
  = (v :: fst (hex.Decode rest), snd (hex.Decode rest)).
Proof.
  destruct v; cbn [hex.Encode flat_map app];
    change (hex.Decode (?a :: ?b :: rest))
      with (let '(o, e) := hex.Decode rest in
            (byte_of_N (N.lor (N.shiftl (hex.reverseHexTable a) 4)
                              (hex.reverseHexTable b)) :: o, e));
    destruct (hex.Decode rest); reflexivity.
Qed.

Lemma Decode_Encode (bs : list byte) :
  hex.Decode (hex.Encode bs) = (bs, None).
Proof.
  induction bs as [|v bs IH]; [reflexivity|].
  change (hex.Encode (v :: bs)) with (hex.Encode [v] ++ hex.Encode bs).
  rewrite Decode_Encode_byte, IH. reflexivity.
Qed.

Lemma DecodeString_EncodeToString (bs : list byte) :
  hex.DecodeString (hex.EncodeToString bs) = (bs, None).
Proof.
  unfold hex.DecodeString, hex.EncodeToString.
  rewrite list_byte_of_string_of_list_byte. apply Decode_Encode.
Qed.

(** ** Hash.Equal *)

Lemma byte_neq_false (x y : byte) : byte_neq x y = false <-> x = y.
Proof.
  unfold byte_neq. rewrite negb_false_iff. split.
  - apply Byte.byte_dec_bl.
  - apply Byte.byte_dec_lb.
Qed.

(** With slices of one length the loop runs to its end without a panic and
    compares the slices from [ix] on. *)
Lemma Equal_loop_spec (count : nat) :
  forall (self other : list byte) (ix : nat),
    ix + count = length self ->
    length self = length other ->
    exists r, Equal_loop self other ix count = Done r
              /\ (r = true <-> drop ix self = drop ix other).
Proof.
  induction count as [|count IH]; intros self other ix Hix Hlen; cbn [Equal_loop].
  - exists true. split; [reflexivity|]. split; [intros _|reflexivity].
    rewrite !drop_ge by lia. reflexivity.
  - destruct (lookup_lt_is_Some_2 self ix) as [x Hx]; [lia|].
    destruct (lookup_lt_is_Some_2 other ix) as [y Hy]; [lia|].
    rewrite Hx, Hy.
    rewrite (drop_S _ _ _ Hx), (drop_S _ _ _ Hy).
    destruct (byte_neq x y) eqn:Hxy.
    + exists false. split; [reflexivity|]. split; [discriminate|].
      intros Heq. injection Heq as Hh _.
      apply byte_neq_false in Hh. congruence.
    + apply byte_neq_false in Hxy. subst y.
      destruct (IH self other (S ix)) as (r & Hr & Hiff); [lia|assumption|].
      exists r. split; [assumption|]. rewrite Hiff. split; congruence.
Qed.

Lemma Hash_Equal_spec (h : Hash) (b : list byte) :
  exists r : bool,
    Hash_Equal h b = Done r
    /\ (snd (hex.DecodeString h) <> None -> r = false)
    /\ (length (fst (hex.DecodeString h)) <> length b -> r = false)
    /\ (r = true <-> hex.DecodeString h = (b, None)).
Proof.
  unfold Hash_Equal, Hash_Bytes.
  destruct (hex.DecodeString h) as [self [e|]] eqn:Hdec; cbn [fst snd].
  - exists false. repeat split; try discriminate; congruence.
  - destruct (Nat.eqb_spec (length self) (length b)) as [Hlen|Hlen]; cbn [negb].
    + destruct (Equal_loop_spec (length self) self b 0) as (r & Hr & Hiff);
        [reflexivity|assumption|].
      exists r. rewrite !drop_0 in Hiff.
      split; [assumption|]. split; [congruence|]. split; [congruence|].
      rewrite Hiff. split; congruence.
    + exists false.
      split; [reflexivity|]. split; [reflexivity|]. split; [reflexivity|].
      split; [discriminate|]. intros Heq. injection Heq as ->. contradiction.
Qed.

Lemma Hash_Equal_returns (h : Hash) (b : list byte) :
  exists r, Hash_Equal h b = Done r.
Proof. destruct (Hash_Equal_spec h b) as (r & Hr & _). eauto. Qed.

Lemma Hash_Equal_true (h : Hash) (b : list byte) :
  hex.DecodeString h = (b, None) -> Hash_Equal h b = Done true.
Proof.
  intros Hdec. destruct (Hash_Equal_spec h b) as (r & Hr & _ & _ & Hiff).
  apply Hiff in Hdec. subst r. exact Hr.
Qed.

Lemma Decode_nil (src : list byte) :
  hex.Decode src = ([], None) -> src = [].
Proof.
  destruct src as [|p [|q rest]]; cbn [hex.Decode]; [reflexivity|..].
  - destruct (_ <? _)%N; discriminate.
  - destruct (_ <? _)%N; [discriminate|].
    destruct (_ <? _)%N; [discriminate|].
    destruct (hex.Decode rest). discriminate.
Qed.

(** A hash text that is not empty never equals the empty slice. *)
Lemma Hash_Equal_nil (h : Hash) :
  h <> "" -> Hash_Equal h [] = Done false.
Proof.
  intros Hne. destruct (Hash_Equal_spec h []) as (r & Hr & _ & _ & Hiff).
  destruct r; [|exact Hr]. exfalso. apply Hne.
  assert (hex.DecodeString h = ([], None)) as Hdec by (apply Hiff; reflexivity).
  apply Decode_nil in Hdec.
  rewrite <- (string_of_list_byte_of_string h), Hdec. reflexivity.
Qed.

(** C2. Hash.Equal decodes the hash text first, as hexadecimal, and
    always returns: the bytes of a hash are the hexadecimal decoding of
    its text; the comparison answers false when the text does not decode
    and when the decoded length differs from that of the other bytes, and
    true exactly when the text decodes, without error, to the other
    bytes.  A text that is not hexadecimal equals nothing, the empty
    slice included. *)
Theorem Hash_Equal_decodes_then_compares (h : Hash) (b : list byte) :
  Hash_Bytes h = hex.DecodeString h
  /\ (exists r : bool,
         Hash_Equal h b = Done r
         /\ (snd (hex.DecodeString h) <> None -> r = false)
         /\ (length (fst (hex.DecodeString h)) <> length b -> r = false)
         /\ (r = true <-> hex.DecodeString h = (b, None)))
  /\ Hash_Equal "zz" [] = Done false
  /\ Hash_Equal "zz" b = Done false.
Proof.
  split; [reflexivity|]. split; [exact (Hash_Equal_spec h b)|].
  split; reflexivity.
Qed.

(** ** The skip policies *)

Lemma HasPrefix_spec (prefix : string) :
  forall s : string,
    HasPrefix s prefix = true <-> exists post, s = String.append prefix post.
Proof.
  induction prefix as [|c prefix IH]; intros s; cbn [HasPrefix].
  - split; [intros _; exists s; reflexivity | reflexivity].
  - destruct s as [|d s].
    + split; [discriminate | intros [post H]; discriminate H].
    + rewrite andb_true_iff, IH, Ascii.eqb_eq. split.
      * intros [-> [post ->]]. exists post. reflexivity.
      * intros [post H]. cbn in H. injection H as -> ->. eauto.
Qed.

Lemma Contains_spec (substr : string) :
  forall s : string,
    Contains s substr = true
    <-> exists pre post, s = String.append pre (String.append substr post).
Proof.
  induction s as [|c s IH]; cbn [Contains]; rewrite orb_true_iff, HasPrefix_spec.
  - split.
    + intros [[post H]|H]; [|discriminate]. exists EmptyString, post. exact H.
    + intros (pre & post & H). left. destruct pre; [|discriminate H].
      exists post. exact H.
  - rewrite IH. split.
    + intros [[post H]|(pre & post & H)].
      * exists EmptyString, post. exact H.
      * exists (String c pre), post. cbn. rewrite H. reflexivity.
    + intros (pre & post & H). destruct pre as [|c' pre].
      * left. exists post. exact H.
      * right. cbn in H. injection H as _ H. eauto.
Qed.

Lemma range_any_spec {A : Type} (p : A -> bool) (xs : list A) :
  range_any p xs = true <-> exists x, In x xs /\ p x = true.
Proof.
  induction xs as [|x xs IH]; cbn [range_any In].
  - split; [discriminate | intros (x & [] & _)].
  - destruct (p x) eqn:Hp.
    + split; [intros _; eauto | reflexivity].
    + rewrite IH. split.
      * intros (y & Hy & Hpy). eauto.
      * intros (y & [<-|Hy] & Hpy); [congruence | eauto].
Qed.

(** C5. The release skip policy is a function of the version string alone.
    It answers "skip" exactly when the version is one of the excluded
    versions or contains one of the pre-release words as a substring,
    wherever the word stands: 1.2.0-rcdoc is skipped as well. *)
Theorem skipRelease_iff (version : string) :
  (skipRelease version = true
   <-> In version skipVersions
       \/ exists word, In word skipWords
            /\ exists pre post,
                 version = String.append pre (String.append word post))
  /\ skipRelease "1.2.0-rcdoc" = true.
Proof.
  split; [|reflexivity].
  unfold skipRelease.
  destruct (range_any _ skipVersions) eqn:Hv.
  - split; [intros _|reflexivity]. left.
    apply range_any_spec in Hv as (ver & Hin & Heq).
    apply String.eqb_eq in Heq. subst. exact Hin.
  - destruct (range_any _ skipWords) eqn:Hw.
    + split; [intros _|reflexivity]. right.
      apply range_any_spec in Hw as (word & Hin & Hc).
      exists word. split; [exact Hin|]. apply Contains_spec. exact Hc.
    + split; [discriminate|]. intros [Hin|(word & Hin & Hsub)].
      * assert (range_any (fun ver => String.eqb ver version) skipVersions = true)
          as Hv' by (apply range_any_spec; exists version;
                     split; [exact Hin | apply String.eqb_refl]).
        congruence.
      * assert (range_any (fun word => Contains version word) skipWords = true)
          as Hw' by (apply range_any_spec; exists word;
                     split; [exact Hin | apply Contains_spec; exact Hsub]).
        congruence.
Qed.

(** ** Running the monad *)

Ltac run_go :=
  cbv beta iota zeta delta [bind ret lift readFS writeFS Fprintf].

(** Case analysis on every test the unfolded code makes, innermost first;
    [tac] is tried before each case split. *)
Ltac split_branches_using tac :=
  repeat match goal with
         | _ => progress tac
         | |- context [match ?x with _ => _ end] =>
             lazymatch x with
             | context [match _ with _ => _ end] => fail
             | _ => destruct x eqn:?
             end
         | |- context [if ?x then _ else _] =>
             lazymatch x with
             | context [if _ then _ else _] => fail
             | _ => destruct x eqn:?
             end
         | _ => progress cbn [fs logged with_fs negb] in *
         end.

Ltac split_branches := split_branches_using idtac.

Lemma with_fs_same (w : World) : with_fs w (fs w) = w.
Proof. destruct w; reflexivity. Qed.

Lemma length_append (a b : string) :
  String.length (String.append a b) = String.length a + String.length b.
Proof.
  induction a as [|c a IH]; [reflexivity|].
  change (S (String.length (String.append a b))
          = S (String.length a + String.length b)).
  rewrite IH. reflexivity.
Qed.

Lemma dlSHA_neq (target : string) : dlSHA target <> target.
Proof.
  unfold dlSHA. intros H.
  apply (f_equal String.length) in H.
  rewrite length_append in H. cbn in H. lia.
Qed.

(** ** The filesystem calls *)

Lemma Stat_size_nonneg (fs0 : FileSystem) (name : string) (info : FileInfo) :
  os.Stat fs0 name = Ok info -> (0 <= info_Size info)%Z.
Proof.
  unfold os.Stat. destruct (decide _); [discriminate|].
  destruct (nodes fs0 !! name) as [[size|data]|]; intros H; inversion H; cbn; lia.
Qed.

(** [os.Stat] of a path looks at that path only. *)
Lemma Stat_with_nodes_ne (fs0 : FileSystem) (m : gmap string node)
    (name : string) :
  m !! name = nodes fs0 !! name ->
  os.Stat (with_nodes fs0 m) name = os.Stat fs0 name.
Proof. unfold os.Stat. cbn. intros ->. reflexivity. Qed.

Lemma int64_of_size (actual : Z) (declared : N) :
  uint64_ok declared ->
  (0 <= actual)%Z ->
  actual <> Z.of_N declared ->
  actual <> int64 declared.
Proof.
  unfold uint64_ok, int64. intros Hd Ha Hne.
  assert (0 <= Z.of_N declared < 2 ^ 64)%Z as Hr by lia.
  rewrite Z.mod_small by exact Hr.
  destruct (Z.ltb_spec (Z.of_N declared) (2 ^ 63)); lia.
Qed.

(** ** The integrity verifier, branch by branch *)

Section checkHash_branches.

Variables (dir : string) (file : File) (w : World).

Local Abbreviation target := (dlTarget dir file).
Local Abbreviation hashFile := (dlSHA (dlTarget dir file)).

Lemma checkHash_unstatable (e : errno) :
  os.Stat (fs w) target = Err e ->
  checkHash dir file w = Done (false, w).
Proof.
  intros Hstat. unfold checkHash. run_go. rewrite Hstat.
  reflexivity.
Qed.

Lemma checkHash_wrong_size (info : FileInfo) :
  os.Stat (fs w) target = Ok info ->
  info_Size info <> int64 (Size file) ->
  checkHash dir file w
  = Done (false, logged w errOut (SizeIs target (info_Size info) (Size file))).
Proof.
  intros Hstat Hsize. unfold checkHash. run_go. rewrite Hstat.
  destruct (Z.eqb_spec (info_Size info) (int64 (Size file))); [contradiction|].
  reflexivity.
Qed.

Lemma checkHash_sidecar_unreadable (info : FileInfo) (e : errno) :
  os.Stat (fs w) target = Ok info ->
  info_Size info = int64 (Size file) ->
  ioutil.ReadFile (fs w) hashFile = Err e ->
  os.IsNotExist e = false ->
  checkHash dir file w
  = Done (false, logged w errOut (CouldNotRead hashFile e)).
Proof.
  intros Hstat Hsize Hread He. unfold checkHash. run_go.
  rewrite Hstat, Hsize, Z.eqb_refl. cbn [negb].
  rewrite Hread, He. reflexivity.
Qed.

Lemma checkHash_sidecar_malformed (info : FileInfo) (hd hb : list byte)
    (e : hex.error) :
  os.Stat (fs w) target = Ok info ->
  info_Size info = int64 (Size file) ->
  ioutil.ReadFile (fs w) hashFile = Ok hd ->
  hex.DecodeString (string_of_list_byte hd) = (hb, Some e) ->
  checkHash dir file w
  = Done (false, logged w errOut (MalformedHashFile hashFile e)).
Proof.
  intros Hstat Hsize Hread Hdec. unfold checkHash. run_go.
  rewrite Hstat, Hsize, Z.eqb_refl. cbn [negb].
  rewrite Hread, Hdec. reflexivity.
Qed.

Lemma checkHash_sidecar_decoded (info : FileInfo) (hd hb : list byte)
    (matches : bool) :
  os.Stat (fs w) target = Ok info ->
  info_Size info = int64 (Size file) ->
  ioutil.ReadFile (fs w) hashFile = Ok hd ->
  hex.DecodeString (string_of_list_byte hd) = (hb, None) ->
  Hash_Equal (SHA256Sum file) hb = Done matches ->
  checkHash dir file w
  = Done (matches,
          if matches then w
          else logged w errOut (ShaDoesNotMatch target (SHA256Sum file) hd)).
Proof.
  intros Hstat Hsize Hread Hdec Heq. unfold checkHash. run_go.
  rewrite Hstat, Hsize, Z.eqb_refl. cbn [negb].
  rewrite Hread, Hdec, Heq. destruct matches; reflexivity.
Qed.

(** The sidecar is absent and the file cannot be opened: nothing is
    hashed or written, and the hash is compared with the empty slice. *)
Lemma checkHash_absent_unopened (info : FileInfo) (e : errno) (matches : bool) :
  os.Stat (fs w) target = Ok info ->
  info_Size info = int64 (Size file) ->
  ioutil.ReadFile (fs w) hashFile = Err ENOENT ->
  os.Open (fs w) target = Err e ->
  Hash_Equal (SHA256Sum file) [] = Done matches ->
  checkHash dir file w
  = Done (matches, logged w errOut (CouldNotRead target e)).
Proof.
  intros Hstat Hsize Hread Hopen Heq. unfold checkHash, computeHash. run_go.
  rewrite Hstat, Hsize, Z.eqb_refl. cbn [negb].
  rewrite Hread. cbn [os.IsNotExist]. rewrite Hopen. cbn [fs logged].
  rewrite Heq. reflexivity.
Qed.

Lemma checkHash_absent_unhashed (info : FileInfo) (f : node) (e : errno)
    (matches : bool) :
  os.Stat (fs w) target = Ok info ->
  info_Size info = int64 (Size file) ->
  ioutil.ReadFile (fs w) hashFile = Err ENOENT ->
  os.Open (fs w) target = Ok f ->
  hashReader f = Err e ->
  Hash_Equal (SHA256Sum file) [] = Done matches ->
  checkHash dir file w
  = Done (matches, logged w errOut (CouldNotHash target e)).
Proof.
  intros Hstat Hsize Hread Hopen Hhash Heq. unfold checkHash, computeHash. run_go.
  rewrite Hstat, Hsize, Z.eqb_refl. cbn [negb].
  rewrite Hread. cbn [os.IsNotExist]. rewrite Hopen, Hhash. cbn [fs logged].
  rewrite Heq. reflexivity.
Qed.

(** The sidecar is absent and the file is hashed: the digest is written
    to the sidecar if the write succeeds, and compared either way. *)
Lemma checkHash_absent_hashed (info : FileInfo) (f : node)
    (hashBytes : list byte) (matches : bool) :
  os.Stat (fs w) target = Ok info ->
  info_Size info = int64 (Size file) ->
  ioutil.ReadFile (fs w) hashFile = Err ENOENT ->
  os.Open (fs w) target = Ok f ->
  hashReader f = Ok hashBytes ->
  Hash_Equal (SHA256Sum file) hashBytes = Done matches ->
  checkHash dir file w
  = Done (matches,
          match ioutil.WriteFile (fs w) hashFile
                  (list_byte_of_string (hex.EncodeToString hashBytes)) with
          | (None, fs') => with_fs w fs'
          | (Some e, fs') =>
              logged (with_fs w fs') errOut (CouldNotWriteHash hashFile e)
          end).
Proof.
  intros Hstat Hsize Hread Hopen Hhash Heq.
  unfold checkHash, computeHash, writeHash. run_go.
  rewrite Hstat, Hsize, Z.eqb_refl. cbn [negb].
  rewrite Hread. cbn [os.IsNotExist]. rewrite Hopen, Hhash.
  destruct (ioutil.WriteFile _ _ _) as [[e|] fs'];
    cbn [fs logged with_fs]; rewrite Heq; reflexivity.
Qed.

End checkHash_branches.

Lemma ReadFile_cases (fs0 : FileSystem) (name : string) :
  (exists hd, ioutil.ReadFile fs0 name = Ok hd
              /\ nodes fs0 !! name = Some (Regular hd)
              /\ name ∉ openFails fs0)
  \/ (ioutil.ReadFile fs0 name = Err ENOENT
      /\ nodes fs0 !! name = None /\ name ∉ openFails fs0)
  \/ (exists e, ioutil.ReadFile fs0 name = Err e /\ os.IsNotExist e = false).
Proof.
  unfold ioutil.ReadFile, os.Open.
  destruct (decide (name ∈ openFails fs0)) as [Hin|Hin].
  - right. right. exists EACCES. split; reflexivity.
  - destruct (nodes fs0 !! name) as [[size|data]|].
    + right. right. exists EISDIR. split; reflexivity.
    + left. exists data. repeat split; assumption.
    + right. left. repeat split; assumption.
Qed.

(** A write that fails to open the file changes nothing; one that opens it
    replaces the node at the path, whole or, where the write breaks off,
    by the bytes that got through. *)
Lemma WriteFile_cases (fs0 : FileSystem) (name : string) (data : list byte) :
  (ioutil.WriteFile fs0 name data
   = (None, with_nodes fs0 (<[name := Regular data]> (nodes fs0)))
   /\ (name ∉ writeFails fs0)
   /\ writeBreaks fs0 !! name = None)
  \/ (exists n,
         ioutil.WriteFile fs0 name data
         = (Some EIO,
            with_nodes fs0 (<[name := Regular (firstn n data)]> (nodes fs0)))
         /\ (name ∉ writeFails fs0)
         /\ writeBreaks fs0 !! name = Some n)
  \/ exists e, ioutil.WriteFile fs0 name data = (Some e, fs0).
Proof.
  unfold ioutil.WriteFile, ioutil.written.
  destruct (decide (name ∈ writeFails fs0)); [right; right; eauto|].
  destruct (nodes fs0 !! name) as [[size|old]|]; [right; right; eauto|..];
    (destruct (writeBreaks fs0 !! name) as [n'|];
     [right; left; eauto|left; auto]).
Qed.

(** A write never replaces a directory, and what it leaves at the path is
    a beginning of the data, all of it when no error is returned. *)
Lemma WriteFile_changes (fs0 fs1 : FileSystem) (name : string)
    (data : list byte) (r : option errno) :
  ioutil.WriteFile fs0 name data = (r, fs1) ->
  (fs1 = fs0 /\ r <> None
   /\ (name ∈ writeFails fs0
       \/ exists size, nodes fs0 !! name = Some (Dir size)))
  \/ exists n,
       fs1 = with_nodes fs0 (<[name := Regular (firstn n data)]> (nodes fs0))
       /\ (forall size, nodes fs0 !! name <> Some (Dir size))
       /\ (name ∉ writeFails fs0)
       /\ match r with
          | None => firstn n data = data /\ writeBreaks fs0 !! name = None
          | Some _ => writeBreaks fs0 !! name = Some n
          end.
Proof.
  unfold ioutil.WriteFile, ioutil.written.
  destruct (decide (name ∈ writeFails fs0));
    [intros H; injection H as <- <-; left;
     split; [reflexivity|split; [discriminate|left; assumption]]|].
  assert (forall m : gmap string node,
             (forall size, nodes fs0 !! name <> Some (Dir size)) ->
             match writeBreaks fs0 !! name with
             | Some n0 =>
                 (Some EIO,
                  with_nodes fs0 (<[name := Regular (firstn n0 data)]> m))
             | None => (None, with_nodes fs0 (<[name := Regular data]> m))
             end = (r, fs1) ->
             m = nodes fs0 ->
             exists n0,
               fs1 = with_nodes fs0
                       (<[name := Regular (firstn n0 data)]> (nodes fs0))
               /\ (forall size, nodes fs0 !! name <> Some (Dir size))
               /\ (name ∉ writeFails fs0)
               /\ match r with
                  | None => firstn n0 data = data
                            /\ writeBreaks fs0 !! name = None
                  | Some _ => writeBreaks fs0 !! name = Some n0
                  end) as Hwritten.
  { intros m Hnodir Hres ->.
    destruct (writeBreaks fs0 !! name) as [n0|];
      injection Hres as <- <-.
    - exists n0. auto.
    - exists (length data). rewrite firstn_all. auto. }
  destruct (nodes fs0 !! name) as [[size|old]|] eqn:Hname.
  - intros H; injection H as <- <-. left.
    split; [reflexivity|split; [discriminate|right; eauto]].
  - intros H. right.
    apply (Hwritten (nodes fs0)); [discriminate|exact H|reflexivity].
  - intros H. right.
    apply (Hwritten (nodes fs0)); [discriminate|exact H|reflexivity].
Qed.

(** What a call of the verifier can do to the world: it returns, it makes
    no request, and it leaves the filesystem alone unless the sidecar was
    absent, in which case it has hashed the file and the filesystem is
    what the write of the digest to the sidecar made of it. *)
Lemma checkHash_effect (dir : string) (file : File) (w : World) :
  exists (r : bool) (w' : World),
    checkHash dir file w = Done (r, w')
    /\ requests w' = requests w
    /\ (fs w' = fs w
        \/ exists data err,
             ioutil.ReadFile (fs w) (dlSHA (dlTarget dir file)) = Err ENOENT
             /\ (exists info, os.Stat (fs w) (dlTarget dir file) = Ok info
                              /\ info_Size info = int64 (Size file))
             /\ os.Open (fs w) (dlTarget dir file) = Ok (Regular data)
             /\ Hash_Equal (SHA256Sum file) (sha256.Sum data) = Done r
             /\ ioutil.WriteFile (fs w) (dlSHA (dlTarget dir file))
                  (list_byte_of_string (hex.EncodeToString (sha256.Sum data)))
                = (err, fs w')).
Proof.
  destruct (os.Stat (fs w) (dlTarget dir file)) as [info|e] eqn:Hstat.
  2: { exists false, w. rewrite (checkHash_unstatable _ _ _ _ Hstat). auto. }
  destruct (Z.eq_dec (info_Size info) (int64 (Size file))) as [Hsize|Hsize].
  2: { eexists _, _. rewrite (checkHash_wrong_size _ _ _ _ Hstat Hsize). auto. }
  destruct (ReadFile_cases (fs w) (dlSHA (dlTarget dir file)))
    as [(hd & Hread & _)|[(Hread & _)|(e & Hread & He)]].
  - destruct (hex.DecodeString (string_of_list_byte hd)) as [hb [e|]] eqn:Hdec.
    + eexists _, _.
      rewrite (checkHash_sidecar_malformed _ _ _ _ _ _ _ Hstat Hsize Hread Hdec).
      auto.
    + destruct (Hash_Equal_returns (SHA256Sum file) hb) as [r Hr].
      destruct r; eexists _, _;
        rewrite (checkHash_sidecar_decoded _ _ _ _ _ _ _
                   Hstat Hsize Hread Hdec Hr); auto.
  - destruct (os.Open (fs w) (dlTarget dir file)) as [f|e] eqn:Hopen.
    + destruct f as [size|data].
      * destruct (Hash_Equal_returns (SHA256Sum file) []) as [r Hr].
        eexists _, _.
        rewrite (checkHash_absent_unhashed _ _ _ _ _ _ _
                   Hstat Hsize Hread Hopen eq_refl Hr). auto.
      * destruct (Hash_Equal_returns (SHA256Sum file) (sha256.Sum data)) as [r Hr].
        rewrite (checkHash_absent_hashed _ _ _ _ _ _ _
                   Hstat Hsize Hread Hopen eq_refl Hr).
        destruct (ioutil.WriteFile (fs w) (dlSHA (dlTarget dir file))
                    (list_byte_of_string (hex.EncodeToString (sha256.Sum data))))
          as [[e|] fs'] eqn:Hwrite; eexists _, _;
          (split; [reflexivity|]); (split; [reflexivity|]); right;
          exists data; eexists; cbn [fs logged with_fs]; eauto 10.
    + destruct (Hash_Equal_returns (SHA256Sum file) []) as [r Hr].
      eexists _, _.
      rewrite (checkHash_absent_unopened _ _ _ _ _ _
                 Hstat Hsize Hread Hopen Hr). auto.
  - eexists _, _.
    rewrite (checkHash_sidecar_unreadable _ _ _ _ _ Hstat Hsize Hread He). auto.
Qed.

(** ** Size mismatch *)

Lemma Stat_set_node_ne (fs0 : FileSystem) (name other : string)
    (n : option node) :
  other <> name ->
  os.Stat (set_node fs0 other n) name = os.Stat fs0 name.
Proof.
  intros Hne. apply Stat_with_nodes_ne.
  apply lookup_partial_alter_ne. exact Hne.
Qed.

(** C3. When the local file exists and its size differs from the declared
    size, the verifier answers "not satisfied" with a warning and touches
    nothing, whatever stands at the sidecar path: a sidecar with any
    content, a directory, or nothing. *)
Theorem checkHash_size_mismatch_whatever_sidecar
    (dir : string) (file : File) (w : World) (info : FileInfo)
    (sidecar : option node) :
  uint64_ok (Size file) ->
  os.Stat (fs w) (dlTarget dir file) = Ok info ->
  info_Size info <> Z.of_N (Size file) ->
  checkHash dir file
    (with_fs w (set_node (fs w) (dlSHA (dlTarget dir file)) sidecar))
  = Done (false,
          logged
            (with_fs w (set_node (fs w) (dlSHA (dlTarget dir file)) sidecar))
            errOut
                 (SizeIs (dlTarget dir file) (info_Size info) (Size file))).
Proof.
  intros Hu Hstat Hne.
  apply checkHash_wrong_size.
  - cbn [fs with_fs]. rewrite Stat_set_node_ne by apply dlSHA_neq. exact Hstat.
  - apply int64_of_size; [exact Hu | exact (Stat_size_nonneg _ _ _ Hstat) | exact Hne].
Qed.

Lemma checkHash_size_mismatch_witness :
  checkHash "go1.21.0" helloFile
    (with_fs (start fsTruncated)
       (set_node fsTruncated helloSidecar
          (Some (Regular (list_byte_of_string "00")))))
  = Done (false,
          logged (with_fs (start fsTruncated)
                    (set_node fsTruncated helloSidecar
                       (Some (Regular (list_byte_of_string "00")))))
                 errOut (SizeIs helloTarget 4 5)).
Proof.
  apply (checkHash_size_mismatch_whatever_sidecar
           "go1.21.0" helloFile (start fsTruncated) (mkInfo 4 false)).
  - vm_compute. reflexivity.
  - vm_compute. reflexivity.
  - vm_compute. discriminate.
Defined.

(** ** A sidecar that is present and readable *)

(** C7. The file is there with the declared size and the sidecar can be
    read, but its text is not hexadecimal: the verifier returns "not
    satisfied" (it does not panic), prints the malformed-sidecar warning
    and leaves the filesystem, the sidecar included, as it was; the loop
    goes on to download the artifact and then to the remaining ones. *)
Theorem checkHash_malformed_sidecar
    (dir : string) (file : File) (w : World) (info : FileInfo)
    (hd hb : list byte) (e : hex.error) :
  os.Stat (fs w) (dlTarget dir file) = Ok info ->
  info_Size info = int64 (Size file) ->
  ioutil.ReadFile (fs w) (dlSHA (dlTarget dir file)) = Ok hd ->
  hex.DecodeString (string_of_list_byte hd) = (hb, Some e) ->
  let w' := logged w errOut (MalformedHashFile (dlSHA (dlTarget dir file)) e) in
  checkHash dir file w = Done (false, w')
  /\ fs w' = fs w
  /\ (skipFile file = false ->
      forall (c : Collector) (rest : list File),
        forRange (file :: rest) (main_download c dir) w
        = (Fprintf statusOut
             (Downloading dir (Filename file) (SHA256Sum file)) ;;
           downloadFile c dir file ;;
           forRange rest (main_download c dir)) w').
Proof.
  intros Hstat Hsize Hread Hdec w'.
  pose proof (checkHash_sidecar_malformed _ _ _ _ _ _ _ Hstat Hsize Hread Hdec)
    as Hcheck.
  split; [exact Hcheck|]. split; [reflexivity|].
  intros Hskip c rest. cbn [forRange]. unfold main_download at 1.
  rewrite Hskip. unfold bind at 1 2. rewrite Hcheck. reflexivity.
Qed.

Lemma checkHash_malformed_sidecar_witness :
  checkHash "go1.21.0" helloFile (start fsGarbledSidecar)
  = Done (false,
          logged (start fsGarbledSidecar) errOut
            (MalformedHashFile helloSidecar (hex.InvalidByteError "n"))).
Proof.
  apply (checkHash_malformed_sidecar
           "go1.21.0" helloFile (start fsGarbledSidecar) (mkInfo 5 false)
           (list_byte_of_string "not a hash") []).
  - vm_compute. reflexivity.
  - vm_compute. reflexivity.
  - vm_compute. reflexivity.
  - vm_compute. reflexivity.
Defined.

(** C10. With the file there at the declared size and a sidecar that can
    be read, verification writes nothing, whatever the verdict: the
    filesystem after is the filesystem before.  In general the verifier
    changes the filesystem only when the sidecar is absent, and then only
    by writing the sidecar. *)
Theorem checkHash_readable_sidecar_writes_nothing
    (dir : string) (file : File) (w : World) (info : FileInfo)
    (hd : list byte) :
  os.Stat (fs w) (dlTarget dir file) = Ok info ->
  info_Size info = int64 (Size file) ->
  ioutil.ReadFile (fs w) (dlSHA (dlTarget dir file)) = Ok hd ->
  (exists (r : bool) (w' : World),
      checkHash dir file w = Done (r, w') /\ fs w' = fs w)
  /\ (forall (w0 : World) (r0 : bool) (w0' : World),
         checkHash dir file w0 = Done (r0, w0') ->
         fs w0' <> fs w0 ->
         ioutil.ReadFile (fs w0) (dlSHA (dlTarget dir file)) = Err ENOENT
         /\ exists data,
              fs w0' = set_node (fs w0) (dlSHA (dlTarget dir file))
                         (Some (Regular data))).
Proof.
  intros Hstat Hsize Hread. split.
  - destruct (checkHash_effect dir file w)
      as (r & w' & Hrun & _ & [Hfs | (data & err & Habsent & _)]).
    + exists r, w'. split; assumption.
    + congruence.
  - intros w0 r0 w0' Hrun Hchanged.
    destruct (checkHash_effect dir file w0)
      as (r & w' & Hrun' & _
          & [Hfs | (data & err & Habsent & _ & _ & _ & Hwrite)]).
    + rewrite Hrun in Hrun'. injection Hrun' as _ <-. contradiction.
    + rewrite Hrun in Hrun'. injection Hrun' as _ <-.
      split; [exact Habsent|].
      destruct (WriteFile_changes _ _ _ _ _ Hwrite)
        as [(Hsame & _)|(n & Hw & _)]; [contradiction|].
      rewrite Hw. eexists. unfold set_node, insert, map_insert.
      reflexivity.
Qed.

Lemma checkHash_readable_sidecar_witness :
  exists (r : bool) (w' : World),
    checkHash "go1.21.0" helloFile (start fsMirrored) = Done (r, w')
    /\ fs w' = fsMirrored.
Proof.
  apply (checkHash_readable_sidecar_writes_nothing
           "go1.21.0" helloFile (start fsMirrored) (mkInfo 5 false)
           (list_byte_of_string helloSum)).
  - vm_compute. reflexivity.
  - vm_compute. reflexivity.
  - vm_compute. reflexivity.
Defined.

(** ** A sidecar that is absent *)

Lemma helloSum_is_digest :
  hex.EncodeToString (sha256.Sum helloBody) = helloSum.
Proof. vm_compute. reflexivity. Qed.

(** C8, as amended. The file is there with the declared size, the sidecar
    is absent and the file can be opened and read: the verifier hashes the
    whole content, tries to write the digest to the sidecar, and its
    verdict is the comparison of the expected hash with that digest,
    whether the write succeeded or failed. *)
Theorem checkHash_absent_sidecar_hashes_file
    (dir : string) (file : File) (w : World) (info : FileInfo)
    (data : list byte) :
  os.Stat (fs w) (dlTarget dir file) = Ok info ->
  info_Size info = int64 (Size file) ->
  ioutil.ReadFile (fs w) (dlSHA (dlTarget dir file)) = Err ENOENT ->
  os.Open (fs w) (dlTarget dir file) = Ok (Regular data) ->
  exists (r : bool) (w' : World),
    checkHash dir file w = Done (r, w')
    /\ hashed_and_cached dir file w data r w'.
Proof.
  intros Hstat Hsize Hread Hopen.
  destruct (Hash_Equal_returns (SHA256Sum file) (sha256.Sum data)) as [r Hr].
  exists r. eexists. split.
  - exact (checkHash_absent_hashed _ _ _ _ _ _ _
             Hstat Hsize Hread Hopen eq_refl Hr).
  - split; [exact Hr|reflexivity].
Qed.

(** The sidecar cannot be created: the verdict is "satisfied" all the
    same. *)
Lemma checkHash_absent_sidecar_witness :
  exists (r : bool) (w' : World),
    checkHash "go1.21.0" helloFile (start fsReadOnly) = Done (r, w')
    /\ hashed_and_cached "go1.21.0" helloFile (start fsReadOnly) helloBody r w'.
Proof.
  apply (checkHash_absent_sidecar_hashes_file
           "go1.21.0" helloFile (start fsReadOnly) (mkInfo 5 false) helloBody).
  - vm_compute. reflexivity.
  - vm_compute. reflexivity.
  - vm_compute. reflexivity.
  - vm_compute. reflexivity.
Defined.

(** C8, as stated, fails: a file that exists with the declared size but
    cannot be opened is not hashed, no sidecar is written for it, and the
    verdict is "not satisfied" although the digest of its content is the
    expected hash. *)
Lemma checkHash_absent_sidecar_locked_file :
  ~ (forall (dir : string) (file : File) (w : World) (info : FileInfo)
            (data : list byte),
        os.Stat (fs w) (dlTarget dir file) = Ok info ->
        info_Size info = int64 (Size file) ->
        ioutil.ReadFile (fs w) (dlSHA (dlTarget dir file)) = Err ENOENT ->
        nodes (fs w) !! dlTarget dir file = Some (Regular data) ->
        exists (r : bool) (w' : World),
          checkHash dir file w = Done (r, w')
          /\ hashed_and_cached dir file w data r w').
Proof.
  intros Hclaim.
  destruct (Hclaim "go1.21.0" helloFile (start fsLocked) (mkInfo 5 false) helloBody)
    as (r & w' & Hrun & Hr & _).
  - vm_compute. reflexivity.
  - vm_compute. reflexivity.
  - vm_compute. reflexivity.
  - vm_compute. reflexivity.
  - assert (checkHash "go1.21.0" helloFile (start fsLocked)
            = Done (false, logged (start fsLocked) errOut
                             (CouldNotRead helloTarget EACCES))) as Hcode
      by (vm_compute; reflexivity).
    assert (Hash_Equal (SHA256Sum helloFile) (sha256.Sum helloBody) = Done true)
      as Hdigest by (vm_compute; reflexivity).
    rewrite Hcode in Hrun. injection Hrun as <- _.
    rewrite Hdigest in Hr. discriminate Hr.
Qed.

(** ** Fetch and persist *)

Section downloadFile_branches.

Variables (c : Collector) (releaseName : string) (download : File) (w : World).

Local Abbreviation target := (dlTarget releaseName download).
Local Abbreviation hashFile := (dlSHA (dlTarget releaseName download)).
Local Abbreviation dl := (fileDownloadFmt (Filename download)).

Lemma downloadFile_unfold :
  downloadFile c releaseName download w
  = match
      match delivered (fetched c w download) with
      | Some dr =>
          downloadFile_OnResponse releaseName download dr (asked download w)
      | None => Done (tt, asked download w)
      end
    with
    | Done (_, w') => Done (tt, visit_reported c download w w')
    | Panic => Panic
    end.
Proof.
  unfold downloadFile, visit_reported, asked, Visit, fetched. run_go.
  cbn [requests logged].
  destruct (delivered _) as [dr|].
  - destruct (downloadFile_OnResponse _ _ _ _) as [[[] w']|]; [|reflexivity].
    destruct (visitErr _); reflexivity.
  - destruct (visitErr _); reflexivity.
Qed.

Lemma downloadFile_nothing_delivered :
  delivered (fetched c w download) = None ->
  downloadFile c releaseName download w
  = Done (tt, visit_reported c download w (asked download w)).
Proof. intros H. rewrite downloadFile_unfold, H. reflexivity. Qed.

Lemma downloadFile_not_OK (dr : Response) :
  delivered (fetched c w download) = Some dr ->
  StatusCode dr <> StatusOK ->
  downloadFile c releaseName download w
  = Done (tt, visit_reported c download w (asked download w)).
Proof.
  intros H Hstatus. rewrite downloadFile_unfold, H.
  unfold downloadFile_OnResponse.
  destruct (Z.eqb_spec (StatusCode dr) StatusOK); [contradiction|].
  reflexivity.
Qed.

Lemma downloadFile_not_saved (dr : Response) (e : errno) (fs1 : FileSystem) :
  delivered (fetched c w download) = Some dr ->
  StatusCode dr = StatusOK ->
  ioutil.WriteFile (fs w) target (Body dr) = (Some e, fs1) ->
  downloadFile c releaseName download w
  = Done (tt, visit_reported c download w
                (logged (with_fs (asked download w) fs1) errOut
                        (CouldNotSave target e))).
Proof.
  intros H Hstatus Hsave. rewrite downloadFile_unfold, H.
  unfold downloadFile_OnResponse, Save. rewrite Hstatus, Z.eqb_refl. run_go.
  cbn [fs asked requested logged]. rewrite Hsave. reflexivity.
Qed.

Lemma downloadFile_saved (dr : Response) (fs1 : FileSystem) :
  delivered (fetched c w download) = Some dr ->
  StatusCode dr = StatusOK ->
  ioutil.WriteFile (fs w) target (Body dr) = (None, fs1) ->
  downloadFile c releaseName download w
  = Done (tt, visit_reported c download w
                match ioutil.WriteFile fs1 hashFile
                        (list_byte_of_string (SHA256Sum download)) with
                | (None, fs2) =>
                    logged
                      (with_fs (logged (with_fs (asked download w) fs1) statusOut
                                       (Downloaded target)) fs2)
                      statusOut (SavedHash hashFile)
                | (Some e, fs2) =>
                    logged
                      (with_fs (logged (with_fs (asked download w) fs1) statusOut
                                       (Downloaded target)) fs2)
                      errOut (CouldNotWriteHash hashFile e)
                end).
Proof.
  intros H Hstatus Hsave. rewrite downloadFile_unfold, H.
  unfold downloadFile_OnResponse, Save, writeHash.
  rewrite Hstatus, Z.eqb_refl. run_go.
  cbn [fs asked requested logged]. rewrite Hsave.
  cbn [fs with_fs logged].
  destruct (ioutil.WriteFile fs1 _ _) as [[e|] fs2]; reflexivity.
Qed.

End downloadFile_branches.

Lemma WriteFile_lookup (fs0 fs1 : FileSystem) (name : string)
    (data : list byte) :
  ioutil.WriteFile fs0 name data = (None, fs1) ->
  nodes fs1 !! name = Some (Regular data)
  /\ (forall other, other <> name -> nodes fs1 !! other = nodes fs0 !! other)
  /\ statFails fs1 = statFails fs0
  /\ openFails fs1 = openFails fs0
  /\ writeFails fs1 = writeFails fs0
  /\ writeBreaks fs1 = writeBreaks fs0.
Proof.
  intros Hw.
  destruct (WriteFile_changes _ _ _ _ _ Hw)
    as [(_ & Hr & _)|(n & -> & _ & _ & Hall & _)]; [congruence|].
  rewrite Hall. cbn. split; [apply lookup_insert_eq|].
  split; [|auto]. intros other Hne. apply lookup_insert_ne. congruence.
Qed.

(** What a write that breaks off leaves behind. *)
Lemma WriteFile_broken (fs0 fs1 : FileSystem) (name : string)
    (data : list byte) (e : errno) :
  ioutil.WriteFile fs0 name data = (Some e, fs1) ->
  fs1 = fs0
  \/ exists n,
       writeBreaks fs0 !! name = Some n
       /\ nodes fs1 !! name = Some (Regular (firstn n data))
       /\ (forall other, other <> name ->
                         nodes fs1 !! other = nodes fs0 !! other)
       /\ same_faults fs0 fs1.
Proof.
  intros Hw.
  destruct (WriteFile_changes _ _ _ _ _ Hw)
    as [(-> & _)|(n & -> & _ & _ & Hbreak)]; [left; reflexivity|].
  right. exists n. cbn. split; [exact Hbreak|].
  split; [apply lookup_insert_eq|]. split.
  - intros other Hne. apply lookup_insert_ne. congruence.
  - repeat split.
Qed.

(** C4. The fetch delivered status 200, the body was saved at the target
    path and the sidecar write that follows succeeded: the sidecar then
    holds exactly the hash text of the catalog entry, whatever the bytes
    of the body are, next to the saved body. *)
Theorem downloadFile_sidecar_is_catalog_hash
    (c : Collector) (releaseName : string) (download : File) (w : World)
    (dr : Response) (fs1 fs2 : FileSystem) :
  delivered (fetched c w download) = Some dr ->
  StatusCode dr = StatusOK ->
  ioutil.WriteFile (fs w) (dlTarget releaseName download) (Body dr)
  = (None, fs1) ->
  ioutil.WriteFile fs1 (dlSHA (dlTarget releaseName download))
    (list_byte_of_string (SHA256Sum download))
  = (None, fs2) ->
  exists w',
    downloadFile c releaseName download w = Done (tt, w')
    /\ fs w' = fs2
    /\ nodes (fs w') !! dlSHA (dlTarget releaseName download)
       = Some (Regular (list_byte_of_string (SHA256Sum download)))
    /\ nodes (fs w') !! dlTarget releaseName download
       = Some (Regular (Body dr)).
Proof.
  intros Hdel Hstatus Hsave Hhash.
  eexists. split.
  - rewrite (downloadFile_saved _ _ _ _ _ _ Hdel Hstatus Hsave), Hhash.
    reflexivity.
  - assert (forall w0, fs (visit_reported c download w w0) = fs w0) as Hrep
      by (intros w0; unfold visit_reported; destruct (visitErr _); reflexivity).
    rewrite Hrep. cbn [fs logged with_fs].
    destruct (WriteFile_lookup _ _ _ _ Hsave) as (Ht & _).
    destruct (WriteFile_lookup _ _ _ _ Hhash) as (Hs & Hother & _).
    split; [reflexivity|]. split; [exact Hs|].
    rewrite Hother; [exact Ht|].
    intros Heq. exact (dlSHA_neq _ (eq_sym Heq)).
Qed.

(** The server sends five bytes that are not the archive: the sidecar
    holds the hash of the catalog, which is not the digest of what was
    saved. *)
Lemma downloadFile_sidecar_witness :
  (exists w',
      downloadFile (serving (list_byte_of_string "jello")) "go1.21.0" helloFile
        (start fsFresh) = Done (tt, w')
      /\ fs w' = set_node
                   (set_node fsFresh helloTarget
                      (Some (Regular (list_byte_of_string "jello"))))
                   helloSidecar (Some (Regular (list_byte_of_string helloSum)))
      /\ nodes (fs w') !! dlSHA (dlTarget "go1.21.0" helloFile)
         = Some (Regular (list_byte_of_string helloSum))
      /\ nodes (fs w') !! dlTarget "go1.21.0" helloFile
         = Some (Regular (list_byte_of_string "jello")))
  /\ hex.EncodeToString (sha256.Sum (list_byte_of_string "jello")) <> helloSum.
Proof.
  split.
  - apply (downloadFile_sidecar_is_catalog_hash
             (serving (list_byte_of_string "jello")) "go1.21.0" helloFile
             (start fsFresh)
             (mkResponse StatusOK (list_byte_of_string "jello"))
             (set_node fsFresh helloTarget
                (Some (Regular (list_byte_of_string "jello"))))).
    + vm_compute. reflexivity.
    + reflexivity.
    + vm_compute. reflexivity.
    + vm_compute. reflexivity.
  - vm_compute. discriminate.
Defined.

(** ** The verdict is a matter of the filesystem, and it is stable *)

(** The verdict of the verifier and what it does to the filesystem depend
    on the filesystem only, not on what was printed or requested before. *)
Lemma checkHash_fs_only (dir : string) (file : File) (w w2 : World)
    (r : bool) (w' : World) :
  fs w2 = fs w ->
  checkHash dir file w = Done (r, w') ->
  exists w2', checkHash dir file w2 = Done (r, w2') /\ fs w2' = fs w'.
Proof.
  intros Hfs. unfold checkHash, computeHash, writeHash. run_go.
  split_branches_using ltac:(rewrite Hfs);
    intros Hrun; inversion Hrun; subst; eexists; (split; [reflexivity|]);
    cbn [fs logged with_fs]; congruence.
Qed.

Lemma ReadFile_written (fs0 fs1 : FileSystem) (name : string)
    (data : list byte) :
  ioutil.ReadFile fs0 name = Err ENOENT ->
  ioutil.WriteFile fs0 name data = (None, fs1) ->
  ioutil.ReadFile fs1 name = Ok data.
Proof.
  intros Hread Hwrite.
  destruct (ReadFile_cases fs0 name)
    as [(hd & H & _)|[(_ & _ & Hopen)|(e & H & He)]];
    [congruence| |rewrite H in Hread; injection Hread as ->; discriminate He].
  destruct (WriteFile_lookup _ _ _ _ Hwrite) as (Hnode & _ & _ & Hfails & _).
  unfold ioutil.ReadFile, os.Open. rewrite Hfails.
  destruct (decide _); [contradiction|]. rewrite Hnode. reflexivity.
Qed.

Lemma Stat_written_elsewhere (fs0 fs1 : FileSystem) (name other : string)
    (data : list byte) :
  other <> name ->
  ioutil.WriteFile fs0 other data = (None, fs1) ->
  os.Stat fs1 name = os.Stat fs0 name.
Proof.
  intros Hne Hwrite.
  destruct (WriteFile_lookup _ _ _ _ Hwrite) as (_ & Hother & Hfails & _).
  unfold os.Stat. rewrite Hfails, Hother by congruence. reflexivity.
Qed.

(** Verifying again gives the same verdict and changes nothing, when the
    write of the sidecar does not break off: whatever the first
    verification could write is there for the second to read. *)
Lemma checkHash_settles (dir : string) (file : File) (w w1 : World) (r : bool) :
  writeBreaks (fs w) !! dlSHA (dlTarget dir file) = None ->
  checkHash dir file w = Done (r, w1) ->
  forall w2, fs w2 = fs w1 ->
    exists w3, checkHash dir file w2 = Done (r, w3) /\ fs w3 = fs w2.
Proof.
  intros Hwhole Hrun w2 Hfs.
  assert (fs w1 = fs w ->
          exists w3, checkHash dir file w2 = Done (r, w3) /\ fs w3 = fs w2)
    as Hunchanged.
  { intros Hsame.
    destruct (checkHash_fs_only dir file w w2 r w1) as (w3 & H3 & Hfs3);
      [congruence | exact Hrun |].
    exists w3. split; [exact H3 | congruence]. }
  destruct (checkHash_effect dir file w)
    as (r' & w' & Hrun' & _ &
        [Hsame | (data & err & Habsent & (info & Hstat & Hsize) & _ & Hr
                  & Hwrite)]);
    rewrite Hrun in Hrun'; injection Hrun' as <- <-.
  - exact (Hunchanged Hsame).
  - destruct err as [e|].
    + destruct (WriteFile_broken _ _ _ _ _ Hwrite) as [Hsame|(n & Hn & _)];
        [exact (Hunchanged Hsame)|congruence].
    + eexists. split.
      * eapply checkHash_sidecar_decoded.
        -- rewrite Hfs.
           rewrite (Stat_written_elsewhere _ _ _ _ _ (dlSHA_neq _) Hwrite).
           exact Hstat.
        -- exact Hsize.
        -- rewrite Hfs. exact (ReadFile_written _ _ _ _ Habsent Hwrite).
        -- rewrite string_of_list_byte_of_string.
           apply DecodeString_EncodeToString.
        -- exact Hr.
      * destruct r; reflexivity.
Qed.

(** ** A fetch that is refused *)




(** ** What the program reports as done *)

Lemma reports_app (log1 log2 : list (stream * line)) :
  reports (log1 ++ log2) = reports log1 ++ reports log2.
Proof.
  induction log1 as [|l log1 IH]; cbn [reports app]; [reflexivity|].
  destruct (report_of l); rewrite IH; reflexivity.
Qed.

Lemma reports_logged (w : World) (s : stream) (l : line) :
  reports (out (logged w s l))
  = reports (out w) ++ match report_of (s, l) with
                       | Some r => [r]
                       | None => []
                       end.
Proof.
  cbn [out logged]. rewrite reports_app. cbn [reports].
  destruct (report_of (s, l)); reflexivity.
Qed.

Lemma In_reports (log : list (stream * line)) (l : stream * line) (r : report) :
  In l log -> report_of l = Some r -> In r (reports log).
Proof.
  induction log as [|l' log IH]; cbn [In reports]; [contradiction|].
  intros [->|Hin] Hr.
  - rewrite Hr. left. reflexivity.
  - destruct (report_of l'); [right|]; auto.
Qed.

Lemma reports_In (log : list (stream * line)) (r : report) :
  In r (reports log) -> exists l, In l log /\ report_of l = Some r.
Proof.
  induction log as [|l' log IH]; cbn [In reports]; [contradiction|].
  destruct (report_of l') as [r'|] eqn:Hr'.
  - intros [<-|Hin]; [eauto|]. destruct (IH Hin) as (l & Hl & Hr). eauto.
  - intros Hin. destruct (IH Hin) as (l & Hl & Hr). eauto.
Qed.

Lemma reports_In_already (log : list (stream * line))
    (releaseName filename : string) :
  In (ReportAlready releaseName filename) (reports log) ->
  In (errOut, AlreadyDownloaded releaseName filename) log.
Proof.
  intros Hin. destruct (reports_In _ _ Hin) as ([s l] & Hl & Hr).
  destruct s, l; cbn in Hr; try discriminate Hr. injection Hr as -> ->. exact Hl.
Qed.

Lemma reported_done_reports (log : list (stream * line)) (releaseName : string)
    (file : File) :
  reported_done log releaseName file ->
  In (ReportAlready releaseName (Filename file)) (reports log)
  \/ In (ReportSaved (dlSHA (dlTarget releaseName file))) (reports log).
Proof.
  intros [H|H]; [left|right]; exact (In_reports _ _ _ H eq_refl).
Qed.

(** The verifier prints warnings only, never a report. *)
Lemma checkHash_reports (dir : string) (file : File) (w w' : World) (r : bool) :
  checkHash dir file w = Done (r, w') ->
  reports (out w') = reports (out w).
Proof.
  unfold checkHash, computeHash, writeHash. run_go.
  split_branches;
    intros Hrun; inversion Hrun; subst;
    rewrite ?reports_logged; cbn [out with_fs report_of snd];
    rewrite ?reports_logged; cbn [out with_fs report_of snd];
    rewrite ?app_nil_r; reflexivity.
Qed.

(** ** Filesystems that agree where an artifact lives *)

Lemma same_faults_refl (fs0 : FileSystem) : same_faults fs0 fs0.
Proof. repeat split. Qed.

Lemma same_faults_trans (fs1 fs2 fs3 : FileSystem) :
  same_faults fs1 fs2 -> same_faults fs2 fs3 -> same_faults fs1 fs3.
Proof.
  intros (H1 & H2 & H3 & H4) (H5 & H6 & H7 & H8). repeat split; congruence.
Qed.

Lemma agree_at_refl (paths : list string) (fs0 : FileSystem) :
  agree_at paths fs0 fs0.
Proof. split; [apply same_faults_refl | reflexivity]. Qed.

Lemma agree_outside_refl (paths : list string) (fs0 : FileSystem) :
  agree_outside paths fs0 fs0.
Proof. split; [apply same_faults_refl | reflexivity]. Qed.

Lemma agree_outside_trans (paths : list string) (fs1 fs2 fs3 : FileSystem) :
  agree_outside paths fs1 fs2 -> agree_outside paths fs2 fs3 ->
  agree_outside paths fs1 fs3.
Proof.
  intros (Hf & Hn) (Hf' & Hn'). split; [eapply same_faults_trans; eauto|].
  intros p Hp. rewrite Hn, Hn' by assumption. reflexivity.
Qed.

Lemma agree_outside_weaken (paths paths' : list string) (fs1 fs2 : FileSystem) :
  (forall p, In p paths -> In p paths') ->
  agree_outside paths fs1 fs2 -> agree_outside paths' fs1 fs2.
Proof. intros Hsub (Hf & Hn). split; [exact Hf|]. intros p Hp. auto. Qed.

(** Paths touched and paths looked at that have nothing in common. *)
Lemma agree_outside_at (touched looked : list string) (fs1 fs2 : FileSystem) :
  (forall p, In p looked -> ~ In p touched) ->
  agree_outside touched fs1 fs2 -> agree_at looked fs1 fs2.
Proof. intros Hdis (Hf & Hn). split; [exact Hf|]. intros p Hp. auto. Qed.

Lemma WriteFile_agree_outside (fs0 fs1 : FileSystem) (name : string)
    (data : list byte) (e : option errno) :
  ioutil.WriteFile fs0 name data = (e, fs1) ->
  agree_outside [name] fs0 fs1.
Proof.
  intros Hw.
  destruct (WriteFile_changes _ _ _ _ _ Hw) as [(-> & _)|(n & -> & _)].
  - apply agree_outside_refl.
  - split; [repeat split|]. intros p Hp. cbn.
    rewrite lookup_insert_ne; [reflexivity|].
    intros ->. apply Hp. left. reflexivity.
Qed.

Section agreement.

Variables (fs1 fs2 : FileSystem) (name : string).
Hypothesis Hagree : agree_at [name] fs1 fs2.

Lemma Stat_agree : os.Stat fs1 name = os.Stat fs2 name.
Proof.
  destruct Hagree as ((Hs & _ & _) & Hn). unfold os.Stat.
  rewrite Hs, (Hn name) by (left; reflexivity). reflexivity.
Qed.

Lemma Open_agree : os.Open fs1 name = os.Open fs2 name.
Proof.
  destruct Hagree as ((_ & Ho & _) & Hn). unfold os.Open.
  rewrite Ho, (Hn name) by (left; reflexivity). reflexivity.
Qed.

Lemma ReadFile_agree : ioutil.ReadFile fs1 name = ioutil.ReadFile fs2 name.
Proof. unfold ioutil.ReadFile. rewrite Open_agree. reflexivity. Qed.

(** The same write succeeds, breaks off or fails alike in both. *)
Lemma WriteFile_agree (data : list byte) :
  (exists e, ioutil.WriteFile fs1 name data = (Some e, fs1)
             /\ ioutil.WriteFile fs2 name data = (Some e, fs2))
  \/ (exists r content,
         ioutil.WriteFile fs1 name data
         = (r, with_nodes fs1 (<[name := Regular content]> (nodes fs1)))
         /\ ioutil.WriteFile fs2 name data
            = (r, with_nodes fs2 (<[name := Regular content]> (nodes fs2)))).
Proof.
  destruct Hagree as ((_ & _ & Hw & Hb) & Hn).
  unfold ioutil.WriteFile, ioutil.written.
  rewrite Hw, Hb, (Hn name) by (left; reflexivity).
  destruct (decide _); [left; eauto|].
  destruct (nodes fs2 !! name) as [[size|old]|]; [left; eauto|..];
    (destruct (writeBreaks fs2 !! name); right; eauto).
Qed.

End agreement.

Lemma agree_at_paths_of (dir : string) (file : File) (fs1 fs2 : FileSystem) :
  agree_at (paths_of dir file) fs1 fs2 ->
  agree_at [dlTarget dir file] fs1 fs2
  /\ agree_at [dlSHA (dlTarget dir file)] fs1 fs2.
Proof.
  intros (Hf & Hn). split; (split; [exact Hf|]); intros p [<-|[]]; apply Hn;
    [left | right; left]; reflexivity.
Qed.

(** The verdict depends on the filesystem through the two paths of the
    artifact only; so does whether the verifier changes the filesystem. *)
Lemma checkHash_agree (dir : string) (file : File) (w w2 : World)
    (r : bool) (w' : World) :
  agree_at (paths_of dir file) (fs w) (fs w2) ->
  checkHash dir file w = Done (r, w') ->
  exists w2', checkHash dir file w2 = Done (r, w2')
              /\ (fs w' = fs w -> fs w2' = fs w2).
Proof.
  intros Hag Hrun. apply agree_at_paths_of in Hag as [Ht Hs].
  pose proof (Stat_agree _ _ _ Ht) as Estat.
  pose proof (Open_agree _ _ _ Ht) as Eopen.
  pose proof (ReadFile_agree _ _ _ Hs) as Eread.
  destruct (os.Stat (fs w) (dlTarget dir file)) as [info|e] eqn:Hstat.
  2: { rewrite (checkHash_unstatable _ _ _ _ Hstat) in Hrun.
       injection Hrun as <- <-. eexists. split;
         [ exact (checkHash_unstatable _ _ _ _ (eq_sym Estat))
         | reflexivity ]. }
  symmetry in Estat.
  destruct (Z.eq_dec (info_Size info) (int64 (Size file))) as [Hsize|Hsize].
  2: { rewrite (checkHash_wrong_size _ _ _ _ Hstat Hsize) in Hrun.
       injection Hrun as <- <-. eexists. split;
         [ exact (checkHash_wrong_size _ _ _ _ Estat Hsize)
         | reflexivity ]. }
  destruct (ReadFile_cases (fs w) (dlSHA (dlTarget dir file)))
    as [(hd & Hread & _)|[(Hread & Hnone & _)|(e & Hread & He)]];
    rewrite Hread in Eread; symmetry in Eread.
  - destruct (hex.DecodeString (string_of_list_byte hd)) as [hb [e|]] eqn:Hdec.
    + rewrite (checkHash_sidecar_malformed _ _ _ _ _ _ _
                 Hstat Hsize Hread Hdec) in Hrun.
      injection Hrun as <- <-. eexists. split;
        [ exact (checkHash_sidecar_malformed _ _ _ _ _ _ _ Estat Hsize Eread Hdec)
        | reflexivity ].
    + destruct (Hash_Equal_returns (SHA256Sum file) hb) as [m Hm].
      rewrite (checkHash_sidecar_decoded _ _ _ _ _ _ _
                 Hstat Hsize Hread Hdec Hm) in Hrun.
      injection Hrun as <- <-. eexists. split.
      * exact (checkHash_sidecar_decoded _ _ _ _ _ _ _
                 Estat Hsize Eread Hdec Hm).
      * destruct m; reflexivity.
  - destruct (os.Open (fs w) (dlTarget dir file)) as [f|e] eqn:Hopen;
      symmetry in Eopen.
    + destruct f as [size|data].
      * destruct (Hash_Equal_returns (SHA256Sum file) []) as [m Hm].
        rewrite (checkHash_absent_unhashed _ _ _ _ _ _ _
                   Hstat Hsize Hread Hopen eq_refl Hm) in Hrun.
        injection Hrun as <- <-. eexists. split;
          [ exact (checkHash_absent_unhashed _ _ _ _ _ _ _
                 Estat Hsize Eread Eopen eq_refl Hm)
          | reflexivity ].
      * destruct (Hash_Equal_returns (SHA256Sum file) (sha256.Sum data))
          as [m Hm].
        rewrite (checkHash_absent_hashed _ _ _ _ _ _ _
                   Hstat Hsize Hread Hopen eq_refl Hm) in Hrun.
        injection Hrun as <- <-. eexists. split.
        -- exact (checkHash_absent_hashed _ _ _ _ _ _ _
                    Estat Hsize Eread Eopen eq_refl Hm).
        -- destruct (WriteFile_agree _ _ _ Hs
                       (list_byte_of_string
                          (hex.EncodeToString (sha256.Sum data))))
             as [(e & Hw1 & Hw2)|(r' & content & Hw1 & Hw2)];
             rewrite Hw1, Hw2.
           ++ reflexivity.
           ++ assert (with_nodes (fs w)
                        (<[dlSHA (dlTarget dir file) := Regular content]>
                           (nodes (fs w)))
                      <> fs w) as Hno.
              { intros Hsame.
                apply (f_equal
                         (fun x => nodes x !! dlSHA (dlTarget dir file)))
                  in Hsame.
                cbn in Hsame. rewrite lookup_insert_eq, Hnone in Hsame.
                discriminate Hsame. }
              destruct r'; cbn [fs with_fs logged]; intros Hsame;
                contradiction.
    + destruct (Hash_Equal_returns (SHA256Sum file) []) as [m Hm].
      rewrite (checkHash_absent_unopened _ _ _ _ _ _
                 Hstat Hsize Hread Hopen Hm) in Hrun.
      injection Hrun as <- <-. eexists. split;
        [ exact (checkHash_absent_unopened _ _ _ _ _ _
               Estat Hsize Eread Eopen Hm)
        | reflexivity ].
  - rewrite (checkHash_sidecar_unreadable _ _ _ _ _ Hstat Hsize Hread He)
      in Hrun.
    injection Hrun as <- <-. eexists. split;
      [ exact (checkHash_sidecar_unreadable _ _ _ _ _ Estat Hsize Eread He)
      | reflexivity ].
Qed.

(** ** Satisfied artifacts *)

Lemma satisfied_run (fs0 : FileSystem) (dir : string) (file : File)
    (w : World) :
  satisfied fs0 dir file ->
  fs w = fs0 ->
  exists w', checkHash dir file w = Done (true, w')
             /\ fs w' = fs w
             /\ requests w' = requests w
             /\ reports (out w') = reports (out w).
Proof.
  intros (w0 & Hrun & Hfs0) Hfs.
  destruct (checkHash_agree dir file (start fs0) w true w0) as (w' & Hw' & Hsame).
  - rewrite Hfs. apply agree_at_refl.
  - exact Hrun.
  - exists w'. split; [exact Hw'|]. split; [apply Hsame; exact Hfs0|].
    split; [|exact (checkHash_reports _ _ _ _ _ Hw')].
    destruct (checkHash_effect dir file w) as (r & w'' & Hrun' & Hreq & _).
    rewrite Hw' in Hrun'. injection Hrun' as _ <-. exact Hreq.
Qed.

(** Satisfaction survives changes elsewhere in the filesystem. *)
Lemma satisfied_agree (fs1 fs2 : FileSystem) (dir : string) (file : File) :
  agree_at (paths_of dir file) fs1 fs2 ->
  satisfied fs1 dir file -> satisfied fs2 dir file.
Proof.
  intros Hag (w1 & Hrun & Hfs).
  destruct (checkHash_agree dir file (start fs1) (start fs2) true w1 Hag Hrun)
    as (w2 & Hrun2 & Hsame).
  exists w2. split; [exact Hrun2|]. exact (Hsame Hfs).
Qed.

(** What the verifier accepted is satisfied from then on, when its write
    of the sidecar does not break off. *)
Lemma satisfied_after_checkHash (dir : string) (file : File) (w w' : World) :
  writeBreaks (fs w) !! dlSHA (dlTarget dir file) = None ->
  checkHash dir file w = Done (true, w') -> satisfied (fs w') dir file.
Proof.
  intros Hwhole Hrun.
  destruct (checkHash_settles _ _ _ _ _ Hwhole Hrun (start (fs w')) eq_refl)
    as (w3 & H3 & Hfs).
  exists w3. split; assumption.
Qed.

(** A file of the declared size with a readable sidecar that holds the
    expected hash, in well-formed hexadecimal, is satisfied. *)
Lemma satisfied_mirrored (fs0 : FileSystem) (dir : string) (file : File)
    (data : list byte) :
  dlTarget dir file ∉ statFails fs0 ->
  dlSHA (dlTarget dir file) ∉ openFails fs0 ->
  nodes fs0 !! dlTarget dir file = Some (Regular data) ->
  Z.of_nat (length data) = int64 (Size file) ->
  nodes fs0 !! dlSHA (dlTarget dir file)
  = Some (Regular (list_byte_of_string (SHA256Sum file))) ->
  snd (hex.DecodeString (SHA256Sum file)) = None ->
  satisfied fs0 dir file.
Proof.
  intros Hstat Hopen Hfile Hsize Hside Hhex.
  destruct (hex.DecodeString (SHA256Sum file)) as [hb err] eqn:Hdec.
  cbn in Hhex. subst err.
  exists (start fs0). split; [|reflexivity].
  apply (checkHash_sidecar_decoded dir file (start fs0)
           (mkInfo (Z.of_nat (length data)) false)
           (list_byte_of_string (SHA256Sum file)) hb true).
  - unfold os.Stat. cbn [fs start]. destruct (decide _); [contradiction|].
    rewrite Hfile. reflexivity.
  - exact Hsize.
  - unfold ioutil.ReadFile, os.Open. cbn [fs start].
    destruct (decide _); [contradiction|]. rewrite Hside. reflexivity.
  - rewrite string_of_list_byte_of_string. exact Hdec.
  - apply Hash_Equal_true. exact Hdec.
Qed.

(** ** What a fetch can do *)

Lemma visit_reported_same (c : Collector) (download : File) (w w' : World) :
  fs (visit_reported c download w w') = fs w'
  /\ requests (visit_reported c download w w') = requests w'
  /\ reports (out (visit_reported c download w w')) = reports (out w').
Proof.
  unfold visit_reported. destruct (visitErr _); [|auto].
  rewrite reports_logged. cbn. rewrite app_nil_r. auto.
Qed.

Lemma asked_same (download : File) (w : World) :
  fs (asked download w) = fs w
  /\ requests (asked download w)
     = requests w ++ [fileDownloadFmt (Filename download)]
  /\ reports (out (asked download w)) = reports (out w).
Proof.
  unfold asked. cbn [fs requests out requested logged].
  rewrite reports_app. cbn. rewrite app_nil_r. auto.
Qed.

(** A fetch always returns and makes exactly one request.  Either it
    writes nothing; or the save of the body fails, leaving what got
    through; or it saves the body and the write of the sidecar fails,
    leaving what got through; or it saves both and reports the sidecar
    saved.  It reports nothing else. *)
Lemma downloadFile_cases (c : Collector) (releaseName : string)
    (download : File) (w : World) :
  exists w',
    downloadFile c releaseName download w = Done (tt, w')
    /\ requests w' = requests w ++ [fileDownloadFmt (Filename download)]
    /\ ((fs w' = fs w /\ reports (out w') = reports (out w))
        \/ (exists dr e fs1,
               delivered (fetched c w download) = Some dr
               /\ StatusCode dr = StatusOK
               /\ ioutil.WriteFile (fs w) (dlTarget releaseName download)
                    (Body dr)
                  = (Some e, fs1)
               /\ fs w' = fs1
               /\ reports (out w') = reports (out w))
        \/ (exists dr fs1 e fs2,
               delivered (fetched c w download) = Some dr
               /\ StatusCode dr = StatusOK
               /\ ioutil.WriteFile (fs w) (dlTarget releaseName download)
                    (Body dr)
                  = (None, fs1)
               /\ ioutil.WriteFile fs1
                    (dlSHA (dlTarget releaseName download))
                    (list_byte_of_string (SHA256Sum download))
                  = (Some e, fs2)
               /\ fs w' = fs2
               /\ reports (out w') = reports (out w))
        \/ (exists dr fs1 fs2,
               delivered (fetched c w download) = Some dr
               /\ StatusCode dr = StatusOK
               /\ ioutil.WriteFile (fs w) (dlTarget releaseName download)
                    (Body dr)
                  = (None, fs1)
               /\ ioutil.WriteFile fs1 (dlSHA (dlTarget releaseName download))
                    (list_byte_of_string (SHA256Sum download))
                  = (None, fs2)
               /\ fs w' = fs2
               /\ reports (out w')
                  = reports (out w)
                    ++ [ReportSaved (dlSHA (dlTarget releaseName download))])).
Proof.
  destruct (asked_same download w) as (Hafs & Hareq & Harep).
  destruct (delivered (fetched c w download)) as [dr|] eqn:Hdel.
  2: { eexists. split; [exact (downloadFile_nothing_delivered _ _ _ _ Hdel)|].
       destruct (visit_reported_same c download w (asked download w))
         as (-> & -> & ->). auto. }
  destruct (Z.eq_dec (StatusCode dr) StatusOK) as [Hstatus|Hstatus].
  2: { eexists. split; [exact (downloadFile_not_OK _ _ _ _ _ Hdel Hstatus)|].
       destruct (visit_reported_same c download w (asked download w))
         as (-> & -> & ->). auto. }
  destruct (ioutil.WriteFile (fs w) (dlTarget releaseName download) (Body dr))
    as [[e|] fs1] eqn:Hsave.
  { eexists.
    split; [exact (downloadFile_not_saved _ _ _ _ _ _ _ Hdel Hstatus Hsave)|].
    match goal with
    | |- context [visit_reported c download w ?x] =>
        destruct (visit_reported_same c download w x) as (-> & -> & ->)
    end.
    rewrite reports_logged. cbn [fs requests out with_fs logged report_of snd].
    rewrite app_nil_r. split; [exact Hareq|]. right. left.
    exists dr, e, fs1. rewrite Harep. auto 10. }
  destruct (ioutil.WriteFile fs1 (dlSHA (dlTarget releaseName download))
              (list_byte_of_string (SHA256Sum download)))
    as [[e|] fs2] eqn:Hhash.
  - eexists.
    split; [rewrite (downloadFile_saved _ _ _ _ _ _ Hdel Hstatus Hsave), Hhash;
            reflexivity|].
    match goal with
    | |- context [visit_reported c download w ?x] =>
        destruct (visit_reported_same c download w x) as (-> & -> & ->)
    end.
    rewrite !reports_logged.
    cbn [fs requests out with_fs logged report_of snd].
    rewrite reports_app. cbn [reports report_of snd]. rewrite !app_nil_r.
    split; [exact Hareq|]. right. right. left. exists dr, fs1, e, fs2.
    rewrite Harep. auto 10.
  - eexists.
    split; [rewrite (downloadFile_saved _ _ _ _ _ _ Hdel Hstatus Hsave), Hhash;
            reflexivity|].
    match goal with
    | |- context [visit_reported c download w ?x] =>
        destruct (visit_reported_same c download w x) as (-> & -> & ->)
    end.
    rewrite !reports_logged.
    cbn [fs requests out with_fs logged report_of snd].
    rewrite reports_app. cbn [reports report_of snd]. rewrite app_nil_r.
    split; [exact Hareq|]. right. right. right. exists dr, fs1, fs2.
    rewrite Harep. auto 10.
Qed.

(** ** One turn of the inner loop *)

Lemma checkHash_agree_outside (dir : string) (file : File) (w w' : World)
    (r : bool) :
  checkHash dir file w = Done (r, w') ->
  agree_outside (paths_of dir file) (fs w) (fs w').
Proof.
  intros Hrun.
  destruct (checkHash_effect dir file w)
    as (r' & w'' & Hrun' & _
        & [Hsame | (data & err & _ & _ & _ & _ & Hwrite)]);
    rewrite Hrun in Hrun'; injection Hrun' as <- <-.
  - rewrite Hsame. apply agree_outside_refl.
  - eapply agree_outside_weaken; [|exact (WriteFile_agree_outside _ _ _ _ _ Hwrite)].
    intros p [<-|[]]. right. left. reflexivity.
Qed.

Lemma main_download_turn (c : Collector) (releaseName : string)
    (download : File) (w : World) :
  exists w', main_download c releaseName download w = Done (tt, w')
             /\ turn c releaseName download w w'.
Proof.
  unfold main_download.
  destruct (skipFile download) eqn:Hskip.
  - eexists. split; [reflexivity|]. apply TurnSkipped; [exact Hskip|reflexivity].
  - destruct (checkHash_effect releaseName download w) as (r & w1 & Hcheck & _).
    unfold bind at 1. rewrite Hcheck. destruct r.
    + eexists. split; [reflexivity|].
      eapply TurnAlready; [exact Hskip | exact Hcheck | reflexivity].
    + unfold bind, Fprintf.
      destruct (downloadFile_cases c releaseName download
                  (logged w1 statusOut
                     (Downloading releaseName (Filename download)
                        (SHA256Sum download))))
        as (w' & Hdl & _).
      exists w'. split; [exact Hdl|].
      eapply TurnFetched; [exact Hskip | exact Hcheck | exact Hdl].
Qed.

(** ** The release directory *)

Lemma dir_ok_agree (fs1 fs2 : FileSystem) (name : string) :
  agree_at [name] fs1 fs2 -> dir_ok fs1 name -> dir_ok fs2 name.
Proof.
  intros Hag (info & Hstat & Hdir). exists info.
  rewrite <- (Stat_agree _ _ _ Hag). auto.
Qed.

Lemma dir_ok_lookup (fs0 : FileSystem) (name : string) :
  dir_ok fs0 name ->
  (name ∉ statFails fs0)
  /\ exists size, nodes fs0 !! name = Some (Dir size).
Proof.
  intros (info & Hstat & Hdir). unfold os.Stat in Hstat.
  destruct (decide _) as [|Hnot]; [discriminate|]. split; [exact Hnot|].
  destruct (nodes fs0 !! name) as [[size|data]|]; [eauto|..];
    inversion Hstat; subst; discriminate Hdir.
Qed.

(** [ensureDirectory] returns; it prints no report and makes no request;
    it changes the filesystem only by making the directory where nothing
    was; a true answer means the directory is there, and a directory that
    is there is answered with true and left alone. *)
Lemma ensureDirectory_cases (name : string) (w : World) :
  exists (ok : bool) (w' : World),
    ensureDirectory name w = Done (ok, w')
    /\ requests w' = requests w
    /\ reports (out w') = reports (out w)
    /\ agree_outside [name] (fs w) (fs w')
    /\ (forall other, dir_ok (fs w) other -> dir_ok (fs w') other)
    /\ (ok = true -> dir_ok (fs w') name)
    /\ (dir_ok (fs w) name -> ok = true /\ fs w' = fs w).
Proof.
  assert (forall l : line,
             report_of (errOut, l) = None ->
             ~ dir_ok (fs w) name ->
             requests (logged w errOut l) = requests w
             /\ reports (out (logged w errOut l)) = reports (out w)
             /\ agree_outside [name] (fs w) (fs (logged w errOut l))
             /\ (forall other, dir_ok (fs w) other ->
                               dir_ok (fs (logged w errOut l)) other)
             /\ (false = true -> dir_ok (fs (logged w errOut l)) name)
             /\ (dir_ok (fs w) name ->
                 false = true /\ fs (logged w errOut l) = fs w)) as Hfailed.
  { intros l Hl Hnot. rewrite reports_logged, Hl, app_nil_r.
    split; [reflexivity|]. split; [reflexivity|].
    split; [apply agree_outside_refl|]. split; [auto|].
    split; [discriminate|]. intros H. contradiction. }
  unfold ensureDirectory. run_go.
  destruct (os.Stat (fs w) name) as [info|e] eqn:Hstat.
  - destruct (info_IsDir info) eqn:Hdir; cbn [negb].
    + exists true, w. split; [reflexivity|]. split; [reflexivity|].
      split; [reflexivity|]. split; [apply agree_outside_refl|].
      split; [auto|]. split; [|auto]. intros _. exists info. auto.
    + eexists false, _. split; [reflexivity|].
      apply Hfailed; [reflexivity|].
      intros (info' & Hstat' & Hdir'). congruence.
  - assert (~ dir_ok (fs w) name) as Hnot
      by (intros (info' & Hstat' & _); congruence).
    destruct e; cbn [os.IsNotExist];
      try (eexists false, _; split; [reflexivity|];
           apply Hfailed; [reflexivity | exact Hnot]).
    unfold os.Stat in Hstat.
    destruct (decide (name ∈ statFails (fs w))) as [|Hnostat]; [discriminate|].
    destruct (nodes (fs w) !! name) as [n|] eqn:Hnode; [discriminate|].
    unfold os.Mkdir. destruct (decide (name ∈ writeFails (fs w))).
    + eexists false, _. split; [reflexivity|]. rewrite with_fs_same.
      apply Hfailed; [reflexivity | exact Hnot].
    + rewrite Hnode. eexists true, _. split; [reflexivity|].
      cbn [fs requests out with_fs].
      split; [reflexivity|]. split; [reflexivity|].
      assert (agree_outside [name] (fs w)
                (with_nodes (fs w) (<[name:=Dir newDirSize]> (nodes (fs w)))))
        as Hout.
      { split; [repeat split|]. intros p Hp. cbn.
        rewrite lookup_insert_ne; [reflexivity|].
        intros ->. apply Hp. left. reflexivity. }
      split; [exact Hout|]. split; [|split].
      * intros other Hother. eapply dir_ok_agree; [|exact Hother].
        eapply agree_outside_at; [|exact Hout].
        intros p [<-|[]] [<-|[]].
        apply dir_ok_lookup in Hother as (_ & size & Hsome). congruence.
      * intros _. exists (mkInfo (Z.of_N newDirSize) true).
        split; [|reflexivity]. unfold os.Stat. cbn.
        destruct (decide _); [contradiction|].
        rewrite lookup_insert_eq. reflexivity.
      * intros H. contradiction.
Qed.

(** What [ensureDirectory] can do to the filesystem: nothing, or make the
    directory at a name that held nothing and can be created. *)
Lemma ensureDirectory_made (name : string) (w w' : World) (ok : bool) :
  ensureDirectory name w = Done (ok, w') ->
  fs w' = fs w
  \/ (nodes (fs w) !! name = None
      /\ (name ∉ writeFails (fs w))
      /\ fs w' = with_nodes (fs w) (<[name := Dir newDirSize]> (nodes (fs w)))).
Proof.
  unfold ensureDirectory. run_go.
  destruct (os.Stat (fs w) name) as [info|e] eqn:Hstat.
  - destruct (info_IsDir info); cbn [negb];
      intros Hrun; injection Hrun as <- <-; left; reflexivity.
  - destruct e; cbn [os.IsNotExist];
      try (intros Hrun; injection Hrun as <- <-; left; reflexivity).
    unfold os.Stat in Hstat.
    destruct (decide (name ∈ statFails (fs w))) as [|Hnostat]; [discriminate|].
    destruct (nodes (fs w) !! name) as [nd|] eqn:Hnode; [discriminate|].
    unfold os.Mkdir. destruct (decide (name ∈ writeFails (fs w))) as [|Hnow].
    + intros Hrun. injection Hrun as <- <-. left. reflexivity.
    + rewrite Hnode. intros Hrun. injection Hrun as <- <-. right.
      split; [reflexivity|]. split; [exact Hnow|]. reflexivity.
Qed.

(** ** Nothing is removed *)

Lemma kept_refl (fs0 : FileSystem) : kept fs0 fs0.
Proof.
  split; [apply same_faults_refl|]. split; eauto.
Qed.

Lemma kept_trans (fs1 fs2 fs3 : FileSystem) :
  kept fs1 fs2 -> kept fs2 fs3 -> kept fs1 fs3.
Proof.
  intros (Hf1 & Hn1 & Hd1) (Hf2 & Hn2 & Hd2).
  split; [exact (same_faults_trans _ _ _ Hf1 Hf2)|]. split.
  - intros p n Hp. destruct (Hn1 p n Hp) as (n' & Hp'). exact (Hn2 p n' Hp').
  - intros p size Hp. exact (Hd2 p size (Hd1 p size Hp)).
Qed.

Lemma kept_insert (fs0 : FileSystem) (name : string) (n : node) :
  (forall size, nodes fs0 !! name <> Some (Dir size)) ->
  kept fs0 (with_nodes fs0 (<[name := n]> (nodes fs0))).
Proof.
  intros Hnodir. split; [repeat split|]. cbn [nodes with_nodes].
  split; intros p; intros;
    (destruct (decide (p = name)) as [->|Hne];
     [rewrite lookup_insert_eq | rewrite lookup_insert_ne by congruence]);
    eauto.
  exfalso. eapply Hnodir. eassumption.
Qed.

Lemma WriteFile_kept (fs0 fs1 : FileSystem) (name : string)
    (data : list byte) (e : option errno) :
  ioutil.WriteFile fs0 name data = (e, fs1) -> kept fs0 fs1.
Proof.
  intros Hw.
  destruct (WriteFile_changes _ _ _ _ _ Hw) as [(-> & _)|(n & -> & Hnodir & _)].
  - apply kept_refl.
  - apply kept_insert. exact Hnodir.
Qed.

Lemma checkHash_kept (dir : string) (file : File) (w w' : World) (r : bool) :
  checkHash dir file w = Done (r, w') -> kept (fs w) (fs w').
Proof.
  intros Hrun.
  destruct (checkHash_effect dir file w) as (r' & w'' & Hrun' & _ & Hfs).
  rewrite Hrun in Hrun'. injection Hrun' as <- <-.
  destruct Hfs as [->|(data & err & _ & _ & _ & _ & Hwrite)];
    [apply kept_refl | exact (WriteFile_kept _ _ _ _ _ Hwrite)].
Qed.

Lemma downloadFile_kept (c : Collector) (releaseName : string)
    (download : File) (w w' : World) :
  downloadFile c releaseName download w = Done (tt, w') ->
  kept (fs w) (fs w').
Proof.
  intros Hrun.
  destruct (downloadFile_cases c releaseName download w)
    as (w'' & Hrun' & _ &
        [(Hfs & _)
        |[(dr & e & fs1 & _ & _ & Hsave & Hfs & _)
         |[(dr & fs1 & e & fs2 & _ & _ & Hsave & Hhash & Hfs & _)
          |(dr & fs1 & fs2 & _ & _ & Hsave & Hhash & Hfs & _)]]]);
    rewrite Hrun in Hrun'; injection Hrun' as <-; rewrite Hfs.
  - apply kept_refl.
  - exact (WriteFile_kept _ _ _ _ _ Hsave).
  - exact (kept_trans _ _ _ (WriteFile_kept _ _ _ _ _ Hsave)
             (WriteFile_kept _ _ _ _ _ Hhash)).
  - exact (kept_trans _ _ _ (WriteFile_kept _ _ _ _ _ Hsave)
             (WriteFile_kept _ _ _ _ _ Hhash)).
Qed.

Lemma turn_kept (c : Collector) (releaseName : string) (download : File)
    (w w' : World) :
  turn c releaseName download w w' -> kept (fs w) (fs w').
Proof.
  intros [_ ->|w1 _ Hcheck ->|w1 _ Hcheck Hdl]; cbn [fs logged].
  - apply kept_refl.
  - exact (checkHash_kept _ _ _ _ _ Hcheck).
  - exact (kept_trans _ _ _ (checkHash_kept _ _ _ _ _ Hcheck)
             (downloadFile_kept _ _ _ _ _ Hdl)).
Qed.

Lemma ensureDirectory_kept (name : string) (w w' : World) (ok : bool) :
  ensureDirectory name w = Done (ok, w') -> kept (fs w) (fs w').
Proof.
  intros Hrun.
  destruct (ensureDirectory_made _ _ _ _ Hrun) as [->|(Hnone & _ & ->)];
    [apply kept_refl|].
  apply kept_insert. intros size. congruence.
Qed.

Lemma dir_ok_kept (fs1 fs2 : FileSystem) (name : string) :
  kept fs1 fs2 -> dir_ok fs1 name -> dir_ok fs2 name.
Proof.
  intros ((Hs & _) & _ & Hdirs) Hdir.
  apply dir_ok_lookup in Hdir as (Hnot & size & Hnode).
  exists (mkInfo (Z.of_N size) true). split; [|reflexivity].
  unfold os.Stat. rewrite <- Hs. destruct (decide _); [contradiction|].
  rewrite (Hdirs name size Hnode). reflexivity.
Qed.

(** ** What a satisfied artifact has on disk *)

(** The file is there, and so is the sidecar, unless it cannot be
    created. *)
Lemma satisfied_on_disk (fs0 : FileSystem) (dir : string) (file : File) :
  SHA256Sum file <> "" ->
  satisfied fs0 dir file ->
  (exists n, nodes fs0 !! dlTarget dir file = Some n)
  /\ ((exists hd, nodes fs0 !! dlSHA (dlTarget dir file) = Some (Regular hd))
      \/ dlSHA (dlTarget dir file) ∈ writeFails fs0).
Proof.
  intros Hne (w0 & Hrun & Hfs).
  pose proof (Hash_Equal_nil _ Hne) as Hnil.
  destruct (os.Stat (start fs0).(fs) (dlTarget dir file)) as [info|e] eqn:Hstat.
  2: { rewrite (checkHash_unstatable _ _ _ _ Hstat) in Hrun.
       discriminate Hrun. }
  destruct (Z.eq_dec (info_Size info) (int64 (Size file))) as [Hsize|Hsize].
  2: { rewrite (checkHash_wrong_size _ _ _ _ Hstat Hsize) in Hrun.
       discriminate Hrun. }
  split.
  { unfold os.Stat in Hstat. cbn [fs start] in Hstat.
    destruct (decide _) as [|Hnostat]; [discriminate|].
    destruct (nodes fs0 !! dlTarget dir file) as [nd|]; [eauto|discriminate]. }
  destruct (ReadFile_cases (fs (start fs0)) (dlSHA (dlTarget dir file)))
    as [(hd & Hread & Hnode & _)|[(Hread & Hnone & _)|(e & Hread & He)]].
  - left. exists hd. exact Hnode.
  - destruct (os.Open (fs (start fs0)) (dlTarget dir file)) as [f|e] eqn:Hopen.
    + destruct f as [size|data].
      * rewrite (checkHash_absent_unhashed _ _ _ _ _ _ _
                   Hstat Hsize Hread Hopen eq_refl Hnil) in Hrun.
        discriminate Hrun.
      * destruct (Hash_Equal_returns (SHA256Sum file) (sha256.Sum data))
          as [m Hm].
        rewrite (checkHash_absent_hashed _ _ _ _ _ _ _
                   Hstat Hsize Hread Hopen eq_refl Hm) in Hrun.
        injection Hrun as -> <-. cbn [fs start] in Hnone, Hfs.
        destruct (ioutil.WriteFile fs0 (dlSHA (dlTarget dir file))
                    (list_byte_of_string
                       (hex.EncodeToString (sha256.Sum data))))
          as [r fs'] eqn:Hwrite.
        assert (fs' = fs0) as ->
          by (destruct r; cbn [fs logged with_fs] in Hfs; exact Hfs).
        destruct (WriteFile_changes _ _ _ _ _ Hwrite)
          as [(_ & _ & [Hin|(size & Hdir)])|(n & Hins & _)].
        -- right. exact Hin.
        -- congruence.
        -- exfalso.
           apply (f_equal (fun x => nodes x !! dlSHA (dlTarget dir file)))
             in Hins.
           cbn in Hins. rewrite lookup_insert_eq, Hnone in Hins.
           discriminate Hins.
    + rewrite (checkHash_absent_unopened _ _ _ _ _ _
                 Hstat Hsize Hread Hopen Hnil) in Hrun.
      discriminate Hrun.
  - rewrite (checkHash_sidecar_unreadable _ _ _ _ _ Hstat Hsize Hread He)
      in Hrun.
    discriminate Hrun.
Qed.

(** Making a release directory leaves what is satisfied satisfied, also
    when the directory is named like the file or the sidecar. *)
Lemma ensureDirectory_keeps_satisfied (name : string) (w w' : World)
    (ok : bool) (dir : string) (file : File) :
  SHA256Sum file <> "" ->
  ensureDirectory name w = Done (ok, w') ->
  satisfied (fs w) dir file -> satisfied (fs w') dir file.
Proof.
  intros Hne Hrun Hsat.
  destruct (ensureDirectory_made _ _ _ _ Hrun) as [->|(Hnone & Hnow & Hfs)];
    [exact Hsat|].
  destruct (satisfied_on_disk _ _ _ Hne Hsat) as ((n & Ht) & Hs).
  eapply satisfied_agree; [|exact Hsat].
  rewrite Hfs. split; [repeat split|].
  intros p Hp. cbn [nodes with_nodes]. symmetry. apply lookup_insert_ne.
  intros <-. destruct Hp as [<-|[<-|[]]]; [congruence|].
  destruct Hs as [(hd & Hhd)|Hin]; [congruence|contradiction].
Qed.

(** ** What a turn of the inner loop does *)

Section turns.

Variables (c : Collector) (releaseName : string) (download : File).
Variables (w w' : World).
Hypothesis Hturn : turn c releaseName download w w'.

(** It touches the two paths of its artifact only. *)
Lemma turn_agree_outside :
  agree_outside (paths_of releaseName download) (fs w) (fs w').
Proof.
  destruct Hturn as [Hskip ->|w1 Hskip Hcheck ->|w1 Hskip Hcheck Hdl].
  - apply agree_outside_refl.
  - exact (checkHash_agree_outside _ _ _ _ _ Hcheck).
  - eapply agree_outside_trans;
      [exact (checkHash_agree_outside _ _ _ _ _ Hcheck)|].
    destruct (downloadFile_cases c releaseName download
                (logged w1 statusOut
                   (Downloading releaseName (Filename download)
                      (SHA256Sum download))))
      as (w'' & Hdl' & _ &
          [(Hfs & _)
          |[(dr & e & fs1 & _ & _ & Hsave & Hfs & _)
           |[(dr & fs1 & e & fs2 & _ & _ & Hsave & Hhash & Hfs & _)
            |(dr & fs1 & fs2 & _ & _ & Hsave & Hhash & Hfs & _)]]]);
      rewrite Hdl in Hdl'; injection Hdl' as <-; rewrite Hfs.
    + apply agree_outside_refl.
    + eapply agree_outside_weaken;
        [|exact (WriteFile_agree_outside _ _ _ _ _ Hsave)].
      intros p [<-|[]]. left. reflexivity.
    + eapply agree_outside_trans.
      * eapply agree_outside_weaken;
          [|exact (WriteFile_agree_outside _ _ _ _ _ Hsave)].
        intros p [<-|[]]. left. reflexivity.
      * eapply agree_outside_weaken;
          [|exact (WriteFile_agree_outside _ _ _ _ _ Hhash)].
        intros p [<-|[]]. right. left. reflexivity.
    + eapply agree_outside_trans.
      * eapply agree_outside_weaken;
          [|exact (WriteFile_agree_outside _ _ _ _ _ Hsave)].
        intros p [<-|[]]. left. reflexivity.
      * eapply agree_outside_weaken;
          [|exact (WriteFile_agree_outside _ _ _ _ _ Hhash)].
        intros p [<-|[]]. right. left. reflexivity.
Qed.

(** It makes at most one request, and none for a skipped or satisfied
    artifact. *)
Lemma turn_requests :
  requests w' = requests w
  \/ (requests w' = requests w ++ [fileDownloadFmt (Filename download)]
      /\ skipFile download = false
      /\ ~ satisfied (fs w) releaseName download).
Proof.
  destruct Hturn as [Hskip ->|w1 Hskip Hcheck ->|w1 Hskip Hcheck Hdl].
  - left. reflexivity.
  - left. cbn [requests logged].
    destruct (checkHash_effect releaseName download w) as (r & w2 & H & Hreq & _).
    rewrite Hcheck in H. injection H as _ <-. exact Hreq.
  - right.
    destruct (downloadFile_cases c releaseName download
                (logged w1 statusOut
                   (Downloading releaseName (Filename download)
                      (SHA256Sum download))))
      as (w'' & Hdl' & Hreq & _).
    rewrite Hdl in Hdl'. injection Hdl' as <-.
    destruct (checkHash_effect releaseName download w) as (r & w2 & H & Hreq1 & _).
    rewrite Hcheck in H. injection H as _ <-.
    rewrite Hreq. cbn [requests logged]. rewrite Hreq1.
    split; [reflexivity|]. split; [exact Hskip|].
    intros Hsat. destruct (satisfied_run _ _ _ w Hsat eq_refl) as (w3 & H3 & _).
    congruence.
Qed.

(** An artifact that was satisfied before its turn is satisfied after. *)
Lemma turn_keeps_satisfied :
  satisfied (fs w) releaseName download ->
  satisfied (fs w') releaseName download.
Proof.
  intros Hsat.
  destruct Hturn as [Hskip ->|w1 Hskip Hcheck ->|w1 Hskip Hcheck Hdl].
  - exact Hsat.
  - destruct (satisfied_run _ _ _ w Hsat eq_refl) as (w3 & H3 & Hfs & _).
    rewrite Hcheck in H3. injection H3 as <-.
    cbn [fs logged]. rewrite Hfs. exact Hsat.
  - destruct (satisfied_run _ _ _ w Hsat eq_refl) as (w3 & H3 & _). congruence.
Qed.

(** What it reports: nothing, or its artifact as already downloaded, which
    is then satisfied if the write of the sidecar does not break off, or
    its sidecar as saved, and then the delivered body and the hash text of
    the catalog are in place. *)
Lemma turn_reports :
  writeBreaks (fs w) !! dlSHA (dlTarget releaseName download) = None ->
  exists rs,
    reports (out w') = reports (out w) ++ rs
    /\ forall r, In r rs ->
         skipFile download = false
         /\ ((r = ReportAlready releaseName (Filename download)
              /\ satisfied (fs w') releaseName download)
             \/ (r = ReportSaved (dlSHA (dlTarget releaseName download))
                 /\ exists n dr,
                      delivered (withMaxBodySize maxDownloadBody c n
                                   (fileDownloadFmt (Filename download)))
                      = Some dr
                      /\ StatusCode dr = StatusOK
                      /\ nodes (fs w') !! dlTarget releaseName download
                         = Some (Regular (Body dr))
                      /\ nodes (fs w') !! dlSHA (dlTarget releaseName download)
                         = Some (Regular
                                   (list_byte_of_string (SHA256Sum download))))).
Proof.
  intros Hwhole.
  destruct Hturn as [Hskip ->|w1 Hskip Hcheck ->|w1 Hskip Hcheck Hdl].
  - exists []. rewrite reports_logged. cbn [report_of].
    split; [reflexivity|]. intros r [].
  - exists [ReportAlready releaseName (Filename download)].
    rewrite reports_logged, (checkHash_reports _ _ _ _ _ Hcheck).
    split; [reflexivity|]. intros r [<-|[]]. split; [exact Hskip|]. left.
    split; [reflexivity|].
    exact (satisfied_after_checkHash _ _ _ _ Hwhole Hcheck).
  - destruct (downloadFile_cases c releaseName download
                (logged w1 statusOut
                   (Downloading releaseName (Filename download)
                      (SHA256Sum download))))
      as (w'' & Hdl' & _ &
          [(_ & Hrep)
          |[(dr & e & fs1 & _ & _ & _ & _ & Hrep)
           |[(dr & fs1 & e & fs2 & _ & _ & _ & _ & _ & Hrep)
            |(dr & fs1 & fs2 & Hdel & Hstatus & Hsave & Hhash & Hfs & Hrep)]]]);
      rewrite Hdl in Hdl'; injection Hdl' as <-;
      rewrite reports_logged in Hrep; cbn [report_of] in Hrep;
      rewrite app_nil_r, (checkHash_reports _ _ _ _ _ Hcheck) in Hrep.
    + exists []. rewrite app_nil_r. split; [exact Hrep|]. intros r [].
    + exists []. rewrite app_nil_r. split; [exact Hrep|]. intros r [].
    + exists []. rewrite app_nil_r. split; [exact Hrep|]. intros r [].
    + eexists. split; [exact Hrep|]. intros r [<-|[]]. split; [exact Hskip|].
      right. split; [reflexivity|]. eexists _, dr.
      split; [exact Hdel|]. split; [exact Hstatus|]. rewrite Hfs.
      destruct (WriteFile_lookup _ _ _ _ Hsave) as (Ht & _).
      destruct (WriteFile_lookup _ _ _ _ Hhash) as (Hs & Hother & _).
      split; [|exact Hs]. rewrite Hother; [exact Ht|].
      intros Heq. exact (dlSHA_neq _ (eq_sym Heq)).
Qed.

End turns.

(** ** The first run *)

Lemma paths_of_overlap (rn : string) (f : File) :
  In (dlTarget rn f) (paths_of rn f)
  /\ In (dlSHA (dlTarget rn f)) (paths_of rn f).
Proof. split; [left | right; left]; reflexivity. Qed.

Lemma wanted_has_hash (releases : Releases) (rn : string) (f : File) :
  wanted releases rn f -> SHA256Sum f <> "".
Proof.
  intros (release & _ & _ & _ & _ & Hskip) Hempty.
  unfold skipFile in Hskip. rewrite Hempty in Hskip.
  destruct (_ =? _)%N; discriminate Hskip.
Qed.

Section first_run.

Variables (releases : Releases) (fs0 : FileSystem) (c : Collector).
Hypothesis Hsep : paths_separate releases.
Hypothesis Hhex : hashes_wellformed releases.
Hypothesis Hsized : bodies_sized c releases.
Hypothesis Hback : readable_back fs0 releases.
Hypothesis Hwhole : sidecars_whole fs0 releases.

(** Two wanted artifacts with a common path are the same artifact. *)
Lemma wanted_same (rn : string) (f : File) (rn' : string) (f' : File)
    (p : string) :
  wanted releases rn f -> wanted releases rn' f' ->
  In p (paths_of rn f) -> In p (paths_of rn' f') ->
  rn = rn' /\ f = f'.
Proof.
  intros Hw Hw' Hp Hp'.
  destruct (Hsep rn f rn' f' Hw Hw') as [Heq|Hdis]; [exact Heq|].
  exfalso. exact (Hdis p Hp Hp').
Qed.

(** What is satisfied stays so over the turn of another artifact, or its
    own. *)
Lemma turn_keeps_others (rn : string) (f : File) (rn' : string) (f' : File)
    (w w' : World) :
  wanted releases rn f ->
  (skipFile f' = false -> wanted releases rn' f') ->
  turn c rn' f' w w' ->
  satisfied (fs w) rn f /\ dir_ok (fs w) rn ->
  satisfied (fs w') rn f /\ dir_ok (fs w') rn.
Proof.
  intros Hw Hw' Hturn [Hsat Hdir].
  pose proof (turn_agree_outside _ _ _ _ _ Hturn) as Hout.
  destruct (skipFile f') eqn:Hskip.
  { destruct Hturn as [_ ->|w1 Hs _ _|w1 Hs _ _]; [auto|congruence..]. }
  specialize (Hw' eq_refl). split.
  - destruct (Hsep rn f rn' f' Hw Hw') as [[-> ->]|Hdis].
    + exact (turn_keeps_satisfied _ _ _ _ _ Hturn Hsat).
    + eapply satisfied_agree; [|exact Hsat].
      eapply agree_outside_at; [|exact Hout]. exact Hdis.
  - exact (dir_ok_kept _ _ _ (turn_kept _ _ _ _ _ Hturn) Hdir).
Qed.

(** A turn of the inner loop keeps the invariant of the first run. *)
Lemma turn_inv_first (rn : string) (f : File) (w w' : World) :
  (skipFile f = false -> wanted releases rn f) ->
  turn c rn f w w' ->
  dir_ok (fs w) rn ->
  inv_first releases fs0 w ->
  inv_first releases fs0 w' /\ dir_ok (fs w') rn.
Proof.
  intros Hw Hturn Hdir (Hfaults & Hinv).
  pose proof (turn_agree_outside _ _ _ _ _ Hturn) as Hout.
  assert (same_faults fs0 (fs w')) as Hfaults'
    by (eapply same_faults_trans; [exact Hfaults | exact (proj1 Hout)]).
  assert (dir_ok (fs w') rn) as Hdir'
    by exact (dir_ok_kept _ _ _ (turn_kept _ _ _ _ _ Hturn) Hdir).
  split; [|exact Hdir']. split; [exact Hfaults'|].
  intros rn1 f1 Hw1 Hdone.
  assert (exists rs,
             reports (out w') = reports (out w) ++ rs
             /\ forall r, In r rs ->
                  skipFile f = false
                  /\ ((r = ReportAlready rn (Filename f)
                       /\ satisfied (fs w') rn f)
                      \/ (r = ReportSaved (dlSHA (dlTarget rn f))
                          /\ exists n dr,
                               delivered (withMaxBodySize maxDownloadBody c n
                                            (fileDownloadFmt (Filename f)))
                               = Some dr
                               /\ StatusCode dr = StatusOK
                               /\ nodes (fs w') !! dlTarget rn f
                                  = Some (Regular (Body dr))
                               /\ nodes (fs w') !! dlSHA (dlTarget rn f)
                                  = Some (Regular
                                            (list_byte_of_string
                                               (SHA256Sum f))))))
    as (rs & Hrs & Hnew).
  { destruct (Bool.bool_dec (skipFile f) true) as [Hskip|Hskip].
    - destruct Hturn as [_ ->|w1 Hs _ _|w1 Hs _ _]; [|congruence..].
      exists []. rewrite reports_logged. cbn [report_of].
      split; [reflexivity|]. intros r [].
    - apply not_true_is_false in Hskip.
      apply (turn_reports _ _ _ _ _ Hturn).
      destruct Hfaults as (_ & _ & _ & <-). exact (Hwhole rn f (Hw Hskip)). }
  rewrite Hrs, !in_app_iff in Hdone.
  assert (forall r, In r rs ->
            r = ReportAlready rn1 (Filename f1)
            \/ r = ReportSaved (dlSHA (dlTarget rn1 f1)) ->
            satisfied (fs w') rn1 f1 /\ dir_ok (fs w') rn1) as Hfresh.
  { intros r Hr Hmine.
    destruct (Hnew r Hr) as (Hskip & Hr').
    specialize (Hw Hskip).
    assert (rn1 = rn /\ f1 = f) as [-> ->].
    { destruct Hr' as [(-> & _)|(-> & _)], Hmine as [Heq|Heq];
        try discriminate Heq.
      - injection Heq as Hrn Hfn.
        apply (wanted_same rn1 f1 rn f (dlTarget rn1 f1) Hw1 Hw);
          [apply paths_of_overlap|].
        unfold dlTarget. rewrite <- Hrn, <- Hfn. left. reflexivity.
      - injection Heq as Heq.
        apply (wanted_same rn1 f1 rn f (dlSHA (dlTarget rn1 f1)) Hw1 Hw);
          [apply paths_of_overlap|].
        rewrite <- Heq. apply paths_of_overlap. }
    split; [|exact Hdir'].
    destruct Hr' as [(_ & Hsat)|(_ & n & dr & Hdel & Hstatus & Ht & Hs)];
      [exact Hsat|].
    destruct (Hback rn f Hw) as (Hstat & Hopen).
    destruct Hfaults' as (Es & Eo & _).
    eapply satisfied_mirrored; [congruence | congruence | exact Ht | | exact Hs | ].
    - exact (Hsized rn f n dr Hw Hdel Hstatus).
    - exact (Hhex rn f Hw). }
  destruct Hdone as [[Hold|Hr]|[Hold|Hr]];
    try (eapply Hfresh; [exact Hr | auto]).
  - exact (turn_keeps_others rn1 f1 rn f w w' Hw1 Hw Hturn
             (Hinv rn1 f1 Hw1 (or_introl Hold))).
  - exact (turn_keeps_others rn1 f1 rn f w w' Hw1 Hw Hturn
             (Hinv rn1 f1 Hw1 (or_intror Hold))).
Qed.

Lemma inv_first_logged (w : World) (s : stream) (l : line) :
  report_of (s, l) = None ->
  inv_first releases fs0 w -> inv_first releases fs0 (logged w s l).
Proof.
  intros Hl (Hfaults & Hinv). split; [exact Hfaults|].
  intros rn f Hw. rewrite reports_logged, Hl, app_nil_r. exact (Hinv rn f Hw).
Qed.

Lemma downloads_inv_first (rn : string) (files : list File) :
  (forall f, In f files -> skipFile f = false -> wanted releases rn f) ->
  forall w,
    dir_ok (fs w) rn ->
    inv_first releases fs0 w ->
    exists w', forRange files (main_download c rn) w = Done (tt, w')
               /\ inv_first releases fs0 w'.
Proof.
  induction files as [|f files IH]; intros Hfiles w Hdir Hinv.
  - exists w. split; [reflexivity | exact Hinv].
  - destruct (main_download_turn c rn f w) as (w1 & Hrun & Hturn).
    destruct (turn_inv_first rn f w w1) as (Hinv1 & Hdir1);
      [intros Hskip; apply Hfiles; [left; reflexivity | exact Hskip]
      | exact Hturn | exact Hdir | exact Hinv |].
    destruct (IH (fun f' Hin => Hfiles f' (or_intror Hin)) w1 Hdir1 Hinv1)
      as (w' & Hrest & Hinv').
    exists w'. split; [|exact Hinv'].
    cbn [forRange]. unfold bind. rewrite Hrun. exact Hrest.
Qed.

Lemma release_inv_first (release : Release) (w : World) :
  In release releases ->
  inv_first releases fs0 w ->
  exists w', main_release c release w = Done (tt, w')
             /\ inv_first releases fs0 w'.
Proof.
  intros Hin Hinv. unfold main_release.
  destruct (skipRelease (RVersion release)) eqn:Hskip.
  - eexists. split; [reflexivity|]. apply inv_first_logged; [reflexivity|].
    exact Hinv.
  - destruct (ensureDirectory_cases (RVersion release) w)
      as (ok & wd & Hens & _ & Hrep & Hout & Hdirs & Hok & _).
    assert (inv_first releases fs0 wd) as Hinvd.
    { destruct Hinv as (Hfaults & Hinv). split.
      - eapply same_faults_trans; [exact Hfaults | exact (proj1 Hout)].
      - intros rn f Hw. rewrite Hrep. intros Hdone.
        destruct (Hinv rn f Hw Hdone) as (Hsat & Hdir).
        split; [|exact (Hdirs rn Hdir)].
        exact (ensureDirectory_keeps_satisfied _ _ _ _ _ _
                 (wanted_has_hash _ rn f Hw) Hens Hsat). }
    unfold bind at 1. rewrite Hens. destruct ok; cbn [negb].
    + apply downloads_inv_first; [|exact (Hok eq_refl)|exact Hinvd].
      intros f Hf Hfskip. exists release. auto.
    + exists wd. split; [reflexivity | exact Hinvd].
Qed.

Lemma releases_inv_first (rs : list Release) :
  (forall release, In release rs -> In release releases) ->
  forall w,
    inv_first releases fs0 w ->
    exists w', forRange rs (main_release c) w = Done (tt, w')
               /\ inv_first releases fs0 w'.
Proof.
  induction rs as [|release rs IH]; intros Hrs w Hinv.
  - exists w. split; [reflexivity | exact Hinv].
  - destruct (release_inv_first release w (Hrs release (or_introl eq_refl)) Hinv)
      as (w1 & Hrun & Hinv1).
    destruct (IH (fun r Hin => Hrs r (or_intror Hin)) w1 Hinv1)
      as (w' & Hrest & Hinv').
    exists w'. split; [|exact Hinv'].
    cbn [forRange]. unfold bind. rewrite Hrun. exact Hrest.
Qed.

(** After a first run that reported every artifact done, every artifact
    is satisfied and every release directory is in place. *)
Lemma first_run_satisfies (w1 : World) :
  main_OnResponse c (Some releases) (start fs0) = Done (tt, w1) ->
  all_reported_done releases (out w1) ->
  inv_second releases w1.
Proof.
  intros Hrun Hdone.
  destruct (releases_inv_first releases (fun r H => H) (start fs0))
    as (w' & Hrun' & (_ & Hinv)).
  - split; [apply same_faults_refl|]. intros rn f _ [[]|[]].
  - cbn [main_OnResponse] in Hrun. rewrite Hrun in Hrun'.
    injection Hrun' as <-.
    intros rn f Hw. apply (Hinv rn f Hw).
    apply reported_done_reports. exact (Hdone rn f Hw).
Qed.

End first_run.

(** ** The second run *)

(** The turn of a satisfied artifact: no request, no write, and the
    report "already downloaded". *)
Lemma turn_satisfied (c : Collector) (rn : string) (f : File) (w w' : World) :
  turn c rn f w w' ->
  (skipFile f = false -> satisfied (fs w) rn f) ->
  fs w' = fs w
  /\ requests w' = requests w
  /\ exists rs,
       reports (out w') = reports (out w) ++ rs
       /\ (skipFile f = false -> In (ReportAlready rn (Filename f)) rs).
Proof.
  intros Hturn Hsat.
  destruct Hturn as [Hskip ->|w1 Hskip Hcheck ->|w1 Hskip Hcheck Hdl].
  - split; [reflexivity|]. split; [reflexivity|]. exists [].
    rewrite reports_logged. cbn [report_of]. split; [reflexivity|]. congruence.
  - destruct (satisfied_run _ _ _ w (Hsat Hskip) eq_refl)
      as (w3 & H3 & Hfs & Hreq & _).
    rewrite Hcheck in H3. injection H3 as <-.
    split; [exact Hfs|]. split; [exact Hreq|].
    exists [ReportAlready rn (Filename f)].
    rewrite reports_logged, (checkHash_reports _ _ _ _ _ Hcheck).
    split; [reflexivity|]. intros _. left. reflexivity.
  - destruct (satisfied_run _ _ _ w (Hsat Hskip) eq_refl) as (w3 & H3 & _).
    congruence.
Qed.

Section second_run.

Variables (releases : Releases) (c : Collector).

Lemma inv_second_fs (w w' : World) :
  fs w' = fs w -> inv_second releases w -> inv_second releases w'.
Proof. unfold inv_second. intros ->. auto. Qed.

Lemma downloads_second (rn : string) (files : list File) :
  (forall f, In f files -> skipFile f = false -> wanted releases rn f) ->
  forall w,
    inv_second releases w ->
    exists w',
      forRange files (main_download c rn) w = Done (tt, w')
      /\ fs w' = fs w
      /\ requests w' = requests w
      /\ (forall r, In r (reports (out w)) -> In r (reports (out w')))
      /\ (forall f, In f files -> skipFile f = false ->
                    In (ReportAlready rn (Filename f)) (reports (out w'))).
Proof.
  induction files as [|f files IH]; intros Hfiles w Hinv.
  - exists w. repeat split; auto. intros f [].
  - destruct (main_download_turn c rn f w) as (w1 & Hrun & Hturn).
    destruct (turn_satisfied c rn f w w1 Hturn)
      as (Hfs1 & Hreq1 & rs & Hrs & Hmine).
    { intros Hskip. apply (Hinv rn f).
      apply Hfiles; [left; reflexivity | exact Hskip]. }
    destruct (IH (fun f' Hin => Hfiles f' (or_intror Hin)) w1
                 (inv_second_fs w w1 Hfs1 Hinv))
      as (w' & Hrest & Hfs' & Hreq' & Hmono & Hall).
    exists w'. split; [cbn [forRange]; unfold bind; rewrite Hrun; exact Hrest|].
    split; [congruence|]. split; [congruence|]. split.
    + intros r Hr. apply Hmono. rewrite Hrs. apply in_or_app. left. exact Hr.
    + intros f' [<-|Hin] Hskip; [|exact (Hall f' Hin Hskip)].
      apply Hmono. rewrite Hrs. apply in_or_app. right. exact (Hmine Hskip).
Qed.

Lemma release_second (release : Release) (w : World) :
  In release releases ->
  inv_second releases w ->
  exists w',
    main_release c release w = Done (tt, w')
    /\ inv_second releases w'
    /\ requests w' = requests w
    /\ (forall r, In r (reports (out w)) -> In r (reports (out w')))
    /\ (skipRelease (RVersion release) = false ->
        forall f, In f (Downloads release) -> skipFile f = false ->
                  In (ReportAlready (RVersion release) (Filename f))
                     (reports (out w'))).
Proof.
  intros Hin Hinv. unfold main_release.
  destruct (skipRelease (RVersion release)) eqn:Hskip.
  - eexists. split; [reflexivity|].
    split; [exact (inv_second_fs w _ eq_refl Hinv)|]. split; [reflexivity|].
    rewrite reports_logged. cbn [report_of]. rewrite app_nil_r.
    split; [auto | discriminate].
  - destruct (ensureDirectory_cases (RVersion release) w)
      as (ok & wd & Hens & Hreq & Hrep & Hout & Hdirs & Hok & Hthere).
    assert (inv_second releases wd) as Hinvd.
    { intros rn f Hw. destruct (Hinv rn f Hw) as (Hsat & Hdir).
      split; [|exact (Hdirs rn Hdir)].
      exact (ensureDirectory_keeps_satisfied _ _ _ _ _ _
               (wanted_has_hash _ rn f Hw) Hens Hsat). }
    unfold bind at 1. rewrite Hens. destruct ok; cbn [negb].
    + destruct (downloads_second (RVersion release) (Downloads release)) with (w := wd)
        as (w' & Hrun & Hfs & Hreq' & Hmono & Hall).
      * intros f Hf Hfskip. exists release. auto.
      * exact Hinvd.
      * exists w'. split; [exact Hrun|].
        split; [exact (inv_second_fs wd w' Hfs Hinvd)|].
        split; [congruence|]. split.
        -- intros r Hr. apply Hmono. rewrite Hrep. exact Hr.
        -- intros _. exact Hall.
    + exists wd. split; [reflexivity|]. split; [exact Hinvd|].
      split; [exact Hreq|]. split; [intros r; rewrite Hrep; auto|].
      intros _ f Hf Hfskip. exfalso.
      assert (wanted releases (RVersion release) f) as Hw
        by (exists release; auto).
      destruct (Hthere (proj2 (Hinv _ _ Hw))) as (Hfalse & _).
      discriminate Hfalse.
Qed.

Lemma releases_second (rs : list Release) :
  (forall release, In release rs -> In release releases) ->
  forall w,
    inv_second releases w ->
    exists w',
      forRange rs (main_release c) w = Done (tt, w')
      /\ requests w' = requests w
      /\ (forall r, In r (reports (out w)) -> In r (reports (out w')))
      /\ (forall release f,
             In release rs -> skipRelease (RVersion release) = false ->
             In f (Downloads release) -> skipFile f = false ->
             In (ReportAlready (RVersion release) (Filename f))
                (reports (out w'))).
Proof.
  induction rs as [|release rs IH]; intros Hrs w Hinv.
  - exists w. repeat split; auto. intros release f [].
  - destruct (release_second release w (Hrs release (or_introl eq_refl)) Hinv)
      as (w1 & Hrun & Hinv1 & Hreq1 & Hmono1 & Hall1).
    destruct (IH (fun r Hin => Hrs r (or_intror Hin)) w1 Hinv1)
      as (w' & Hrest & Hreq' & Hmono & Hall).
    exists w'. split; [cbn [forRange]; unfold bind; rewrite Hrun; exact Hrest|].
    split; [congruence|]. split; [auto|].
    intros release' f [<-|Hin] Hskip Hf Hfskip.
    + apply Hmono. exact (Hall1 Hskip f Hf Hfskip).
    + exact (Hall release' f Hin Hskip Hf Hfskip).
Qed.

End second_run.

(** ** The loop always returns, and what it requests *)

Lemma downloads_requests (c : Collector) (rn : string) (files : list File) :
  forall w,
    exists w' new,
      forRange files (main_download c rn) w = Done (tt, w')
      /\ requests w' = requests w ++ new
      /\ forall url, In url new ->
           exists f, In f files /\ skipFile f = false
                     /\ url = fileDownloadFmt (Filename f).
Proof.
  induction files as [|f files IH]; intros w.
  - exists w, []. rewrite app_nil_r. repeat split. intros url [].
  - destruct (main_download_turn c rn f w) as (w1 & Hrun & Hturn).
    destruct (IH w1) as (w' & new & Hrest & Hreq & Hnew).
    cbn [forRange]. unfold bind. rewrite Hrun.
    destruct (turn_requests _ _ _ _ _ Hturn) as [Hreq1|(Hreq1 & Hskip & _)].
    + exists w', new. split; [exact Hrest|]. split; [congruence|].
      intros url Hurl. destruct (Hnew url Hurl) as (f' & Hin & Hf').
      exists f'. split; [right; exact Hin | exact Hf'].
    + exists w', (fileDownloadFmt (Filename f) :: new).
      split; [exact Hrest|]. split.
      * rewrite Hreq, Hreq1, <- app_assoc. reflexivity.
      * intros url [<-|Hurl].
        -- exists f. split; [left; reflexivity | auto].
        -- destruct (Hnew url Hurl) as (f' & Hin & Hf').
           exists f'. split; [right; exact Hin | exact Hf'].
Qed.

Lemma release_requests (c : Collector) (release : Release) (w : World) :
  exists w' new,
    main_release c release w = Done (tt, w')
    /\ requests w' = requests w ++ new
    /\ forall url, In url new ->
         skipRelease (RVersion release) = false
         /\ exists f, In f (Downloads release) /\ skipFile f = false
                      /\ url = fileDownloadFmt (Filename f).
Proof.
  unfold main_release.
  destruct (skipRelease (RVersion release)) eqn:Hskip.
  - eexists _, []. split; [reflexivity|]. rewrite app_nil_r.
    split; [reflexivity|]. intros url [].
  - destruct (ensureDirectory_cases (RVersion release) w)
      as (ok & wd & Hens & Hreq & _).
    unfold bind at 1. rewrite Hens. destruct ok; cbn [negb].
    + destruct (downloads_requests c (RVersion release) (Downloads release) wd)
        as (w' & new & Hrun & Hreq' & Hnew).
      exists w', new. split; [exact Hrun|]. split; [congruence|]. auto.
    + exists wd, []. split; [reflexivity|]. rewrite app_nil_r.
      split; [exact Hreq|]. intros url [].
Qed.

Lemma releases_requests (c : Collector) (releases : Releases) :
  forall w,
    exists w' new,
      forRange releases (main_release c) w = Done (tt, w')
      /\ requests w' = requests w ++ new
      /\ forall url, In url new ->
           exists rn f, wanted releases rn f
                        /\ url = fileDownloadFmt (Filename f).
Proof.
  induction releases as [|release releases IH]; intros w.
  - exists w, []. rewrite app_nil_r. repeat split. intros url [].
  - destruct (release_requests c release w) as (w1 & new1 & Hrun & Hreq1 & Hnew1).
    destruct (IH w1) as (w' & new & Hrest & Hreq & Hnew).
    exists w', (new1 ++ new).
    split; [cbn [forRange]; unfold bind; rewrite Hrun; exact Hrest|].
    split; [rewrite Hreq, Hreq1, <- app_assoc; reflexivity|].
    intros url Hurl. apply in_app_or in Hurl as [Hurl|Hurl].
    + destruct (Hnew1 url Hurl) as (Hskip & f & Hin & Hfskip & ->).
      exists (RVersion release), f. split; [|reflexivity].
      exists release. split; [left; reflexivity | auto].
    + destruct (Hnew url Hurl) as (rn & f & (r & Hin & Hw) & ->).
      exists rn, f. split; [|reflexivity]. exists r.
      split; [right; exact Hin | exact Hw].
Qed.

(** The callback of [main] returns for every catalog, collector and
    world: nothing in the loop panics or aborts. *)
Lemma main_OnResponse_returns (c : Collector) (parsed : option Releases)
    (w : World) :
  exists w', main_OnResponse c parsed w = Done (tt, w').
Proof.
  destruct parsed as [releases|]; cbn [main_OnResponse].
  - destruct (releases_requests c releases w) as (w' & _ & Hrun & _). eauto.
  - eexists. reflexivity.
Qed.

(** ** The artifact skip policy *)

(** C6. The artifact skip policy answers "skip" exactly when the declared
    size is zero or the expected hash is empty.  For a skipped artifact
    the body of the loop is the skip line and nothing else, whatever the
    collector and the world are: the verifier is not run and nothing is
    fetched.  Every request a run makes is for an artifact that is not
    skipped, of a release that is not skipped. *)
Theorem skipFile_iff_and_never_fetched (file : File) :
  (skipFile file = true <-> Size file = 0%N \/ SHA256Sum file = "")
  /\ (skipFile file = true ->
      forall (c : Collector) (releaseName : string),
        main_download c releaseName file
        = Fprintf errOut (SkippingFile releaseName (Filename file)))
  /\ (forall (c : Collector) (releases : Releases) (w w' : World),
         main_OnResponse c (Some releases) w = Done (tt, w') ->
         exists new,
           requests w' = requests w ++ new
           /\ forall url, In url new ->
                exists rn f, wanted releases rn f
                             /\ url = fileDownloadFmt (Filename f)).
Proof.
  split; [|split].
  - unfold skipFile.
    destruct (N.eqb_spec (Size file) 0) as [Hz|Hnz].
    + split; [auto | reflexivity].
    + destruct (SHA256Sum file) as [|ch h]; cbn.
      * split; [auto | reflexivity].
      * split; [discriminate | intros [?|?]; [contradiction | discriminate]].
  - intros Hskip c releaseName. unfold main_download. rewrite Hskip. reflexivity.
  - intros c releases w w' Hrun. cbn [main_OnResponse] in Hrun.
    destruct (releases_requests c releases w) as (w'' & new & Hrun' & Hreq & Hnew).
    rewrite Hrun in Hrun'. injection Hrun' as <-. eauto.
Qed.

(** ** Idempotence *)

(** C1, as amended. A first run reported every artifact it had to verify
    as done ("already downloaded", or "saved hash" after its download).
    If moreover the expected hashes are well-formed hexadecimal, the
    bodies delivered with status 200 had the declared sizes, no two
    artifacts share a path, the filesystem lets the files be inspected
    and the sidecars be read, and a write to a sidecar does not break off
    once the file is open, then a second run over the same catalog, from
    the filesystem the first one left and with any collector, makes no
    request at all and reports every one of these artifacts "already
    downloaded". *)
Theorem second_run_fetches_nothing
    (releases : Releases) (fs0 : FileSystem) (c c' : Collector) (w1 : World) :
  paths_separate releases ->
  hashes_wellformed releases ->
  bodies_sized c releases ->
  readable_back fs0 releases ->
  sidecars_whole fs0 releases ->
  main_OnResponse c (Some releases) (start fs0) = Done (tt, w1) ->
  all_reported_done releases (out w1) ->
  exists w2,
    main_OnResponse c' (Some releases) (start (fs w1)) = Done (tt, w2)
    /\ requests w2 = []
    /\ forall rn f,
         wanted releases rn f ->
         In (errOut, AlreadyDownloaded rn (Filename f)) (out w2).
Proof.
  intros Hsep Hhex Hsized Hback Hwhole Hrun Hdone.
  pose proof (first_run_satisfies releases fs0 c Hsep Hhex Hsized Hback Hwhole
                w1 Hrun Hdone) as Hinv.
  destruct (releases_second releases c' releases (fun r H => H)
              (start (fs w1)))
    as (w2 & Hrun2 & Hreq & _ & Hall).
  - intros rn f Hw. exact (Hinv rn f Hw).
  - exists w2. split; [exact Hrun2|]. split; [exact Hreq|].
    intros rn f (release & Hin & Hskip & <- & Hf & Hfskip).
    apply reports_In_already. exact (Hall release f Hin Hskip Hf Hfskip).
Qed.

Lemma wanted_hello (rn : string) (f : File) :
  wanted [helloRelease] rn f -> rn = "go1.21.0" /\ f = helloFile.
Proof.
  intros (release & [<-|[]] & _ & <- & [<-|[]] & _). split; reflexivity.
Qed.

(** The server sends the archive; the second run finds it. *)
Lemma second_run_fetches_nothing_witness :
  exists w2,
    main_OnResponse (refusing 404 "Not Found") (Some [helloRelease])
      (start (fs (after_run (serving helloBody) [helloRelease] fsEmpty)))
    = Done (tt, w2)
    /\ requests w2 = []
    /\ forall rn f,
         wanted [helloRelease] rn f ->
         In (errOut, AlreadyDownloaded rn (Filename f)) (out w2).
Proof.
  apply (second_run_fetches_nothing
           [helloRelease] fsEmpty (serving helloBody) (refusing 404 "Not Found")
           (after_run (serving helloBody) [helloRelease] fsEmpty)).
  - intros rn f rn' f' Hw Hw'.
    apply wanted_hello in Hw as [-> ->], Hw' as [-> ->]. left. auto.
  - intros rn f Hw. apply wanted_hello in Hw as [-> ->].
    vm_compute. reflexivity.
  - intros rn f n dr Hw Hdel _. apply wanted_hello in Hw as [-> ->].
    vm_compute in Hdel. injection Hdel as <-. vm_compute. reflexivity.
  - intros rn f Hw. apply wanted_hello in Hw as [-> ->].
    split; vm_compute; set_solver.
  - intros rn f Hw. apply wanted_hello in Hw as [-> ->]. reflexivity.
  - vm_compute. reflexivity.
  - intros rn f Hw. apply wanted_hello in Hw as [-> ->].
    right. vm_compute. auto 10.
Defined.

(** C1, as stated, fails: the server answers 200 with four bytes for an
    archive of five; the first run saves the file and its sidecar and
    reports them; the second run finds the size wrong and fetches again. *)
Lemma second_run_refetches_short_body :
  ~ (forall (releases : Releases) (fs0 : FileSystem) (c c' : Collector)
            (w1 : World),
        main_OnResponse c (Some releases) (start fs0) = Done (tt, w1) ->
        all_reported_done releases (out w1) ->
        exists w2,
          main_OnResponse c' (Some releases) (start (fs w1)) = Done (tt, w2)
          /\ requests w2 = []).
Proof.
  intros Hclaim.
  destruct (Hclaim [helloRelease] fsEmpty shortServer shortServer
              (after_run shortServer [helloRelease] fsEmpty))
    as (w2 & Hrun2 & Hreq).
  - vm_compute. reflexivity.
  - intros rn f Hw. apply wanted_hello in Hw as [-> ->].
    right. vm_compute. auto 10.
  - assert (exists w, main_OnResponse shortServer (Some [helloRelease])
                        (start (fs (after_run shortServer [helloRelease] fsEmpty)))
                      = Done (tt, w)
                      /\ requests w
                         = ["https://golang.org/dl/go1.21.0.linux-amd64.tar.gz"])
      as (w & Hrun & Hfetched)
      by (eexists; split; vm_compute; reflexivity).
    pose proof (eq_trans (eq_sym Hrun) Hrun2) as Heq. injection Heq as <-.
    rewrite Hfetched in Hreq. discriminate Hreq.
Qed.

(** Each further condition of the amended statement is needed as well. *)

(** A hash that is not hexadecimal is written to the sidecar as it is and
    never accepted when read back. *)
Lemma second_run_refetches_malformed_hash :
  all_reported_done [garbledRelease]
    (out (after_run (serving helloBody) [garbledRelease] fsEmpty))
  /\ requests
       (after_run (serving helloBody) [garbledRelease]
          (fs (after_run (serving helloBody) [garbledRelease] fsEmpty)))
     = ["https://golang.org/dl/go1.21.0.linux-amd64.tar.gz"].
Proof.
  split; [|vm_compute; reflexivity].
  intros rn f (release & [<-|[]] & _ & <- & [<-|[]] & _).
  right. vm_compute. auto 10.
Qed.

(** An entry named like the sidecar of another overwrites that sidecar. *)
Lemma second_run_refetches_clashing_paths :
  all_reported_done [clashRelease]
    (out (after_run (serving helloBody) [clashRelease] fsEmpty))
  /\ requests
       (after_run (serving helloBody) [clashRelease]
          (fs (after_run (serving helloBody) [clashRelease] fsEmpty)))
     = ["https://golang.org/dl/pkg"; "https://golang.org/dl/pkg.sha"].
Proof.
  split; [|vm_compute; reflexivity].
  intros rn f (release & [<-|[]] & _ & <- & [<-|[<-|[]]] & _);
    right; vm_compute; auto 10.
Qed.

(** A write of the sidecar that breaks off leaves an empty sidecar behind:
    the first run hashes the archive, finds the digest right and reports
    it "already downloaded"; the second reads the empty sidecar, finds it
    different from the expected hash and fetches. *)
Lemma second_run_refetches_broken_sidecar :
  all_reported_done [helloRelease]
    (out (after_run (serving helloBody) [helloRelease] (fsBreaking 0)))
  /\ requests (after_run (serving helloBody) [helloRelease] (fsBreaking 0))
     = []
  /\ nodes (fs (after_run (serving helloBody) [helloRelease] (fsBreaking 0)))
       !! helloSidecar
     = Some (Regular [])
  /\ requests
       (after_run (serving helloBody) [helloRelease]
          (fs (after_run (serving helloBody) [helloRelease] (fsBreaking 0))))
     = ["https://golang.org/dl/go1.21.0.linux-amd64.tar.gz"].
Proof.
  split; [|split; [|split]]; [|vm_compute; reflexivity..].
  intros rn f Hw. apply wanted_hello in Hw as [-> ->].
  left. vm_compute. auto 10.
Qed.

(** A sidecar that cannot be read back is of no use to the next run. *)
Lemma second_run_refetches_unreadable_sidecar :
  all_reported_done [helloRelease]
    (out (after_run (serving helloBody) [helloRelease] fsWriteOnly))
  /\ requests
       (after_run (serving helloBody) [helloRelease]
          (fs (after_run (serving helloBody) [helloRelease] fsWriteOnly)))
     = ["https://golang.org/dl/go1.21.0.linux-amd64.tar.gz"].
Proof.
  split; [|vm_compute; reflexivity].
  intros rn f Hw. apply wanted_hello in Hw as [-> ->].
  right. vm_compute. auto 10.
Qed.

(** ** The earlier revision against the later one *)

(** For an artifact with a hash the two revisions of the verifier give
    the same verdict and leave the same filesystem. *)
Lemma Earlier_checkHash_same (dir : string) (file : File) (w : World)
    (r : bool) (w1 : World) :
  SHA256Sum file <> "" ->
  checkHash dir file w = Done (r, w1) ->
  exists w2, Earlier.checkHash dir file w = Done (r, w2)
             /\ fs w2 = fs w1 /\ requests w2 = requests w1.
Proof.
  intros Hne. pose proof (Hash_Equal_nil _ Hne) as Hnil.
  unfold checkHash, Earlier.checkHash, computeHash, writeHash. run_go.
  split_branches_using ltac:(rewrite Hnil);
    intros Hrun; inversion Hrun; subst; eexists; (split; [reflexivity|]);
    split; reflexivity.
Qed.

(** Without a hash they differ: when the file cannot be opened, the later
    revision compares the empty hash with the empty slice and accepts,
    where the earlier one returned false. *)
Lemma Earlier_checkHash_differs_without_hash :
  (exists w1,
      checkHash "go1.21.0" hashlessFile (start fsLocked) = Done (true, w1))
  /\ (exists w2,
         Earlier.checkHash "go1.21.0" hashlessFile (start fsLocked)
         = Done (false, w2))
  /\ skipFile hashlessFile = true.
Proof.
  split; [|split]; [eexists; vm_compute; reflexivity..|reflexivity].
Qed.

(** A turn of the inner loop does the same to the filesystem and makes
    the same requests in both revisions. *)
Lemma Earlier_main_download_same (c : Collector) (releaseName : string)
    (download : File) (w w1 : World) :
  main_download c releaseName download w = Done (tt, w1) ->
  exists w2, Earlier.main_download c releaseName download w = Done (tt, w2)
             /\ fs w2 = fs w1 /\ requests w2 = requests w1.
Proof.
  intros Hrun.
  destruct (main_download_turn c releaseName download w) as (w1' & Hrun' & Hturn).
  pose proof (eq_trans (eq_sym Hrun) Hrun') as Heq. injection Heq as <-.
  assert (skipFile download = false -> SHA256Sum download <> "") as Hne.
  { intros Hskip Hempty. unfold skipFile in Hskip. rewrite Hempty in Hskip.
    destruct (_ =? _)%N; discriminate Hskip. }
  unfold Earlier.main_download.
  destruct Hturn as [Hskip ->|wc Hskip Hcheck ->|wc Hskip Hcheck Hdl];
    rewrite Hskip.
  - eexists. split; [reflexivity|]. auto.
  - destruct (Earlier_checkHash_same _ _ _ _ _ (Hne Hskip) Hcheck)
      as (wc' & Hcheck' & Hfs & Hreq).
    unfold bind at 1. rewrite Hcheck'.
    eexists. split; [reflexivity|]. auto.
  - destruct (Earlier_checkHash_same _ _ _ _ _ (Hne Hskip) Hcheck)
      as (wc' & Hcheck' & Hfs & Hreq).
    unfold bind at 1. rewrite Hcheck'. revert Hdl.
    unfold downloadFile, downloadFile_OnResponse,
      Earlier.main_download_OnResponse, Save, writeHash, Visit.
    run_go. cbn [fs requests logged requested with_fs].
    split_branches_using
      ltac:(first [rewrite Hfs | rewrite Hreq
                  | progress cbn [fs requests logged requested with_fs]]);
      intros Hdl; inversion Hdl; subst; eexists; (split; [reflexivity|]);
      cbn [fs requests logged requested with_fs]; split; congruence.
Qed.

(** * Further properties of the code *)

(** ** ensureDirectory *)

Lemma ensureDirectory_effect (name : string) (w : World) :
  exists (ok : bool) (w' : World),
    ensureDirectory name w = Done (ok, w')
    /\ (ok = true <-> dir_ok (fs w') name)
    /\ (fs w' = fs w
        \/ (ok = true
            /\ nodes (fs w) !! name = None
            /\ fs w' = set_node (fs w) name (Some (Dir newDirSize)))).
Proof.
  destruct (ensureDirectory_cases name w)
    as (ok & w' & Hrun & _ & _ & _ & _ & Hok & Hthere).
  exists ok, w'. split; [exact Hrun|].
  revert Hrun. unfold ensureDirectory. run_go.
  destruct (os.Stat (fs w) name) as [info|e] eqn:Hstat.
  - destruct (info_IsDir info) eqn:Hdir; cbn [negb];
      intros Hrun; injection Hrun as <- <-.
    + split; [split; auto|]. left. reflexivity.
    + split; [|left; reflexivity]. split; [discriminate|].
      intros (info' & Hstat' & Hdir'). cbn [fs logged] in Hstat'. congruence.
  - assert (~ dir_ok (fs w) name) as Hnot
      by (intros (info' & Hstat' & _); congruence).
    destruct e; cbn [os.IsNotExist];
      try (intros Hrun; injection Hrun as <- <-;
           split; [|left; reflexivity];
           split; [discriminate | intros H; contradiction]).
    unfold os.Stat in Hstat.
    destruct (decide (name ∈ statFails (fs w))) as [|Hnostat]; [discriminate|].
    destruct (nodes (fs w) !! name) as [nd|] eqn:Hnode; [discriminate|].
    unfold os.Mkdir. destruct (decide (name ∈ writeFails (fs w))).
    + intros Hrun. injection Hrun as <- <-.
      split; [|left; reflexivity].
      split; [discriminate | intros H; contradiction].
    + rewrite Hnode. intros Hrun. injection Hrun as <- <-.
      split; [split; auto|]. right.
      split; [reflexivity|]. split; [reflexivity|].
      unfold set_node, with_fs. cbn [fs]. reflexivity.
Qed.

(** X1. [ensureDirectory] always returns and makes no request.  Its answer
    is true exactly when the named directory is there afterwards.  It
    changes the filesystem in one way only, by making the directory where
    nothing was; whatever stood at the name before is left as it was. *)
Theorem ensureDirectory_answer_and_effect (name : string) (w : World) :
  exists (ok : bool) (w' : World),
    ensureDirectory name w = Done (ok, w')
    /\ requests w' = requests w
    /\ (ok = true <-> dir_ok (fs w') name)
    /\ (forall n, nodes (fs w) !! name = Some n -> fs w' = fs w)
    /\ (fs w' = fs w
        \/ (nodes (fs w) !! name = None
            /\ fs w' = set_node (fs w) name (Some (Dir newDirSize)))).
Proof.
  destruct (ensureDirectory_effect name w) as (ok & w' & Hrun & Hiff & Hfs).
  destruct (ensureDirectory_cases name w) as (ok' & w'' & Hrun' & Hreq & _).
  rewrite Hrun in Hrun'. injection Hrun' as <- <-.
  exists ok, w'. split; [exact Hrun|]. split; [exact Hreq|].
  split; [exact Hiff|]. split.
  - intros n Hn. destruct Hfs as [Hfs|(_ & Hnone & _)]; [exact Hfs | congruence].
  - destruct Hfs as [Hfs|(_ & Hnone & Hfs)]; [left | right]; auto.
Qed.

Lemma ensureDirectory_fs_only (name : string) (w w2 : World) (ok : bool)
    (w' : World) :
  fs w2 = fs w ->
  ensureDirectory name w = Done (ok, w') ->
  exists w2', ensureDirectory name w2 = Done (ok, w2') /\ fs w2' = fs w'.
Proof.
  intros Hfs. unfold ensureDirectory. run_go.
  split_branches_using ltac:(rewrite Hfs);
    intros Hrun; inversion Hrun; subst; eexists; (split; [reflexivity|]);
    cbn [fs logged with_fs]; congruence.
Qed.

(** X2. Asking for the same directory again gives the same answer and
    changes nothing: what the first call could make is there for the
    second, and what it could not make the second cannot make either. *)
Theorem ensureDirectory_again (name : string) (w w1 : World) (ok : bool) :
  ensureDirectory name w = Done (ok, w1) ->
  forall w2, fs w2 = fs w1 ->
    exists w3, ensureDirectory name w2 = Done (ok, w3) /\ fs w3 = fs w2.
Proof.
  intros Hrun w2 Hfs.
  destruct (ensureDirectory_effect name w) as (ok' & w' & Hrun' & Hiff & Heff).
  rewrite Hrun in Hrun'. injection Hrun' as <- <-.
  destruct ok.
  - destruct (ensureDirectory_cases name w2)
      as (ok2 & w3 & Hrun2 & _ & _ & _ & _ & _ & Hthere).
    destruct Hthere as (-> & Hsame).
    + rewrite Hfs. apply Hiff. reflexivity.
    + exists w3. split; assumption.
  - destruct Heff as [Hsame|(Hok & _)]; [|discriminate Hok].
    destruct (ensureDirectory_fs_only name w w2 false w1) as (w3 & Hrun2 & Hfs3);
      [congruence | exact Hrun |].
    exists w3. split; [exact Hrun2 | congruence].
Qed.

Lemma ensureDirectory_again_witness :
  exists w3,
    ensureDirectory "go1.21.0"
      (start (set_node fsEmpty "go1.21.0" (Some (Dir newDirSize))))
    = Done (true, w3)
    /\ fs w3 = set_node fsEmpty "go1.21.0" (Some (Dir newDirSize)).
Proof.
  apply (ensureDirectory_again "go1.21.0" (start fsEmpty)
           (start (set_node fsEmpty "go1.21.0" (Some (Dir newDirSize)))) true).
  - vm_compute. reflexivity.
  - reflexivity.
Defined.

(** X3. When the directory of a release cannot be ensured (a file of that
    name is in the way, it cannot be inspected or cannot be made), the
    release is given up: nothing of it is verified or fetched, and the
    filesystem is left as it was. *)
Theorem main_release_without_directory
    (c : Collector) (release : Release) (w wd : World) :
  skipRelease (RVersion release) = false ->
  ensureDirectory (RVersion release) w = Done (false, wd) ->
  main_release c release w = Done (tt, wd)
  /\ fs wd = fs w
  /\ requests wd = requests w
  /\ reports (out wd) = reports (out w).
Proof.
  intros Hskip Hens.
  destruct (ensureDirectory_effect (RVersion release) w)
    as (ok & w' & Hrun & _ & Heff).
  destruct (ensureDirectory_cases (RVersion release) w)
    as (ok' & w'' & Hrun' & Hreq & Hrep & _).
  rewrite Hens in Hrun, Hrun'.
  injection Hrun as <- <-. injection Hrun' as <-.
  split.
  - unfold main_release. rewrite Hskip. unfold bind. rewrite Hens. reflexivity.
  - destruct Heff as [Hfs|(Hok & _)]; [|discriminate Hok].
    subst w''. split; [exact Hfs|]. split; [exact Hreq | exact Hrep].
Qed.

Lemma main_release_without_directory_witness :
  main_release (serving helloBody) helloRelease
    (start (set_node fsEmpty "go1.21.0" (Some (Regular helloBody))))
  = Done (tt,
          logged (start (set_node fsEmpty "go1.21.0" (Some (Regular helloBody))))
                 errOut (NotADirectory "go1.21.0")).
Proof.
  apply (main_release_without_directory (serving helloBody) helloRelease).
  - reflexivity.
  - vm_compute. reflexivity.
Defined.

(** ** The integrity verifier *)

Lemma ReadFile_absent_lookup (fs0 : FileSystem) (name : string) :
  ioutil.ReadFile fs0 name = Err ENOENT -> nodes fs0 !! name = None.
Proof.
  intros Hread.
  destruct (ReadFile_cases fs0 name)
    as [(hd & H & _)|[(_ & Hnone & _)|(e & H & He)]];
    [congruence | exact Hnone |].
  rewrite H in Hread. injection Hread as ->. discriminate He.
Qed.

Lemma Open_regular_lookup (fs0 : FileSystem) (name : string) (data : list byte) :
  os.Open fs0 name = Ok (Regular data) ->
  nodes fs0 !! name = Some (Regular data).
Proof.
  unfold os.Open. destruct (decide _); [discriminate|].
  destruct (nodes fs0 !! name); [congruence | discriminate].
Qed.

(** X4. The verifier always returns.  It makes no request and prints no
    report; it never touches the artifact file or any other path than the
    sidecar, and it leaves alone a sidecar path at which anything stands. *)
Theorem checkHash_touches_only_the_sidecar (dir : string) (file : File)
    (w : World) :
  exists (r : bool) (w' : World),
    checkHash dir file w = Done (r, w')
    /\ requests w' = requests w
    /\ reports (out w') = reports (out w)
    /\ same_faults (fs w) (fs w')
    /\ (forall p, p <> dlSHA (dlTarget dir file) ->
                  nodes (fs w') !! p = nodes (fs w) !! p)
    /\ (forall n, nodes (fs w) !! dlSHA (dlTarget dir file) = Some n ->
                  fs w' = fs w).
Proof.
  destruct (checkHash_effect dir file w) as (r & w' & Hrun & Hreq & Heff).
  exists r, w'. split; [exact Hrun|]. split; [exact Hreq|].
  split; [exact (checkHash_reports _ _ _ _ _ Hrun)|].
  destruct Heff as [Hfs|(data & err & Habsent & _ & _ & _ & Hwrite)].
  - rewrite Hfs. split; [apply same_faults_refl|]. split; auto.
  - destruct (WriteFile_agree_outside _ _ _ _ _ Hwrite) as (Hfaults & Hother).
    split; [exact Hfaults|]. split.
    + intros p Hp. symmetry. apply Hother. intros [Heq|[]]. congruence.
    + intros n Hn. apply ReadFile_absent_lookup in Habsent. congruence.
Qed.

(** X5. Where a write to the sidecar does not break off once the file is
    open, verifying again gives the same verdict and writes nothing, in
    any world that has the filesystem the first verification left: a
    sidecar that could be written is read back, one that could not be
    created is tried again in vain. *)
Theorem checkHash_again (dir : string) (file : File) (w w1 : World) (r : bool) :
  writeBreaks (fs w) !! dlSHA (dlTarget dir file) = None ->
  checkHash dir file w = Done (r, w1) ->
  forall w2, fs w2 = fs w1 ->
    exists w3, checkHash dir file w2 = Done (r, w3)
               /\ fs w3 = fs w2
               /\ requests w3 = requests w2.
Proof.
  intros Hwhole Hrun w2 Hfs.
  destruct (checkHash_settles _ _ _ _ _ Hwhole Hrun w2 Hfs)
    as (w3 & Hrun3 & Hfs3).
  exists w3. split; [exact Hrun3|]. split; [exact Hfs3|].
  destruct (checkHash_effect dir file w2) as (r' & w' & Hrun' & Hreq & _).
  rewrite Hrun3 in Hrun'. injection Hrun' as _ <-. exact Hreq.
Qed.

(** The first verification hashes the archive and writes the sidecar; the
    second reads it. *)
Lemma checkHash_again_witness :
  exists w3,
    checkHash "go1.21.0" helloFile (start fsMirrored) = Done (true, w3)
    /\ fs w3 = fsMirrored
    /\ requests w3 = [].
Proof.
  apply (checkHash_again "go1.21.0" helloFile (start fsNoSidecar)
           (start fsMirrored) true).
  - reflexivity.
  - vm_compute. reflexivity.
  - reflexivity.
Defined.

(** X6. The verdict depends on the filesystem through the artifact file
    and its sidecar only: in a filesystem that agrees on these two paths
    and fails at the same paths, the verdict is the same, and if the
    verifier wrote nothing in the one it writes nothing in the other. *)
Theorem checkHash_looks_at_two_paths (dir : string) (file : File)
    (w w2 : World) (r : bool) (w' : World) :
  agree_at (paths_of dir file) (fs w) (fs w2) ->
  checkHash dir file w = Done (r, w') ->
  exists w2', checkHash dir file w2 = Done (r, w2')
              /\ (fs w' = fs w -> fs w2' = fs w2).
Proof. intros Hag Hrun. exact (checkHash_agree _ _ _ _ _ _ Hag Hrun). Qed.

Lemma checkHash_looks_at_two_paths_witness :
  exists w2',
    checkHash "go1.21.0" helloFile
      (start (set_node fsMirrored "notes.txt" (Some (Regular helloBody))))
    = Done (true, w2')
    /\ (fs (start fsMirrored) = fs (start fsMirrored) ->
        fs w2' = set_node fsMirrored "notes.txt" (Some (Regular helloBody))).
Proof.
  apply (checkHash_looks_at_two_paths "go1.21.0" helloFile (start fsMirrored)
           (start (set_node fsMirrored "notes.txt" (Some (Regular helloBody))))
           true (start fsMirrored)).
  - split; [repeat split|]. intros p [<-|[<-|[]]]; vm_compute; reflexivity.
  - vm_compute. reflexivity.
Defined.

(** X7. What a verdict "satisfied" means for an artifact with a hash: the
    file is there with the declared size, the expected hash decodes, and
    either the sidecar decodes to the same bytes, or there is no sidecar
    and the SHA-256 of the file is those bytes. *)
Theorem checkHash_true_means (dir : string) (file : File) (w w' : World) :
  SHA256Sum file <> "" ->
  checkHash dir file w = Done (true, w') ->
  exists info expected,
    os.Stat (fs w) (dlTarget dir file) = Ok info
    /\ info_Size info = int64 (Size file)
    /\ Hash_Bytes (SHA256Sum file) = (expected, None)
    /\ ((exists hd,
            ioutil.ReadFile (fs w) (dlSHA (dlTarget dir file)) = Ok hd
            /\ hex.DecodeString (string_of_list_byte hd) = (expected, None))
        \/ (ioutil.ReadFile (fs w) (dlSHA (dlTarget dir file)) = Err ENOENT
            /\ exists data,
                 nodes (fs w) !! dlTarget dir file = Some (Regular data)
                 /\ sha256.Sum data = expected)).
Proof.
  intros Hne Hrun. pose proof (Hash_Equal_nil _ Hne) as Hnil.
  destruct (os.Stat (fs w) (dlTarget dir file)) as [info|e] eqn:Hstat.
  2: { rewrite (checkHash_unstatable _ _ _ _ Hstat) in Hrun. discriminate Hrun. }
  destruct (Z.eq_dec (info_Size info) (int64 (Size file))) as [Hsize|Hsize].
  2: { rewrite (checkHash_wrong_size _ _ _ _ Hstat Hsize) in Hrun.
       discriminate Hrun. }
  assert (forall b, Hash_Equal (SHA256Sum file) b = Done true ->
                    Hash_Bytes (SHA256Sum file) = (b, None)) as Hdecodes.
  { intros b Hb.
    destruct (Hash_Equal_spec (SHA256Sum file) b) as (m & Hm & _ & _ & Hiff).
    apply Hiff. congruence. }
  destruct (ReadFile_cases (fs w) (dlSHA (dlTarget dir file)))
    as [(hd & Hread & _)|[(Hread & _)|(e & Hread & He)]].
  - destruct (hex.DecodeString (string_of_list_byte hd)) as [hb [e|]] eqn:Hdec.
    + rewrite (checkHash_sidecar_malformed _ _ _ _ _ _ _
                 Hstat Hsize Hread Hdec) in Hrun. discriminate Hrun.
    + destruct (Hash_Equal_returns (SHA256Sum file) hb) as [m Hm].
      rewrite (checkHash_sidecar_decoded _ _ _ _ _ _ _
                 Hstat Hsize Hread Hdec Hm) in Hrun.
      injection Hrun as -> _.
      exists info, hb. split; [reflexivity|]. split; [exact Hsize|].
      split; [exact (Hdecodes hb Hm)|]. left. exists hd. auto.
  - destruct (os.Open (fs w) (dlTarget dir file)) as [[size|data]|e] eqn:Hopen.
    + rewrite (checkHash_absent_unhashed _ _ _ _ _ _ _
                 Hstat Hsize Hread Hopen eq_refl Hnil) in Hrun.
      discriminate Hrun.
    + destruct (Hash_Equal_returns (SHA256Sum file) (sha256.Sum data)) as [m Hm].
      rewrite (checkHash_absent_hashed _ _ _ _ _ _ _
                 Hstat Hsize Hread Hopen eq_refl Hm) in Hrun.
      injection Hrun as -> _.
      exists info, (sha256.Sum data). split; [reflexivity|].
      split; [exact Hsize|]. split; [exact (Hdecodes _ Hm)|]. right.
      split; [exact Hread|]. exists data.
      split; [exact (Open_regular_lookup _ _ _ Hopen) | reflexivity].
    + rewrite (checkHash_absent_unopened _ _ _ _ _ _
                 Hstat Hsize Hread Hopen Hnil) in Hrun.
      discriminate Hrun.
  - rewrite (checkHash_sidecar_unreadable _ _ _ _ _ Hstat Hsize Hread He)
      in Hrun. discriminate Hrun.
Qed.

Lemma checkHash_true_means_witness :
  exists info expected,
    os.Stat fsNoSidecar helloTarget = Ok info
    /\ info_Size info = 5%Z
    /\ Hash_Bytes helloSum = (expected, None)
    /\ ((exists hd,
            ioutil.ReadFile fsNoSidecar helloSidecar = Ok hd
            /\ hex.DecodeString (string_of_list_byte hd) = (expected, None))
        \/ (ioutil.ReadFile fsNoSidecar helloSidecar = Err ENOENT
            /\ exists data,
                 nodes fsNoSidecar !! helloTarget = Some (Regular data)
                 /\ sha256.Sum data = expected)).
Proof.
  apply (checkHash_true_means "go1.21.0" helloFile (start fsNoSidecar)
           (start fsMirrored)).
  - discriminate.
  - vm_compute. reflexivity.
Defined.

(** X8. With a sidecar that can be read the file itself is not read: the
    verdict is the same for any other content of the same length. *)
Theorem checkHash_trusts_the_sidecar (dir : string) (file : File)
    (w w1 : World) (r : bool) (hd data data' : list byte) :
  ioutil.ReadFile (fs w) (dlSHA (dlTarget dir file)) = Ok hd ->
  nodes (fs w) !! dlTarget dir file = Some (Regular data) ->
  length data' = length data ->
  checkHash dir file w = Done (r, w1) ->
  exists w2,
    checkHash dir file
      (with_fs w (set_node (fs w) (dlTarget dir file) (Some (Regular data'))))
    = Done (r, w2).
Proof.
  intros Hread Hnode Hlen Hrun.
  set (fs2 := set_node (fs w) (dlTarget dir file) (Some (Regular data'))).
  assert (ioutil.ReadFile fs2 (dlSHA (dlTarget dir file)) = Ok hd) as Hread2.
  { rewrite <- Hread. symmetry. apply ReadFile_agree.
    split; [repeat split|]. intros p [<-|[]]. unfold fs2, set_node. cbn.
    rewrite lookup_partial_alter_ne; [reflexivity|].
    intros Heq. exact (dlSHA_neq _ (eq_sym Heq)). }
  destruct (decide (dlTarget dir file ∈ statFails (fs w))) as [Hfail|Hfail].
  - assert (os.Stat (fs w) (dlTarget dir file) = Err EACCES) as Hstat
      by (unfold os.Stat; destruct (decide _); [reflexivity | contradiction]).
    assert (os.Stat fs2 (dlTarget dir file) = Err EACCES) as Hstat2
      by (unfold os.Stat; cbn; destruct (decide _);
          [reflexivity | contradiction]).
    rewrite (checkHash_unstatable _ _ _ _ Hstat) in Hrun.
    injection Hrun as <- _. eexists.
    apply (checkHash_unstatable dir file (with_fs w fs2) EACCES). exact Hstat2.
  - assert (os.Stat (fs w) (dlTarget dir file)
            = Ok (mkInfo (Z.of_nat (length data)) false)) as Hstat
      by (unfold os.Stat; destruct (decide _); [contradiction|];
          rewrite Hnode; reflexivity).
    assert (os.Stat fs2 (dlTarget dir file)
            = Ok (mkInfo (Z.of_nat (length data)) false)) as Hstat2.
    { unfold os.Stat, fs2, set_node. cbn.
      destruct (decide _); [contradiction|].
      rewrite lookup_partial_alter_eq. cbn. rewrite Hlen. reflexivity. }
    destruct (Z.eq_dec (Z.of_nat (length data)) (int64 (Size file)))
      as [Hsize|Hsize].
    2: { rewrite (checkHash_wrong_size _ _ _ _ Hstat Hsize) in Hrun.
         injection Hrun as <- _. eexists.
         exact (checkHash_wrong_size dir file (with_fs w fs2) _ Hstat2 Hsize). }
    destruct (hex.DecodeString (string_of_list_byte hd)) as [hb [e|]] eqn:Hdec.
    + rewrite (checkHash_sidecar_malformed _ _ _ _ _ _ _
                 Hstat Hsize Hread Hdec) in Hrun.
      injection Hrun as <- _. eexists.
      exact (checkHash_sidecar_malformed dir file (with_fs w fs2) _ _ _ _
               Hstat2 Hsize Hread2 Hdec).
    + destruct (Hash_Equal_returns (SHA256Sum file) hb) as [m Hm].
      rewrite (checkHash_sidecar_decoded _ _ _ _ _ _ _
                 Hstat Hsize Hread Hdec Hm) in Hrun.
      injection Hrun as <- _. eexists.
      exact (checkHash_sidecar_decoded dir file (with_fs w fs2) _ _ _ _
               Hstat2 Hsize Hread2 Hdec Hm).
Qed.

(** The archive is replaced by five other bytes; the sidecar still vouches
    for it. *)
Lemma checkHash_trusts_the_sidecar_witness :
  exists w2,
    checkHash "go1.21.0" helloFile
      (with_fs (start fsMirrored)
         (set_node fsMirrored (dlTarget "go1.21.0" helloFile)
            (Some (Regular (list_byte_of_string "jello")))))
    = Done (true, w2).
Proof.
  apply (checkHash_trusts_the_sidecar "go1.21.0" helloFile (start fsMirrored)
           (start fsMirrored) true (list_byte_of_string helloSum) helloBody
           (list_byte_of_string "jello")).
  - vm_compute. reflexivity.
  - vm_compute. reflexivity.
  - reflexivity.
  - vm_compute. reflexivity.
Defined.

(** X9. Round trip of the sidecar: whenever verification changes the
    filesystem, it has hashed a regular file, which is itself unchanged,
    and the sidecar can be read back and holds a beginning of the
    hexadecimal text of the SHA-256 of that file; where the write does
    not break off it holds all of it, and decodes, without error, to
    exactly that SHA-256. *)
Theorem checkHash_sidecar_round_trip (dir : string) (file : File)
    (w w' : World) (r : bool) :
  checkHash dir file w = Done (r, w') ->
  fs w' <> fs w ->
  exists data hd,
    nodes (fs w) !! dlTarget dir file = Some (Regular data)
    /\ nodes (fs w') !! dlTarget dir file = Some (Regular data)
    /\ ioutil.ReadFile (fs w') (dlSHA (dlTarget dir file)) = Ok hd
    /\ (exists n,
           hd = firstn n (list_byte_of_string
                            (hex.EncodeToString (sha256.Sum data))))
    /\ (writeBreaks (fs w) !! dlSHA (dlTarget dir file) = None ->
        hex.DecodeString (string_of_list_byte hd) = (sha256.Sum data, None)).
Proof.
  intros Hrun Hchanged.
  destruct (checkHash_effect dir file w)
    as (r' & w'' & Hrun' & _
        & [Hfs|(data & err & Habsent & _ & Hopen & _ & Hwrite)]);
    rewrite Hrun in Hrun'; injection Hrun' as <- <-; [contradiction|].
  destruct (WriteFile_changes _ _ _ _ _ Hwrite)
    as [(Hsame & _)|(n & Hfs & _ & _ & Hres)]; [contradiction|].
  exists data, (firstn n (list_byte_of_string
                            (hex.EncodeToString (sha256.Sum data)))).
  pose proof (Open_regular_lookup _ _ _ Hopen) as Hnode.
  destruct (ReadFile_cases (fs w) (dlSHA (dlTarget dir file)))
    as [(hd & H & _)|[(_ & _ & Hcan)|(e & H & He)]];
    [congruence| |rewrite H in Habsent; injection Habsent as ->;
                   discriminate He].
  split; [exact Hnode|]. split; [|split; [|split]].
  - rewrite Hfs. cbn [nodes with_nodes].
    rewrite lookup_insert_ne; [exact Hnode|]. apply dlSHA_neq.
  - unfold ioutil.ReadFile, os.Open. rewrite Hfs. cbn [nodes with_nodes openFails].
    destruct (decide _); [contradiction|].
    rewrite lookup_insert_eq. reflexivity.
  - exists n. reflexivity.
  - intros Hwhole. destruct err as [e|]; [congruence|].
    destruct Hres as (-> & _).
    rewrite string_of_list_byte_of_string. apply DecodeString_EncodeToString.
Qed.

Lemma checkHash_sidecar_round_trip_witness :
  exists data hd,
    nodes fsNoSidecar !! dlTarget "go1.21.0" helloFile = Some (Regular data)
    /\ nodes fsMirrored !! dlTarget "go1.21.0" helloFile = Some (Regular data)
    /\ ioutil.ReadFile fsMirrored (dlSHA (dlTarget "go1.21.0" helloFile))
       = Ok hd
    /\ (exists n,
           hd = firstn n (list_byte_of_string
                            (hex.EncodeToString (sha256.Sum data))))
    /\ (writeBreaks fsNoSidecar !! dlSHA (dlTarget "go1.21.0" helloFile)
        = None ->
        hex.DecodeString (string_of_list_byte hd) = (sha256.Sum data, None)).
Proof.
  apply (checkHash_sidecar_round_trip "go1.21.0" helloFile
           (start fsNoSidecar) (start fsMirrored) true).
  - vm_compute. reflexivity.
  - intros Heq.
    apply (f_equal (fun x => nodes x !! helloSidecar)) in Heq.
    vm_compute in Heq. discriminate Heq.
Defined.

(** X10. Tamper detection: a sidecar that can be read and decodes, but
    not to the bytes of the expected hash (or the expected hash does not
    decode at all), gives "not satisfied" with both values printed, and
    nothing is written. *)
Theorem checkHash_sidecar_mismatch (dir : string) (file : File) (w : World)
    (info : FileInfo) (hd hb : list byte) :
  os.Stat (fs w) (dlTarget dir file) = Ok info ->
  info_Size info = int64 (Size file) ->
  ioutil.ReadFile (fs w) (dlSHA (dlTarget dir file)) = Ok hd ->
  hex.DecodeString (string_of_list_byte hd) = (hb, None) ->
  Hash_Bytes (SHA256Sum file) <> (hb, None) ->
  checkHash dir file w
  = Done (false,
          logged w errOut
            (ShaDoesNotMatch (dlTarget dir file) (SHA256Sum file) hd)).
Proof.
  intros Hstat Hsize Hread Hdec Hne.
  destruct (Hash_Equal_spec (SHA256Sum file) hb) as (m & Hm & _ & _ & Hiff).
  destruct m.
  - exfalso. apply Hne. apply Hiff. reflexivity.
  - exact (checkHash_sidecar_decoded _ _ _ _ _ _ _ Hstat Hsize Hread Hdec Hm).
Qed.

Lemma checkHash_sidecar_mismatch_witness :
  checkHash "go1.21.0" helloFile
    (start (set_node fsMirrored helloSidecar
              (Some (Regular (list_byte_of_string "00ff")))))
  = Done (false,
          logged (start (set_node fsMirrored helloSidecar
                           (Some (Regular (list_byte_of_string "00ff")))))
                 errOut
                 (ShaDoesNotMatch (dlTarget "go1.21.0" helloFile)
                    (SHA256Sum helloFile) (list_byte_of_string "00ff"))).
Proof.
  apply (checkHash_sidecar_mismatch "go1.21.0" helloFile
           (start (set_node fsMirrored helloSidecar
                     (Some (Regular (list_byte_of_string "00ff")))))
           (mkInfo 5 false) (list_byte_of_string "00ff")
           [x00; xff]).
  - vm_compute. reflexivity.
  - vm_compute. reflexivity.
  - vm_compute. reflexivity.
  - vm_compute. reflexivity.
  - vm_compute. discriminate.
Defined.

Lemma Hash_Equal_malformed (h : Hash) (b : list byte) :
  snd (Hash_Bytes h) <> None -> Hash_Equal h b = Done false.
Proof.
  intros Hbad. destruct (Hash_Equal_spec h b) as (r & Hr & Herr & _).
  rewrite (Herr Hbad) in Hr. exact Hr.
Qed.

Lemma checkHash_malformed_expected (dir : string) (file : File) (w : World) :
  snd (Hash_Bytes (SHA256Sum file)) <> None ->
  exists w', checkHash dir file w = Done (false, w')
             /\ requests w' = requests w.
Proof.
  intros Hbad.
  assert (forall b, Hash_Equal (SHA256Sum file) b = Done false) as Hnever
    by (intros b; apply Hash_Equal_malformed; exact Hbad).
  destruct (checkHash_effect dir file w) as (r & w' & Hrun & Hreq & _).
  exists w'. split; [|exact Hreq].
  destruct r; [exfalso|exact Hrun]. revert Hrun.
  unfold checkHash, computeHash, writeHash. run_go.
  split_branches_using ltac:(rewrite Hnever); discriminate.
Qed.

(** X11. An artifact whose expected hash is not well-formed hexadecimal is
    never satisfied, whatever is on disk: if it is not skipped, every turn
    of the loop fetches it again. *)
Theorem main_download_malformed_hash_always_fetches
    (c : Collector) (releaseName : string) (download : File) (w : World) :
  skipFile download = false ->
  snd (Hash_Bytes (SHA256Sum download)) <> None ->
  (exists w1, checkHash releaseName download w = Done (false, w1))
  /\ exists w',
       main_download c releaseName download w = Done (tt, w')
       /\ requests w' = requests w ++ [fileDownloadFmt (Filename download)].
Proof.
  intros Hskip Hbad.
  destruct (checkHash_malformed_expected releaseName download w Hbad)
    as (w1 & Hcheck & Hreq1).
  split; [eauto|].
  destruct (main_download_turn c releaseName download w) as (w' & Hrun & Hturn).
  exists w'. split; [exact Hrun|].
  destruct Hturn as [Hs _|w2 _ Hcheck2 _|w2 _ Hcheck2 Hdl]; [congruence..|].
  rewrite Hcheck in Hcheck2. injection Hcheck2 as <-.
  destruct (downloadFile_cases c releaseName download
              (logged w1 statusOut
                 (Downloading releaseName (Filename download)
                    (SHA256Sum download))))
    as (w'' & Hdl' & Hreq & _).
  rewrite Hdl in Hdl'. injection Hdl' as <-.
  rewrite Hreq. cbn [requests logged]. rewrite Hreq1. reflexivity.
Qed.

(** The archive and a sidecar are in place, but the catalog's hash is
    "zz". *)
Lemma main_download_malformed_hash_witness :
  (exists w1, checkHash "go1.21.0" garbledFile (start fsMirrored)
              = Done (false, w1))
  /\ exists w',
       main_download (serving helloBody) "go1.21.0" garbledFile
         (start fsMirrored) = Done (tt, w')
       /\ requests w'
          = [] ++ [fileDownloadFmt (Filename garbledFile)].
Proof.
  apply (main_download_malformed_hash_always_fetches
           (serving helloBody) "go1.21.0" garbledFile (start fsMirrored)).
  - reflexivity.
  - vm_compute. discriminate.
Defined.

(** X12. An artifact without a hash whose file cannot be opened: with the
    sidecar absent the later revision compares the empty hash with the
    [nil] that [computeHash] returns and answers "satisfied", where the
    earlier revision answered "not satisfied"; both print that the file
    could not be read and write nothing.  ([skipFile] keeps such an
    artifact away from the verifier in [main].) *)
Theorem checkHash_unopened_without_hash (dir : string) (file : File)
    (w : World) (info : FileInfo) (e : errno) :
  SHA256Sum file = "" ->
  os.Stat (fs w) (dlTarget dir file) = Ok info ->
  info_Size info = int64 (Size file) ->
  ioutil.ReadFile (fs w) (dlSHA (dlTarget dir file)) = Err ENOENT ->
  os.Open (fs w) (dlTarget dir file) = Err e ->
  checkHash dir file w
  = Done (true, logged w errOut (CouldNotRead (dlTarget dir file) e))
  /\ Earlier.checkHash dir file w
     = Done (false, logged w errOut (CouldNotRead (dlTarget dir file) e))
  /\ skipFile file = true.
Proof.
  intros Hempty Hstat Hsize Hread Hopen. split; [|split].
  - apply (checkHash_absent_unopened dir file w info e true);
      try assumption.
    rewrite Hempty. reflexivity.
  - unfold Earlier.checkHash. run_go.
    rewrite Hstat, Hsize, Z.eqb_refl. cbn [negb].
    rewrite Hread. cbn [os.IsNotExist]. rewrite Hopen. reflexivity.
  - unfold skipFile. rewrite Hempty. destruct (_ =? _)%N; reflexivity.
Qed.

Lemma checkHash_unopened_without_hash_witness :
  checkHash "go1.21.0" hashlessFile (start fsLocked)
  = Done (true,
          logged (start fsLocked) errOut
            (CouldNotRead (dlTarget "go1.21.0" hashlessFile) EACCES))
  /\ Earlier.checkHash "go1.21.0" hashlessFile (start fsLocked)
     = Done (false,
             logged (start fsLocked) errOut
               (CouldNotRead (dlTarget "go1.21.0" hashlessFile) EACCES))
  /\ skipFile hashlessFile = true.
Proof.
  apply (checkHash_unopened_without_hash "go1.21.0" hashlessFile
           (start fsLocked) (mkInfo 5 false) EACCES).
  - reflexivity.
  - vm_compute. reflexivity.
  - vm_compute. reflexivity.
  - vm_compute. reflexivity.
  - vm_compute. reflexivity.
Defined.

(** ** The Hash type *)

(** X13. [Hash.Equal] with the empty (or [nil]) slice is true for the
    empty hash text and for no other text. *)
Theorem Hash_Equal_empty_slice (h : Hash) :
  exists r, Hash_Equal h [] = Done r /\ (r = true <-> h = "").
Proof.
  destruct h as [|ch h].
  - exists true. split; [reflexivity|]. split; reflexivity.
  - exists false. split; [apply Hash_Equal_nil; discriminate|].
    split; discriminate.
Qed.

(** X14. Round trip through the Hash type: the hash text that
    [hex.EncodeToString] makes of a digest decodes back to the digest
    without error, and [Hash.Equal] accepts that digest and no other
    bytes. *)
Theorem Hash_of_encoded_digest (digest other : list byte) :
  Hash_Bytes (hex.EncodeToString digest) = (digest, None)
  /\ exists r, Hash_Equal (hex.EncodeToString digest) other = Done r
               /\ (r = true <-> other = digest).
Proof.
  pose proof (DecodeString_EncodeToString digest) as Hdec.
  split; [exact Hdec|].
  destruct (Hash_Equal_spec (hex.EncodeToString digest) other)
    as (r & Hr & _ & _ & Hiff).
  exists r. split; [exact Hr|]. rewrite Hiff, Hdec. split.
  - intros Heq. injection Heq as ->. reflexivity.
  - intros ->. reflexivity.
Qed.

(** ** computeHash and writeHash *)

Lemma sha256_compress_length (h block : list N) :
  length h = 8 -> length (sha256.compress h block) = 8.
Proof.
  intros Hlen. unfold sha256.compress.
  rewrite length_map, length_combine, Hlen. reflexivity.
Qed.

Lemma sha256_blocks_length (fuel : nat) :
  forall h ws, length h = 8 -> length (sha256.blocks fuel h ws) = 8.
Proof.
  induction fuel as [|fuel IH]; intros h ws Hlen; cbn [sha256.blocks].
  - destruct ws; exact Hlen.
  - destruct ws as [|x ws]; [exact Hlen|].
    apply IH. apply sha256_compress_length. exact Hlen.
Qed.

Lemma sha256_Sum_length (msg : list byte) : length (sha256.Sum msg) = 32.
Proof.
  unfold sha256.Sum.
  pose proof (sha256_blocks_length
                (length (sha256.words_of_bytes (sha256.pad msg))) sha256.H0
                (sha256.words_of_bytes (sha256.pad msg)) eq_refl) as Hlen.
  destruct (sha256.blocks _ _ _)
    as [|a [|b [|c [|d [|e [|f [|g [|h [|i l]]]]]]]]];
    try discriminate Hlen. reflexivity.
Qed.

(** X15. [computeHash] always returns and makes no request.  For a regular
    file that can be opened the result is the SHA-256 of its whole
    content, 32 bytes, and only the sidecar path may have changed; in
    every other case the result is the empty slice and nothing is written.
    So the result is empty exactly when the file could not be hashed. *)
Theorem computeHash_result (target : string) (w : World) :
  exists (hashBytes : list byte) (w' : World),
    computeHash target w = Done (hashBytes, w')
    /\ requests w' = requests w
    /\ agree_outside [dlSHA target] (fs w) (fs w')
    /\ ((exists data,
            os.Open (fs w) target = Ok (Regular data)
            /\ hashBytes = sha256.Sum data
            /\ length hashBytes = 32)
        \/ ((forall data, os.Open (fs w) target <> Ok (Regular data))
            /\ hashBytes = []
            /\ fs w' = fs w)).
Proof.
  unfold computeHash, writeHash. run_go.
  destruct (os.Open (fs w) target) as [[size|data]|e] eqn:Hopen;
    cbn [hashReader].
  - eexists _, _. split; [reflexivity|]. split; [reflexivity|].
    split; [apply agree_outside_refl|]. right.
    split; [discriminate|]. split; reflexivity.
  - destruct (ioutil.WriteFile _ _ _) as [[e|] fs'] eqn:Hwrite;
      (eexists _, _; split; [reflexivity|]; split; [reflexivity|];
       split; [exact (WriteFile_agree_outside _ _ _ _ _ Hwrite)|]; left;
       exists data; split; [reflexivity|]; split; [reflexivity|];
       apply sha256_Sum_length).
  - eexists _, _. split; [reflexivity|]. split; [reflexivity|].
    split; [apply agree_outside_refl|]. right.
    split; [discriminate|]. split; reflexivity.
Qed.

(** X16. Round trip of [writeHash].  It changes no other path.  When it
    returns no error, reading the file back (if it can be opened) gives
    the text that was written.  When it returns an error, the error is
    printed, and the file is as before, if it could not be opened for
    writing, or holds a beginning of the text, if the write broke off. *)
Theorem writeHash_then_read (hashFile hash : string) (w : World) :
  exists (r : option errno) (w' : World),
    writeHash hashFile hash w = Done (r, w')
    /\ requests w' = requests w
    /\ agree_outside [hashFile] (fs w) (fs w')
    /\ match r with
       | None =>
           (hashFile ∉ openFails (fs w)) ->
           exists hd, ioutil.ReadFile (fs w') hashFile = Ok hd
                      /\ string_of_list_byte hd = hash
       | Some e =>
           In (errOut, CouldNotWriteHash hashFile e) (out w')
           /\ (fs w' = fs w
               \/ exists n,
                    writeBreaks (fs w) !! hashFile = Some n
                    /\ nodes (fs w') !! hashFile
                       = Some (Regular
                                 (firstn n (list_byte_of_string hash))))
       end.
Proof.
  unfold writeHash. run_go.
  destruct (ioutil.WriteFile (fs w) hashFile (list_byte_of_string hash))
    as [[e|] fs'] eqn:Hwrite.
  - eexists (Some e), _. split; [reflexivity|]. split; [reflexivity|].
    cbn [fs out with_fs logged].
    split; [exact (WriteFile_agree_outside _ _ _ _ _ Hwrite)|].
    split; [apply in_or_app; right; left; reflexivity|].
    destruct (WriteFile_broken _ _ _ _ _ Hwrite) as [->|(n & Hn & Hnode & _)];
      [left; reflexivity|right; eauto].
  - eexists None, _. split; [reflexivity|]. split; [reflexivity|].
    cbn [fs with_fs].
    split; [exact (WriteFile_agree_outside _ _ _ _ _ Hwrite)|].
    intros Hopen. exists (list_byte_of_string hash).
    split; [|apply string_of_list_byte_of_string].
    destruct (WriteFile_lookup _ _ _ _ Hwrite) as (Hnode & _ & _ & Ho & _).
    unfold ioutil.ReadFile, os.Open. rewrite Ho.
    destruct (decide _); [contradiction|].
    rewrite Hnode. reflexivity.
Qed.

(** ** downloadFile *)

(** X17. A fetch always returns and makes exactly one request, for the
    download URL of the artifact.  It changes nothing but the artifact
    file and its sidecar, and nothing at all when no response is delivered
    or the status is not 200. *)
Theorem downloadFile_one_request_two_paths
    (c : Collector) (releaseName : string) (download : File) (w : World) :
  exists w',
    downloadFile c releaseName download w = Done (tt, w')
    /\ requests w' = requests w ++ [fileDownloadFmt (Filename download)]
    /\ agree_outside (paths_of releaseName download) (fs w) (fs w')
    /\ ((forall dr, delivered (fetched c w download) = Some dr ->
                    StatusCode dr <> StatusOK) ->
        fs w' = fs w).
Proof.
  assert (forall fs1 fs2 data hash e1 e2,
             ioutil.WriteFile (fs w) (dlTarget releaseName download) data
             = (e1, fs1) ->
             ioutil.WriteFile fs1 (dlSHA (dlTarget releaseName download)) hash
             = (e2, fs2) ->
             agree_outside (paths_of releaseName download) (fs w) fs2)
    as Hboth.
  { intros fs1 fs2 data hash e1 e2 Hsave Hhash.
    eapply agree_outside_trans.
    - eapply agree_outside_weaken;
        [|exact (WriteFile_agree_outside _ _ _ _ _ Hsave)].
      intros p [<-|[]]. left. reflexivity.
    - eapply agree_outside_weaken;
        [|exact (WriteFile_agree_outside _ _ _ _ _ Hhash)].
      intros p [<-|[]]. right. left. reflexivity. }
  destruct (downloadFile_cases c releaseName download w)
    as (w' & Hrun & Hreq &
        [(Hfs & _)
        |[(dr & e & fs1 & Hdel & Hstatus & Hsave & Hfs & _)
         |[(dr & fs1 & e & fs2 & Hdel & Hstatus & Hsave & Hhash & Hfs & _)
          |(dr & fs1 & fs2 & Hdel & Hstatus & Hsave & Hhash & Hfs & _)]]]);
    exists w'; (split; [exact Hrun|]); (split; [exact Hreq|]); rewrite Hfs.
  - split; [apply agree_outside_refl | reflexivity].
  - split.
    + eapply agree_outside_weaken;
        [|exact (WriteFile_agree_outside _ _ _ _ _ Hsave)].
      intros p [<-|[]]. left. reflexivity.
    + intros Hnot. exfalso. exact (Hnot dr Hdel Hstatus).
  - split; [exact (Hboth _ _ _ _ _ _ Hsave Hhash)|].
    intros Hnot. exfalso. exact (Hnot dr Hdel Hstatus).
  - split; [exact (Hboth _ _ _ _ _ _ Hsave Hhash)|].
    intros Hnot. exfalso. exact (Hnot dr Hdel Hstatus).
Qed.

(** X18. A body that cannot be saved leaves no sidecar behind.  When a
    directory stands at the target path, the target cannot be opened for
    writing, or a write to it breaks off, then, whatever the server
    sends, the fetch reports nothing and leaves the sidecar path as it
    was.  In the first two cases the filesystem is unchanged: a directory
    is never replaced.  In the third the target holds what got through of
    the body. *)
Theorem downloadFile_target_in_the_way
    (c : Collector) (releaseName : string) (download : File) (w : World) :
  (exists size, nodes (fs w) !! dlTarget releaseName download = Some (Dir size))
  \/ dlTarget releaseName download ∈ writeFails (fs w)
  \/ is_Some (writeBreaks (fs w) !! dlTarget releaseName download) ->
  exists w',
    downloadFile c releaseName download w = Done (tt, w')
    /\ reports (out w') = reports (out w)
    /\ nodes (fs w') !! dlSHA (dlTarget releaseName download)
       = nodes (fs w) !! dlSHA (dlTarget releaseName download)
    /\ ((exists size,
            nodes (fs w) !! dlTarget releaseName download = Some (Dir size))
        \/ dlTarget releaseName download ∈ writeFails (fs w) ->
        fs w' = fs w)
    /\ (fs w' = fs w
        \/ exists dr n,
             delivered (fetched c w download) = Some dr
             /\ writeBreaks (fs w) !! dlTarget releaseName download = Some n
             /\ nodes (fs w') !! dlTarget releaseName download
                = Some (Regular (firstn n (Body dr)))).
Proof.
  intros Hway.
  assert (forall data fs1,
             ioutil.WriteFile (fs w) (dlTarget releaseName download) data
             <> (None, fs1)) as Hfails.
  { intros data fs1 Hsave.
    destruct (WriteFile_changes _ _ _ _ _ Hsave)
      as [(_ & Hr & _)|(n & _ & Hnodir & Hnow & _ & Hwhole)];
      [congruence|].
    destruct Hway as [(size & Hdir)|[Hin|(n' & Hn')]];
      [exact (Hnodir size Hdir)|contradiction|congruence]. }
  destruct (downloadFile_cases c releaseName download w)
    as (w' & Hrun & _ &
        [(Hfs & Hrep)
        |[(dr & e & fs1 & Hdel & _ & Hsave & Hfs & Hrep)
         |[(dr & fs1 & e & fs2 & _ & _ & Hsave & _)
          |(dr & fs1 & fs2 & _ & _ & Hsave & _)]]]);
    [| |exfalso; exact (Hfails _ _ Hsave)..].
  - exists w'. rewrite Hfs. auto 10.
  - exists w'. split; [exact Hrun|]. split; [exact Hrep|]. rewrite Hfs.
    destruct (WriteFile_agree_outside _ _ _ _ _ Hsave) as (_ & Hother).
    split; [symmetry; apply Hother; intros [Heq|[]];
            exact (dlSHA_neq _ (eq_sym Heq))|].
    destruct (WriteFile_changes _ _ _ _ _ Hsave)
      as [(-> & _)|(n & Hins & Hnodir & Hnow & Hn)].
    + auto.
    + split.
      * intros [(size & Hdir)|Hin];
          [exfalso; exact (Hnodir size Hdir)|contradiction].
      * right. exists dr, n. split; [exact Hdel|]. split; [exact Hn|].
        rewrite Hins. cbn [nodes with_nodes]. apply lookup_insert_eq.
Qed.

Lemma downloadFile_target_in_the_way_witness :
  exists w',
    downloadFile (serving helloBody) "go1.21.0" helloFile (start fsDirInTheWay)
    = Done (tt, w')
    /\ reports (out w') = []
    /\ nodes (fs w') !! dlSHA (dlTarget "go1.21.0" helloFile) = None
    /\ fs w' = fsDirInTheWay.
Proof.
  destruct (downloadFile_target_in_the_way (serving helloBody) "go1.21.0"
              helloFile (start fsDirInTheWay))
    as (w' & Hrun & Hrep & Hside & Hsame & _).
  - left. exists newDirSize. vm_compute. reflexivity.
  - exists w'. split; [exact Hrun|]. split; [exact Hrep|].
    split; [exact Hside|]. apply Hsame.
    left. exists newDirSize. vm_compute. reflexivity.
Defined.

(** X19. A failure to write the sidecar does not undo the download: the
    saved body stays at the target path; the sidecar is as it was or, if
    its write broke off, holds a beginning of the hash text; the failure
    is printed and no "saved hash" is reported. *)
Theorem downloadFile_sidecar_not_written
    (c : Collector) (releaseName : string) (download : File) (w : World)
    (dr : Response) (fs1 fs2 : FileSystem) (e : errno) :
  delivered (fetched c w download) = Some dr ->
  StatusCode dr = StatusOK ->
  ioutil.WriteFile (fs w) (dlTarget releaseName download) (Body dr)
  = (None, fs1) ->
  ioutil.WriteFile fs1 (dlSHA (dlTarget releaseName download))
    (list_byte_of_string (SHA256Sum download))
  = (Some e, fs2) ->
  exists w',
    downloadFile c releaseName download w = Done (tt, w')
    /\ fs w' = fs2
    /\ nodes (fs w') !! dlTarget releaseName download
       = Some (Regular (Body dr))
    /\ (nodes (fs w') !! dlSHA (dlTarget releaseName download)
        = nodes (fs w) !! dlSHA (dlTarget releaseName download)
        \/ exists n,
             writeBreaks (fs w) !! dlSHA (dlTarget releaseName download)
             = Some n
             /\ nodes (fs w') !! dlSHA (dlTarget releaseName download)
                = Some (Regular
                          (firstn n
                             (list_byte_of_string (SHA256Sum download)))))
    /\ In (errOut, CouldNotWriteHash (dlSHA (dlTarget releaseName download)) e)
          (out w')
    /\ reports (out w') = reports (out w).
Proof.
  intros Hdel Hstatus Hsave Hhash.
  destruct (WriteFile_lookup _ _ _ _ Hsave)
    as (Ht & Hother & _ & _ & _ & Hbreaks).
  eexists. split.
  - rewrite (downloadFile_saved _ _ _ _ _ _ Hdel Hstatus Hsave), Hhash.
    reflexivity.
  - match goal with
    | |- context [visit_reported c download w ?x] =>
        destruct (visit_reported_same c download w x) as (Hfs & _ & Hrep);
        set (wx := x) in *
    end.
    rewrite Hfs, Hrep. subst wx. cbn [fs logged with_fs].
    split; [reflexivity|]. split; [|split; [|split]].
    + destruct (WriteFile_agree_outside _ _ _ _ _ Hhash) as (_ & Hrest).
      rewrite <- Hrest; [exact Ht|].
      intros [Heq|[]]. exact (dlSHA_neq _ Heq).
    + destruct (WriteFile_broken _ _ _ _ _ Hhash)
        as [->|(n & Hn & Hnode & _)].
      * left. apply Hother. apply dlSHA_neq.
      * right. exists n. rewrite <- Hbreaks. auto.
    + unfold visit_reported. destruct (visitErr _); cbn [out logged];
        rewrite ?in_app_iff; cbn [In]; auto 10.
    + rewrite !reports_logged. cbn [report_of out with_fs].
      rewrite reports_logged. cbn [report_of]. rewrite !app_nil_r.
      apply asked_same.
Qed.

(** The sidecar cannot be created: the archive is saved all the same. *)
Lemma downloadFile_sidecar_not_written_witness :
  exists w',
    downloadFile (serving helloBody) "go1.21.0" helloFile (start fsReadOnly)
    = Done (tt, w')
    /\ fs w' = fsReadOnly
    /\ nodes (fs w') !! dlTarget "go1.21.0" helloFile
       = Some (Regular helloBody)
    /\ (nodes (fs w') !! dlSHA (dlTarget "go1.21.0" helloFile)
        = nodes fsReadOnly !! dlSHA (dlTarget "go1.21.0" helloFile)
        \/ exists n,
             writeBreaks fsReadOnly !! dlSHA (dlTarget "go1.21.0" helloFile)
             = Some n
             /\ nodes (fs w') !! dlSHA (dlTarget "go1.21.0" helloFile)
                = Some (Regular
                          (firstn n
                             (list_byte_of_string (SHA256Sum helloFile)))))
    /\ In (errOut,
           CouldNotWriteHash (dlSHA (dlTarget "go1.21.0" helloFile)) EACCES)
          (out w')
    /\ reports (out w') = [].
Proof.
  apply (downloadFile_sidecar_not_written (serving helloBody) "go1.21.0"
           helloFile (start fsReadOnly) (mkResponse StatusOK helloBody)
           fsReadOnly fsReadOnly EACCES).
  - vm_compute. reflexivity.
  - reflexivity.
  - vm_compute. reflexivity.
  - vm_compute. reflexivity.
Defined.

Lemma downloadFile_saved_fs
    (c : Collector) (releaseName : string) (download : File) (w : World)
    (dr : Response) (fs1 : FileSystem) :
  delivered (fetched c w download) = Some dr ->
  StatusCode dr = StatusOK ->
  ioutil.WriteFile (fs w) (dlTarget releaseName download) (Body dr)
  = (None, fs1) ->
  exists w' r,
    downloadFile c releaseName download w = Done (tt, w')
    /\ same_faults (fs w) (fs w')
    /\ nodes (fs w') !! dlTarget releaseName download
       = Some (Regular (Body dr))
    /\ ioutil.WriteFile fs1 (dlSHA (dlTarget releaseName download))
         (list_byte_of_string (SHA256Sum download))
       = (r, fs w').
Proof.
  intros Hdel Hstatus Hsave.
  destruct (WriteFile_lookup _ _ _ _ Hsave) as (Ht & _).
  destruct (WriteFile_agree_outside _ _ _ _ _ Hsave) as (Hf1 & _).
  destruct (ioutil.WriteFile fs1 (dlSHA (dlTarget releaseName download))
              (list_byte_of_string (SHA256Sum download)))
    as [r fs2] eqn:Hhash.
  destruct (WriteFile_agree_outside _ _ _ _ _ Hhash) as (Hf2 & Hrest).
  eexists _, r. split.
  - exact (downloadFile_saved _ _ _ _ _ _ Hdel Hstatus Hsave).
  - match goal with
    | |- context [visit_reported c download w ?x] =>
        destruct (visit_reported_same c download w x) as (Hfs & _ & _);
        set (wx := x) in *
    end.
    rewrite Hfs. subst wx. rewrite Hhash.
    assert (forall x : World, fs x = fs2 ->
              same_faults (fs w) (fs x)
              /\ nodes (fs x) !! dlTarget releaseName download
                 = Some (Regular (Body dr))
              /\ (r, fs2) = (r, fs x)) as Hall.
    { intros x ->. split; [exact (same_faults_trans _ _ _ Hf1 Hf2)|].
      split; [|reflexivity]. rewrite <- Hrest; [exact Ht|].
      intros [Heq|[]]. exact (dlSHA_neq _ Heq). }
    destruct r; apply Hall; reflexivity.
Qed.

(** X20. A fetch that worked leaves the artifact verified: after a 200
    response whose body has the declared size, with both writes done and a
    well-formed catalog hash, the integrity check answers true in any
    later state of that filesystem (when the two paths can be looked at)
    and changes nothing. *)
Theorem downloadFile_then_verified
    (c : Collector) (releaseName : string) (download : File) (w : World)
    (dr : Response) (fs1 fs2 : FileSystem) :
  delivered (fetched c w download) = Some dr ->
  StatusCode dr = StatusOK ->
  ioutil.WriteFile (fs w) (dlTarget releaseName download) (Body dr)
  = (None, fs1) ->
  ioutil.WriteFile fs1 (dlSHA (dlTarget releaseName download))
    (list_byte_of_string (SHA256Sum download))
  = (None, fs2) ->
  Z.of_nat (length (Body dr)) = int64 (Size download) ->
  snd (hex.DecodeString (SHA256Sum download)) = None ->
  dlTarget releaseName download ∉ statFails (fs w) ->
  dlSHA (dlTarget releaseName download) ∉ openFails (fs w) ->
  exists w',
    downloadFile c releaseName download w = Done (tt, w')
    /\ fs w' = fs2
    /\ forall next,
         fs next = fs w' ->
         exists next',
           checkHash releaseName download next = Done (true, next')
           /\ fs next' = fs next
           /\ requests next' = requests next.
Proof.
  intros Hdel Hstatus Hsave Hhash Hsize Hwell Hstat Hopen.
  destruct (downloadFile_saved_fs c releaseName download w dr fs1
              Hdel Hstatus Hsave)
    as (w' & r & Hrun & (Hs & Ho & _) & Ht & Hfs).
  assert (fs w' = fs2) as Hfs2 by congruence.
  exists w'. split; [exact Hrun|]. split; [exact Hfs2|].
  intros next Hnext.
  destruct (WriteFile_lookup _ _ _ _ Hhash) as (Hsc & _).
  assert (satisfied (fs w') releaseName download) as Hsat.
  { apply (satisfied_mirrored (fs w') releaseName download (Body dr)).
    - rewrite <- Hs. exact Hstat.
    - rewrite <- Ho. exact Hopen.
    - exact Ht.
    - exact Hsize.
    - rewrite Hfs2. exact Hsc.
    - exact Hwell. }
  destruct (satisfied_run _ _ _ next Hsat Hnext) as (next' & H1 & H2 & H3 & _).
  exists next'. auto.
Qed.

Lemma downloadFile_then_verified_witness :
  exists w',
    downloadFile (serving helloBody) "go1.21.0" helloFile (start fsFresh)
    = Done (tt, w')
    /\ fs w' = fsMirrored
    /\ forall next,
         fs next = fs w' ->
         exists next',
           checkHash "go1.21.0" helloFile next = Done (true, next')
           /\ fs next' = fs next
           /\ requests next' = requests next.
Proof.
  apply (downloadFile_then_verified (serving helloBody) "go1.21.0" helloFile
           (start fsFresh) (mkResponse StatusOK helloBody)
           fsNoSidecar fsMirrored).
  - vm_compute. reflexivity.
  - reflexivity.
  - vm_compute. reflexivity.
  - vm_compute. reflexivity.
  - vm_compute. reflexivity.
  - vm_compute. reflexivity.
  - vm_compute. set_solver.
  - vm_compute. set_solver.
Defined.

Lemma checkHash_wrong_size_on_disk (dir : string) (file : File) (w : World)
    (data : list byte) :
  nodes (fs w) !! dlTarget dir file = Some (Regular data) ->
  Z.of_nat (length data) <> int64 (Size file) ->
  exists w', checkHash dir file w = Done (false, w') /\ fs w' = fs w.
Proof.
  intros Hnode Hsize.
  destruct (os.Stat (fs w) (dlTarget dir file)) as [info|e] eqn:Hstat.
  - assert (info_Size info = Z.of_nat (length data)) as Hinfo.
    { unfold os.Stat in Hstat. destruct (decide _); [discriminate|].
      rewrite Hnode in Hstat. injection Hstat as <-. reflexivity. }
    eexists. split.
    + apply (checkHash_wrong_size dir file w info Hstat). congruence.
    + reflexivity.
  - exists w. split; [|reflexivity].
    exact (checkHash_unstatable dir file w e Hstat).
Qed.

(** X21. A saved body of the wrong size is never taken for the artifact:
    when a 200 response is saved but its length is not the declared size,
    the body is on disk, and in every later world with that filesystem a
    turn of the loop for the artifact returns and, unless the artifact is
    skipped, requests it again, whatever the sidecar says and whatever
    server is asked. *)
Theorem downloadFile_wrong_size_refetched
    (c : Collector) (releaseName : string) (download : File) (w : World)
    (dr : Response) (fs1 : FileSystem) :
  delivered (fetched c w download) = Some dr ->
  StatusCode dr = StatusOK ->
  ioutil.WriteFile (fs w) (dlTarget releaseName download) (Body dr)
  = (None, fs1) ->
  Z.of_nat (length (Body dr)) <> int64 (Size download) ->
  exists w',
    downloadFile c releaseName download w = Done (tt, w')
    /\ nodes (fs w') !! dlTarget releaseName download
       = Some (Regular (Body dr))
    /\ forall (c2 : Collector) (next : World),
         fs next = fs w' ->
         exists next',
           main_download c2 releaseName download next = Done (tt, next')
           /\ (skipFile download = false ->
               requests next'
               = requests next ++ [fileDownloadFmt (Filename download)]).
Proof.
  intros Hdel Hstatus Hsave Hsize.
  destruct (downloadFile_saved_fs c releaseName download w dr fs1
              Hdel Hstatus Hsave)
    as (w' & r0 & Hrun & _ & Ht & _).
  exists w'. split; [exact Hrun|]. split; [exact Ht|].
  intros c2 next Hnext.
  destruct (main_download_turn c2 releaseName download next)
    as (next' & Hmain & Hturn).
  exists next'. split; [exact Hmain|]. intros Hskip.
  rewrite <- Hnext in Ht.
  destruct (checkHash_wrong_size_on_disk releaseName download next (Body dr)
              Ht Hsize) as (n1 & Hcheck & _).
  destruct Hturn as [Hs _|n2 _ Hc _|n2 _ Hc Hdl]; [congruence|congruence|].
  rewrite Hcheck in Hc. injection Hc as <-.
  destruct (downloadFile_cases c2 releaseName download
              (logged n1 statusOut
                 (Downloading releaseName (Filename download)
                    (SHA256Sum download))))
    as (n3 & Hdl' & Hreq & _).
  rewrite Hdl in Hdl'. injection Hdl' as <-.
  rewrite Hreq. cbn [requests logged].
  destruct (checkHash_effect releaseName download next)
    as (r & n1' & Hc' & Hreq' & _).
  rewrite Hcheck in Hc'. injection Hc' as _ <-. rewrite Hreq'. reflexivity.
Qed.

Lemma downloadFile_wrong_size_refetched_witness :
  exists w',
    downloadFile shortServer "go1.21.0" helloFile (start fsFresh)
    = Done (tt, w')
    /\ nodes (fs w') !! dlTarget "go1.21.0" helloFile
       = Some (Regular (Body (mkResponse StatusOK (firstn 4 helloBody))))
    /\ forall (c2 : Collector) (next : World),
         fs next = fs w' ->
         exists next',
           main_download c2 "go1.21.0" helloFile next = Done (tt, next')
           /\ (skipFile helloFile = false ->
               requests next'
               = requests next ++ [fileDownloadFmt (Filename helloFile)]).
Proof.
  apply (downloadFile_wrong_size_refetched shortServer "go1.21.0" helloFile
           (start fsFresh) (mkResponse StatusOK (firstn 4 helloBody))
           (set_node fsFresh helloTarget
              (Some (Regular (firstn 4 helloBody))))).
  - vm_compute. reflexivity.
  - reflexivity.
  - vm_compute. reflexivity.
  - vm_compute. discriminate.
Defined.

Lemma limitBody_length (max : N) (body : list byte) :
  (N.of_nat (length (limitBody max body)) <= max)%N.
Proof.
  revert max. induction body as [|b body IH]; intros max; cbn [limitBody].
  - cbn. lia.
  - destruct (max =? 0)%N eqn:Hmax.
    + cbn. lia.
    + apply N.eqb_neq in Hmax. cbn [length].
      specialize (IH (N.pred max)). lia.
Qed.

Lemma fetched_body_capped (c : Collector) (w : World) (file : File)
    (dr : Response) :
  delivered (fetched c w file) = Some dr ->
  (N.of_nat (length (Body dr)) <= maxDownloadBody)%N.
Proof.
  unfold fetched, withMaxBodySize. cbn [delivered].
  destruct (delivered (c _ _)) as [r|]; cbn [option_map]; [|discriminate].
  intros Heq. injection Heq as <-. cbn [Body]. apply limitBody_length.
Qed.

Lemma checkHash_size_gate (dir : string) (file : File) (w : World) :
  (forall info, os.Stat (fs w) (dlTarget dir file) = Ok info ->
                info_Size info <> int64 (Size file)) ->
  exists w', checkHash dir file w = Done (false, w')
             /\ fs w' = fs w /\ requests w' = requests w.
Proof.
  intros Hsize.
  destruct (os.Stat (fs w) (dlTarget dir file)) as [info|e] eqn:Hstat.
  - eexists. split.
    + exact (checkHash_wrong_size dir file w info Hstat (Hsize info eq_refl)).
    + split; reflexivity.
  - exists w. split; [|split; reflexivity].
    exact (checkHash_unstatable dir file w e Hstat).
Qed.

(** X22. The body limit makes large artifacts unobtainable: no delivered
    body is longer than 2^29 bytes, so an artifact declared larger than
    that, not yet on disk with its size, is fetched by [main] and still
    fails verification afterwards, whatever the server sends. *)
Theorem main_download_over_the_body_limit
    (c : Collector) (releaseName : string) (download : File) (w : World) :
  uint64_ok (Size download) ->
  (maxDownloadBody < Size download)%N ->
  skipFile download = false ->
  (forall info, os.Stat (fs w) (dlTarget releaseName download) = Ok info ->
                info_Size info <> int64 (Size download)) ->
  exists w',
    main_download c releaseName download w = Done (tt, w')
    /\ requests w' = requests w ++ [fileDownloadFmt (Filename download)]
    /\ (forall dr, delivered (fetched c w download) = Some dr ->
                   (N.of_nat (length (Body dr)) <= maxDownloadBody)%N)
    /\ forall next,
         fs next = fs w' ->
         exists next', checkHash releaseName download next
                       = Done (false, next').
Proof.
  intros Hok Hbig Hskip Habsent.
  destruct (main_download_turn c releaseName download w)
    as (w' & Hmain & Hturn).
  destruct (checkHash_size_gate releaseName download w Habsent)
    as (w1 & Hcheck & Hfs1 & Hreq1).
  exists w'. split; [exact Hmain|].
  destruct Hturn as [Hs _|n2 _ Hc _|n2 _ Hc Hdl]; [congruence|congruence|].
  rewrite Hcheck in Hc. injection Hc as <-.
  set (wd := logged w1 statusOut
               (Downloading releaseName (Filename download)
                  (SHA256Sum download))) in *.
  assert (fs wd = fs w) as Hfsd by exact Hfs1.
  assert (requests wd = requests w) as Hreqd by exact Hreq1.
  assert (fetched c wd download = fetched c w download) as Hfetched.
  { unfold fetched. rewrite Hreqd. reflexivity. }
  destruct (downloadFile_cases c releaseName download wd)
    as (w'' & Hdl' & Hreq & Hcases).
  rewrite Hdl in Hdl'. injection Hdl' as <-.
  split; [rewrite Hreq, Hreqd; reflexivity|].
  split; [intros dr; apply fetched_body_capped|].
  intros next Hnext.
  assert (forall dr n,
             delivered (fetched c wd download) = Some dr ->
             nodes (fs next) !! dlTarget releaseName download
             = Some (Regular (firstn n (Body dr))) ->
             exists next', checkHash releaseName download next
                           = Done (false, next')) as Hpart.
  { intros dr n Hdel Hnode.
    pose proof (fetched_body_capped c wd download dr Hdel) as Hcap.
    pose proof (length_firstn n (Body dr)) as Hle.
    destruct (checkHash_wrong_size_on_disk releaseName download next
                (firstn n (Body dr)) Hnode) as (next' & Hnextcheck & _).
    - apply int64_of_size; [exact Hok|lia|]. lia.
    - exists next'. exact Hnextcheck. }
  assert (fs next = fs w ->
          exists next', checkHash releaseName download next
                        = Done (false, next')) as Hsame.
  { intros Heq.
    destruct (checkHash_size_gate releaseName download next)
      as (next' & Hnextcheck & _).
    - rewrite Heq. exact Habsent.
    - exists next'. exact Hnextcheck. }
  assert (forall dr fs1 fs2 r,
             delivered (fetched c wd download) = Some dr ->
             ioutil.WriteFile (fs wd) (dlTarget releaseName download)
               (Body dr) = (None, fs1) ->
             ioutil.WriteFile fs1 (dlSHA (dlTarget releaseName download))
               (list_byte_of_string (SHA256Sum download)) = (r, fs2) ->
             fs w' = fs2 ->
             exists next', checkHash releaseName download next
                           = Done (false, next')) as Hsaved.
  { intros dr fs1 fs2 r Hdel Hsave Hhash Hfs.
    apply (Hpart dr (length (Body dr)) Hdel). rewrite firstn_all.
    destruct (WriteFile_lookup _ _ _ _ Hsave) as (Ht & _).
    destruct (WriteFile_agree_outside _ _ _ _ _ Hhash) as (_ & Hrest).
    rewrite Hnext, Hfs, <- Hrest; [exact Ht|].
    intros [Heq|[]]. exact (dlSHA_neq _ Heq). }
  destruct Hcases
    as [(Hfs & _)
       |[(dr & e & fs1 & Hdel & _ & Hsave & Hfs & _)
        |[(dr & fs1 & e & fs2 & Hdel & _ & Hsave & Hhash & Hfs & _)
         |(dr & fs1 & fs2 & Hdel & _ & Hsave & Hhash & Hfs & _)]]].
  - apply Hsame. congruence.
  - destruct (WriteFile_changes _ _ _ _ _ Hsave)
      as [(Heq & _)|(n & Hins & _)].
    + apply Hsame. congruence.
    + apply (Hpart dr n Hdel). rewrite Hnext, Hfs, Hins.
      cbn [nodes with_nodes]. apply lookup_insert_eq.
  - exact (Hsaved dr fs1 fs2 _ Hdel Hsave Hhash Hfs).
  - exact (Hsaved dr fs1 fs2 _ Hdel Hsave Hhash Hfs).
Qed.

Lemma main_download_over_the_body_limit_witness :
  exists w',
    main_download (serving helloBody) "go1.21.0" hugeFile (start fsFresh)
    = Done (tt, w')
    /\ requests w'
       = requests (start fsFresh) ++ [fileDownloadFmt (Filename hugeFile)]
    /\ (forall dr,
           delivered (fetched (serving helloBody) (start fsFresh) hugeFile)
           = Some dr ->
           (N.of_nat (length (Body dr)) <= maxDownloadBody)%N)
    /\ forall next,
         fs next = fs w' ->
         exists next', checkHash "go1.21.0" hugeFile next
                       = Done (false, next').
Proof.
  apply (main_download_over_the_body_limit (serving helloBody) "go1.21.0"
           hugeFile (start fsFresh)).
  - vm_compute. reflexivity.
  - vm_compute. reflexivity.
  - reflexivity.
  - intros info. vm_compute. discriminate.
Defined.

(** X23. One turn of the inner loop always returns and makes at most one
    request: it fetches exactly when the artifact is not skipped and the
    verifier answers "not satisfied".  A skipped artifact leaves the
    filesystem alone, a satisfied one leaves it as the verifier left it. *)
Theorem main_download_fetches_iff_unverified
    (c : Collector) (releaseName : string) (download : File) (w : World) :
  exists (r : bool) (w1 w' : World),
    checkHash releaseName download w = Done (r, w1)
    /\ main_download c releaseName download w = Done (tt, w')
    /\ (requests w' = requests w ++ [fileDownloadFmt (Filename download)]
        <-> skipFile download = false /\ r = false)
    /\ (requests w' = requests w <-> skipFile download = true \/ r = true)
    /\ (skipFile download = true -> fs w' = fs w)
    /\ (skipFile download = false -> r = true -> fs w' = fs w1).
Proof.
  destruct (checkHash_effect releaseName download w)
    as (r & w1 & Hcheck & Hreq1 & _).
  destruct (main_download_turn c releaseName download w)
    as (w' & Hmain & Hturn).
  exists r, w1, w'. split; [exact Hcheck|]. split; [exact Hmain|].
  assert (forall (l : list string) (x : string), l ++ [x] <> l) as Hgrow.
  { intros l x Heq. apply (f_equal (@length string)) in Heq.
    rewrite length_app in Heq. cbn in Heq. lia. }
  assert (forall (l : list string) (x : string), l = l ++ [x] -> False)
    as Hgrow'.
  { intros l x Heq. symmetry in Heq. exact (Hgrow l x Heq). }
  destruct Hturn as [Hs ->|n2 Hs Hc ->|n2 Hs Hc Hdl].
  - cbn [requests fs logged].
    split; [split; [intros Heq; exfalso; exact (Hgrow' _ _ Heq)
                   |intros [Hf _]; congruence]|].
    split; [split; [left; exact Hs|reflexivity]|].
    split; [reflexivity|congruence].
  - rewrite Hcheck in Hc. injection Hc as -> <-.
    cbn [requests fs logged]. rewrite Hreq1.
    split; [split; [intros Heq; exfalso; exact (Hgrow' _ _ Heq)
                   |intros [_ Hf]; discriminate Hf]|].
    split; [split; [right; reflexivity|reflexivity]|].
    split; [congruence|reflexivity].
  - rewrite Hcheck in Hc. injection Hc as -> <-.
    destruct (downloadFile_cases c releaseName download
                (logged w1 statusOut
                   (Downloading releaseName (Filename download)
                      (SHA256Sum download))))
      as (w'' & Hdl' & Hreq & _).
    rewrite Hdl in Hdl'. injection Hdl' as <-.
    rewrite Hreq. cbn [requests logged]. rewrite Hreq1.
    split; [split; [intros _; split; [exact Hs|reflexivity]|reflexivity]|].
    split; [split; [intros Heq; exfalso; exact (Hgrow _ _ Heq)
                   |intros [Ht|Ht]; congruence]|].
    split; [congruence|discriminate].
Qed.

(** ** The footprint of a run *)

Lemma turn_outside (c : Collector) (releaseName : string) (download : File)
    (w w' : World) (p : string) :
  turn c releaseName download w w' ->
  (skipFile download = false -> ~ In p (paths_of releaseName download)) ->
  nodes (fs w') !! p = nodes (fs w) !! p.
Proof.
  intros Hturn Hout.
  destruct (skipFile download) eqn:Hskip.
  - destruct Hturn as [_ ->|w1 Hs _ _|w1 Hs _ _]; [reflexivity|congruence..].
  - destruct (turn_agree_outside _ _ _ _ _ Hturn) as (_ & Hsame).
    symmetry. apply Hsame. apply Hout. reflexivity.
Qed.

Lemma downloads_footprint (c : Collector) (rn : string) (files : list File) :
  forall w,
    exists w',
      forRange files (main_download c rn) w = Done (tt, w')
      /\ kept (fs w) (fs w')
      /\ forall p,
           (forall f, In f files -> skipFile f = false ->
                      ~ In p (paths_of rn f)) ->
           nodes (fs w') !! p = nodes (fs w) !! p.
Proof.
  induction files as [|f files IH]; intros w; cbn [forRange].
  - exists w. split; [reflexivity|]. split; [apply kept_refl|reflexivity].
  - destruct (main_download_turn c rn f w) as (w1 & Hrun & Hturn).
    destruct (IH w1) as (w' & Hrest & Hkept & Hout).
    exists w'. split; [unfold bind; rewrite Hrun; exact Hrest|].
    split; [exact (kept_trans _ _ _ (turn_kept _ _ _ _ _ Hturn) Hkept)|].
    intros p Hp. rewrite Hout.
    + apply (turn_outside _ _ _ _ _ p Hturn). intros Hskip.
      apply (Hp f); [left; reflexivity|exact Hskip].
    + intros f' Hin. apply Hp. right. exact Hin.
Qed.

Lemma release_footprint (c : Collector) (release : Release) (w : World) :
  exists w',
    main_release c release w = Done (tt, w')
    /\ kept (fs w) (fs w')
    /\ forall p,
         (skipRelease (RVersion release) = false ->
          p <> RVersion release
          /\ forall f, In f (Downloads release) -> skipFile f = false ->
                       ~ In p (paths_of (RVersion release) f)) ->
         nodes (fs w') !! p = nodes (fs w) !! p.
Proof.
  unfold main_release.
  destruct (skipRelease (RVersion release)) eqn:Hskip.
  - eexists. split; [reflexivity|]. cbn [fs logged].
    split; [apply kept_refl|reflexivity].
  - destruct (ensureDirectory_cases (RVersion release) w)
      as (ok & wd & Hdir & _ & _ & (_ & Hsame) & _).
    pose proof (ensureDirectory_kept _ _ _ _ Hdir) as Hkd.
    unfold bind at 1. rewrite Hdir. destruct ok; cbn [negb].
    + destruct (downloads_footprint c (RVersion release) (Downloads release) wd)
        as (w' & Hrun & Hkept & Hout).
      exists w'. split; [exact Hrun|].
      split; [exact (kept_trans _ _ _ Hkd Hkept)|].
      intros p Hp. destruct (Hp eq_refl) as (Hne & Hfiles).
      rewrite (Hout p Hfiles). symmetry. apply Hsame.
      intros [Heq|[]]. congruence.
    + exists wd. split; [reflexivity|]. split; [exact Hkd|].
      intros p Hp. destruct (Hp eq_refl) as (Hne & _).
      symmetry. apply Hsame. intros [Heq|[]]. congruence.
Qed.

Lemma releases_footprint (c : Collector) (releases : Releases) :
  forall w,
    exists w',
      forRange releases (main_release c) w = Done (tt, w')
      /\ kept (fs w) (fs w')
      /\ forall p, ~ touchable releases p ->
                   nodes (fs w') !! p = nodes (fs w) !! p.
Proof.
  induction releases as [|release releases IH]; intros w; cbn [forRange].
  - exists w. split; [reflexivity|]. split; [apply kept_refl|reflexivity].
  - destruct (release_footprint c release w) as (w1 & Hrun & Hk1 & Hout1).
    destruct (IH w1) as (w' & Hrest & Hk & Hout).
    exists w'. split; [unfold bind; rewrite Hrun; exact Hrest|].
    split; [exact (kept_trans _ _ _ Hk1 Hk)|].
    intros p Hp. rewrite Hout.
    + apply Hout1. intros Hskip. split.
      * intros ->. apply Hp. left. exists release.
        split; [left; reflexivity|]. split; [exact Hskip|reflexivity].
      * intros f Hin Hsf Hpath. apply Hp. right.
        exists (RVersion release), f. split; [|exact Hpath].
        exists release. split; [left; reflexivity|]. auto.
    + intros [(r & Hin & Hs & Heq)|(rn & f & (r & Hin & Hs) & Hpath)];
        apply Hp.
      * left. exists r. split; [right; exact Hin|]. auto.
      * right. exists rn, f. split; [|exact Hpath].
        exists r. split; [right; exact Hin|exact Hs].
Qed.

(** X24. The footprint of a whole run, for every catalog, server and
    starting filesystem.  The callback always returns.  It removes
    nothing: every path that held something still holds something, and
    every directory is still that directory.  The only paths it can change
    are the directories of releases that are not skipped and the file and
    sidecar paths of the artifacts that are not skipped in them.  When the
    catalog cannot be parsed it changes nothing. *)
Theorem main_OnResponse_footprint
    (c : Collector) (parsed : option Releases) (w : World) :
  exists w',
    main_OnResponse c parsed w = Done (tt, w')
    /\ kept (fs w) (fs w')
    /\ match parsed with
       | Some releases =>
           forall p, ~ touchable releases p ->
                     nodes (fs w') !! p = nodes (fs w) !! p
       | None => fs w' = fs w /\ requests w' = requests w
       end.
Proof.
  destruct parsed as [releases|]; cbn [main_OnResponse].
  - exact (releases_footprint c releases w).
  - eexists. split; [reflexivity|]. cbn [fs requests logged].
    split; [apply kept_refl|split; reflexivity].
Qed.

(** ** The two revisions of the program *)

Lemma downloadFile_related (c : Collector) (releaseName : string)
    (download : File) (wa wb : World) :
  fs wb = fs wa ->
  requests wb = requests wa ->
  exists w1 w2,
    downloadFile c releaseName download wa = Done (tt, w1)
    /\ downloadFile c releaseName download wb = Done (tt, w2)
    /\ fs w2 = fs w1 /\ requests w2 = requests w1.
Proof.
  intros Hfs Hreq.
  assert (fetched c wb download = fetched c wa download) as Hfetched.
  { unfold fetched. rewrite Hreq. reflexivity. }
  destruct (asked_same download wa) as (Hfa & Hra & _).
  destruct (asked_same download wb) as (Hfb & Hrb & _).
  assert (forall xa xb,
             fs xb = fs xa -> requests xb = requests xa ->
             fs (visit_reported c download wb xb)
             = fs (visit_reported c download wa xa)
             /\ requests (visit_reported c download wb xb)
                = requests (visit_reported c download wa xa)) as Hfinish.
  { intros xa xb Hf Hr.
    destruct (visit_reported_same c download wa xa) as (-> & -> & _).
    destruct (visit_reported_same c download wb xb) as (-> & -> & _).
    auto. }
  destruct (delivered (fetched c wa download)) as [dr|] eqn:Hdel.
  - destruct (Z.eq_dec (StatusCode dr) StatusOK) as [Hstatus|Hstatus].
    + destruct (ioutil.WriteFile (fs wa) (dlTarget releaseName download)
                  (Body dr)) as [[e|] fs1] eqn:Hsave.
      * eexists _, _. split;
          [exact (downloadFile_not_saved _ _ _ _ _ _ _ Hdel Hstatus Hsave)|].
        split.
        -- apply (downloadFile_not_saved c releaseName download wb dr e fs1);
             [rewrite Hfetched; exact Hdel | exact Hstatus
             | rewrite Hfs; exact Hsave].
        -- apply Hfinish; cbn [fs requests logged with_fs]; congruence.
      * eexists _, _. split;
          [exact (downloadFile_saved _ _ _ _ _ _ Hdel Hstatus Hsave)|].
        split.
        -- apply (downloadFile_saved c releaseName download wb dr fs1);
             [rewrite Hfetched; exact Hdel | exact Hstatus
             | rewrite Hfs; exact Hsave].
        -- apply Hfinish;
             destruct (ioutil.WriteFile fs1 _ _) as [[e|] fs2];
             cbn [fs requests logged with_fs]; congruence.
    + eexists _, _. split;
        [exact (downloadFile_not_OK _ _ _ _ _ Hdel Hstatus)|].
      split.
      * apply (downloadFile_not_OK c releaseName download wb dr);
          [rewrite Hfetched; exact Hdel | exact Hstatus].
      * apply Hfinish; congruence.
  - eexists _, _. split;
      [exact (downloadFile_nothing_delivered _ _ _ _ Hdel)|].
    split.
    + apply (downloadFile_nothing_delivered c releaseName download wb).
      rewrite Hfetched. exact Hdel.
    + apply Hfinish; congruence.
Qed.

Lemma Earlier_turn_related (c : Collector) (releaseName : string)
    (download : File) (wa wb w1 : World) :
  fs wb = fs wa ->
  requests wb = requests wa ->
  main_download c releaseName download wa = Done (tt, w1) ->
  exists w2, Earlier.main_download c releaseName download wb = Done (tt, w2)
             /\ fs w2 = fs w1 /\ requests w2 = requests w1.
Proof.
  intros Hfsb Hreqb Hrun.
  destruct (main_download_turn c releaseName download wb)
    as (wb1 & Hrunb & Hturnb).
  destruct (Earlier_main_download_same _ _ _ _ _ Hrunb)
    as (w2 & Hearlier & Hfs2 & Hreq2).
  exists w2. split; [exact Hearlier|].
  rewrite Hfs2, Hreq2. clear Hearlier Hfs2 Hreq2 w2.
  destruct (main_download_turn c releaseName download wa)
    as (w1' & Hrun' & Hturn).
  rewrite Hrun in Hrun'. injection Hrun' as <-.
  assert (forall r r' wc wd,
             checkHash releaseName download wa = Done (r, wc) ->
             checkHash releaseName download wb = Done (r', wd) ->
             r' = r /\ fs wd = fs wc /\ requests wd = requests wc) as Hsame.
  { intros r r' wc wd Hc Hd.
    destruct (checkHash_fs_only _ _ _ wb _ _ Hfsb Hc) as (wd' & Hd' & Hfs).
    rewrite Hd in Hd'. injection Hd' as -> <-.
    split; [reflexivity|]. split; [exact Hfs|].
    destruct (checkHash_effect releaseName download wa)
      as (ra & wa' & Ha & Hreqa & _).
    rewrite Hc in Ha. injection Ha as _ <-.
    destruct (checkHash_effect releaseName download wb)
      as (rb & wb' & Hb & Hreqb' & _).
    rewrite Hd in Hb. injection Hb as _ <-.
    congruence. }
  destruct Hturn as [Hs ->|wc Hs Hc ->|wc Hs Hc Hdl];
    destruct Hturnb as [Hsb ->|wd Hsb Hd ->|wd Hsb Hd Hdlb];
    try congruence; cbn [fs requests logged];
    try (destruct (Hsame _ _ _ _ Hc Hd) as (Hr & _); discriminate Hr).
  - auto.
  - destruct (Hsame _ _ _ _ Hc Hd) as (_ & Hfs & Hreq). auto.
  - destruct (Hsame _ _ _ _ Hc Hd) as (_ & Hfs & Hreq).
    destruct (downloadFile_related c releaseName download
                (logged wc statusOut
                   (Downloading releaseName (Filename download)
                      (SHA256Sum download)))
                (logged wd statusOut
                   (Downloading releaseName (Filename download)
                      (SHA256Sum download))) Hfs Hreq)
      as (x1 & x2 & H1 & H2 & Hsamefs).
    rewrite Hdl in H1. injection H1 as <-.
    rewrite Hdlb in H2. injection H2 as <-.
    exact Hsamefs.
Qed.

Lemma Earlier_downloads_related (c : Collector) (rn : string)
    (files : list File) :
  forall wa wb,
    fs wb = fs wa ->
    requests wb = requests wa ->
    exists w1 w2,
      forRange files (main_download c rn) wa = Done (tt, w1)
      /\ forRange files (Earlier.main_download c rn) wb = Done (tt, w2)
      /\ fs w2 = fs w1 /\ requests w2 = requests w1.
Proof.
  induction files as [|f files IH]; intros wa wb Hfs Hreq; cbn [forRange].
  - exists wa, wb. auto.
  - destruct (main_download_turn c rn f wa) as (wa1 & Hrun & _).
    destruct (Earlier_turn_related c rn f wa wb wa1 Hfs Hreq Hrun)
      as (wb1 & Hrunb & Hfs1 & Hreq1).
    destruct (IH wa1 wb1 Hfs1 Hreq1) as (w1 & w2 & H1 & H2 & Hsame).
    exists w1, w2. unfold bind. rewrite Hrun, Hrunb. auto.
Qed.

Lemma skipRelease_or_Earlier (version : string) :
  skipRelease version
  = (String.eqb "go1.2" version || Earlier.skipRelease version)%bool.
Proof.
  unfold skipRelease, Earlier.skipRelease, skipVersions, skipWords.
  cbn [range_any].
  destruct (String.eqb "go1.2" version); [reflexivity|]. cbn [orb].
  destruct (Contains version "beta"); [reflexivity|].
  destruct (Contains version "rc"); reflexivity.
Qed.

Lemma Earlier_release_related (c : Collector) (release : Release)
    (wa wb : World) :
  RVersion release <> "go1.2" ->
  fs wb = fs wa ->
  requests wb = requests wa ->
  exists w1 w2,
    main_release c release wa = Done (tt, w1)
    /\ Earlier.main_release c release wb = Done (tt, w2)
    /\ fs w2 = fs w1 /\ requests w2 = requests w1.
Proof.
  intros Hver Hfs Hreq. unfold main_release, Earlier.main_release.
  rewrite skipRelease_or_Earlier.
  assert (String.eqb "go1.2" (RVersion release) = false) as ->.
  { apply String.eqb_neq. congruence. }
  cbn [orb].
  destruct (Earlier.skipRelease (RVersion release)).
  - eexists _, wb. split; [reflexivity|]. split; [reflexivity|].
    cbn [fs requests logged]. auto.
  - destruct (ensureDirectory_cases (RVersion release) wa)
      as (ok & wa1 & Hdir & Hreqa & _).
    destruct (ensureDirectory_fs_only _ _ wb _ _ Hfs Hdir)
      as (wb1 & Hdirb & Hfs1).
    destruct (ensureDirectory_cases (RVersion release) wb)
      as (ok' & wb1' & Hdirb' & Hreqb & _).
    rewrite Hdirb in Hdirb'. injection Hdirb' as _ <-.
    assert (requests wb1 = requests wa1) as Hreq1 by congruence.
    unfold bind. rewrite Hdir, Hdirb. destruct ok; cbn [negb].
    + exact (Earlier_downloads_related c (RVersion release)
               (Downloads release) wa1 wb1 Hfs1 Hreq1).
    + exists wa1, wb1. auto.
Qed.

Lemma Earlier_releases_related (c : Collector) (releases : Releases) :
  (forall release, In release releases -> RVersion release <> "go1.2") ->
  forall wa wb,
    fs wb = fs wa ->
    requests wb = requests wa ->
    exists w1 w2,
      forRange releases (main_release c) wa = Done (tt, w1)
      /\ forRange releases (Earlier.main_release c) wb = Done (tt, w2)
      /\ fs w2 = fs w1 /\ requests w2 = requests w1.
Proof.
  induction releases as [|release releases IH]; intros Hver wa wb Hfs Hreq;
    cbn [forRange].
  - exists wa, wb. auto.
  - destruct (Earlier_release_related c release wa wb
                (Hver release (or_introl eq_refl)) Hfs Hreq)
      as (wa1 & wb1 & Hrun & Hrunb & Hfs1 & Hreq1).
    destruct (IH (fun r Hin => Hver r (or_intror Hin)) wa1 wb1 Hfs1 Hreq1)
      as (w1 & w2 & H1 & H2 & Hsame).
    exists w1, w2. unfold bind. rewrite Hrun, Hrunb. auto.
Qed.

(** X25. The two revisions of the program do the same to the world: for a
    catalog that does not list the release "go1.2", both always return,
    and they leave the same filesystem and have made the same requests in
    the same order, for every server and every starting filesystem.  (They
    differ in what they print and on which stream.) *)
Theorem revisions_agree_on_a_run
    (c : Collector) (releases : Releases) (w : World) :
  (forall release, In release releases -> RVersion release <> "go1.2") ->
  exists w1 w2,
    main_OnResponse c (Some releases) w = Done (tt, w1)
    /\ Earlier.main_OnResponse c (Some releases) w = Done (tt, w2)
    /\ fs w2 = fs w1
    /\ requests w2 = requests w1.
Proof.
  intros Hver.
  exact (Earlier_releases_related c releases Hver w w eq_refl eq_refl).
Qed.

Lemma revisions_agree_on_a_run_witness :
  exists w1 w2,
    main_OnResponse (serving helloBody) (Some [helloRelease]) (start fsEmpty)
    = Done (tt, w1)
    /\ Earlier.main_OnResponse (serving helloBody) (Some [helloRelease])
         (start fsEmpty)
       = Done (tt, w2)
    /\ fs w2 = fs w1
    /\ requests w2 = requests w1.
Proof.
  apply (revisions_agree_on_a_run (serving helloBody) [helloRelease]
           (start fsEmpty)).
  intros release [<-|[]]. vm_compute. discriminate.
Defined.

(** X26. The release skip policies of the two revisions: the earlier one
    skips exactly the versions that contain "beta" or "rc"; the later one
    skips those and the version "go1.2", and nothing else. *)
Theorem skipRelease_extends_Earlier (version : string) :
  (Earlier.skipRelease version = true
   <-> exists pre post,
         version = String.append pre (String.append "beta" post)
         \/ version = String.append pre (String.append "rc" post))
  /\ (skipRelease version = true
      <-> version = "go1.2" \/ Earlier.skipRelease version = true).
Proof.
  split.
  - unfold Earlier.skipRelease.
    destruct (Contains version "beta") eqn:Hbeta.
    + split; [intros _|reflexivity].
      apply Contains_spec in Hbeta as (pre & post & H). eauto.
    + destruct (Contains version "rc") eqn:Hrc.
      * split; [intros _|reflexivity].
        apply Contains_spec in Hrc as (pre & post & H). eauto.
      * split; [discriminate|].
        intros (pre & post & [H|H]).
        -- assert (Contains version "beta" = true) as Hc
             by (apply Contains_spec; eauto).
           congruence.
        -- assert (Contains version "rc" = true) as Hc
             by (apply Contains_spec; eauto).
           congruence.
  - rewrite skipRelease_or_Earlier, orb_true_iff, String.eqb_eq.
    split; intros [H|H]; auto.
Qed.

(** ** Where an artifact is stored *)

Lemma append_cons (c : ascii) (a b : string) :
  String.append (String c a) b = String c (String.append a b).
Proof. reflexivity. Qed.

Lemma append_assoc (a b c : string) :
  String.append (String.append a b) c = String.append a (String.append b c).
Proof.
  induction a as [|x a IH]; [reflexivity|].
  rewrite !append_cons, IH. reflexivity.
Qed.

Lemma no_slash_append (a b : string) :
  no_slash (String.append a b) = (no_slash a && no_slash b)%bool.
Proof.
  induction a as [|x a IH]; [reflexivity|].
  rewrite append_cons. cbn [no_slash]. rewrite IH, andb_assoc. reflexivity.
Qed.

Lemma elements_no_slash (s : string) :
  no_slash s = true -> path.elements s = [s].
Proof.
  induction s as [|c s IH]; [reflexivity|].
  cbn [no_slash path.elements]. intros H.
  apply andb_true_iff in H as (Hc & Hs). apply negb_true_iff in Hc.
  rewrite Hc, (IH Hs). reflexivity.
Qed.

Lemma elements_app_slash (a b : string) :
  no_slash a = true ->
  path.elements (String.append a (String "/" b)) = a :: path.elements b.
Proof.
  induction a as [|c a IH]; [reflexivity|].
  cbn [no_slash]. intros H.
  apply andb_true_iff in H as (Hc & Ha). apply negb_true_iff in Hc.
  rewrite append_cons. cbn [path.elements]. rewrite Hc, (IH Ha). reflexivity.
Qed.

Lemma clean_step_plain (rooted : bool) (stack : list string) (e : string) :
  plain_name e -> path.clean_step rooted stack e = e :: stack.
Proof.
  intros (_ & H1 & H2 & H3). unfold path.clean_step.
  apply String.eqb_neq in H1, H2, H3. rewrite H1, H2, H3. reflexivity.
Qed.

Lemma Join_unrooted (a b : string) :
  plain_name a ->
  path.Join a b
  = let kept := rev (fold_left (path.clean_step false)
                       (a :: path.elements b) []) in
    let body := String.concat "/" kept in
    if String.eqb body "" then "." else body.
Proof.
  intros (Hslash & Hne & _). unfold path.Join.
  destruct a as [|c a]; [congruence|]. clear Hne.
  change (String.eqb (String c a) "") with false. cbv iota.
  change (String c a ++ "/" ++ b)%string
    with (String.append (String c a) (String "/" b)).
  unfold path.Clean. rewrite (elements_app_slash _ b Hslash).
  cbn [no_slash] in Hslash.
  apply andb_true_iff in Hslash as (Hc & _). apply negb_true_iff in Hc.
  rewrite append_cons.
  change (String.eqb (String c (String.append a (String "/" b))) "")
    with false.
  assert (HasPrefix (String c (String.append a (String "/" b))) "/" = false)
    as ->.
  { cbn [HasPrefix]. rewrite Ascii.eqb_sym, Hc. reflexivity. }
  reflexivity.
Qed.

Lemma dlTarget_of_plain (dir : string) (file : File) :
  plain_name dir -> plain_name (Filename file) ->
  dlTarget dir file
  = String.append dir (String "/" (Filename file)).
Proof.
  intros Hdir Hname. unfold dlTarget.
  rewrite (Join_unrooted _ _ Hdir).
  rewrite (elements_no_slash _ (proj1 Hname)).
  cbn [fold_left]. rewrite (clean_step_plain _ _ _ Hdir).
  rewrite (clean_step_plain _ _ _ Hname).
  cbn [rev app String.concat].
  destruct dir as [|c dir]; [destruct Hdir as (_ & H & _); congruence|].
  reflexivity.
Qed.

(** X27. Where an artifact is stored.  For a release and a file whose
    names are plain (one path element, not empty, "." or ".."), the file
    goes to "release/filename" and its sidecar to "release/filename.sha".
    Two such artifacts have the same file path only if release and file
    name are the same, and the sidecar of one is the file of the other
    exactly when they are in the same release and the other is named as
    the one with ".sha" appended. *)
Theorem dlTarget_of_plain_names (dir dir' : string) (file file' : File) :
  plain_name dir -> plain_name (Filename file) ->
  plain_name dir' -> plain_name (Filename file') ->
  dlTarget dir file = String.append dir (String "/" (Filename file))
  /\ dlSHA (dlTarget dir file)
     = String.append dir
         (String "/" (String.append (Filename file) ".sha"))
  /\ (dlTarget dir file = dlTarget dir' file'
      <-> dir = dir' /\ Filename file = Filename file')
  /\ (dlSHA (dlTarget dir file) = dlTarget dir' file'
      <-> dir = dir'
          /\ Filename file' = String.append (Filename file) ".sha").
Proof.
  intros Hdir Hname Hdir' Hname'.
  rewrite !(dlTarget_of_plain dir file Hdir Hname).
  rewrite !(dlTarget_of_plain dir' file' Hdir' Hname').
  assert (dlSHA (String.append dir (String "/" (Filename file)))
          = String.append dir
              (String "/" (String.append (Filename file) ".sha"))) as Hsha.
  { unfold dlSHA.
    change (String.append dir (String "/" (Filename file)) ++ ".sha")%string
      with (String.append (String.append dir (String "/" (Filename file)))
              ".sha").
    rewrite append_assoc, append_cons. reflexivity. }
  rewrite Hsha.
  assert (forall a b a' b',
             no_slash a = true -> no_slash b = true ->
             no_slash a' = true -> no_slash b' = true ->
             String.append a (String "/" b) = String.append a' (String "/" b')
             -> a = a' /\ b = b') as Hinj.
  { intros a b a' b' Ha Hb Ha' Hb' Heq.
    apply (f_equal path.elements) in Heq.
    rewrite !elements_app_slash, !elements_no_slash in Heq by assumption.
    injection Heq as -> ->. auto. }
  split; [reflexivity|]. split; [reflexivity|]. split.
  - split.
    + apply Hinj; [apply Hdir|apply Hname|apply Hdir'|apply Hname'].
    + intros (-> & ->). reflexivity.
  - split.
    + intros Heq.
      apply Hinj in Heq;
        [|apply Hdir
         |rewrite no_slash_append, (proj1 Hname); reflexivity
         |apply Hdir'|apply Hname'].
      destruct Heq as (-> & Heq). auto.
    + intros (-> & ->). reflexivity.
Qed.

Lemma dlTarget_of_plain_names_witness :
  dlTarget "go1.21.0" pkgFile
  = String.append "go1.21.0" (String "/" (Filename pkgFile))
  /\ dlSHA (dlTarget "go1.21.0" pkgFile)
     = String.append "go1.21.0"
         (String "/" (String.append (Filename pkgFile) ".sha"))
  /\ (dlTarget "go1.21.0" pkgFile = dlTarget "go1.21.0" pkgShaFile
      <-> "go1.21.0" = "go1.21.0" /\ Filename pkgFile = Filename pkgShaFile)
  /\ (dlSHA (dlTarget "go1.21.0" pkgFile) = dlTarget "go1.21.0" pkgShaFile
      <-> "go1.21.0" = "go1.21.0"
          /\ Filename pkgShaFile = String.append (Filename pkgFile) ".sha").
Proof.
  apply (dlTarget_of_plain_names "go1.21.0" "go1.21.0" pkgFile pkgShaFile);
    (split; [vm_compute; reflexivity|]);
    (split; [vm_compute; discriminate|]);
    split; vm_compute; discriminate.
Defined.

(** X28. A file name from the catalog is not confined to the directory of
    its release: for a plain release name and a file name "../" followed
    by any relative path, the artifact is stored at that path cleaned,
    taken from the working directory and not from the release
    directory. *)
Theorem dlTarget_leaves_the_release_directory
    (dir name : string) (file : File) :
  plain_name dir ->
  HasPrefix name "/" = false ->
  Filename file = String.append "../" name ->
  dlTarget dir file = path.Clean name.
Proof.
  intros Hdir Hrel Hname. unfold dlTarget.
  rewrite (Join_unrooted _ _ Hdir), Hname.
  change (String.append "../" name)
    with (String.append ".." (String "/" name)).
  rewrite (elements_app_slash ".." name eq_refl).
  cbn [fold_left]. rewrite (clean_step_plain _ _ _ Hdir).
  assert (path.clean_step false [dir] ".." = []) as ->.
  { unfold path.clean_step. cbn [String.eqb Ascii.eqb orb].
    destruct Hdir as (_ & _ & _ & Hne). apply String.eqb_neq in Hne.
    change (String.eqb ".." "..") with true. cbv iota.
    rewrite Hne. reflexivity. }
  unfold path.Clean. rewrite Hrel.
  destruct name as [|c name]; [reflexivity|].
  change (String.eqb (String c name) "") with false. reflexivity.
Qed.

Lemma dlTarget_leaves_the_release_directory_witness :
  dlTarget "go1.21.0"
    (mkFile "../other/x.tar.gz" "linux" "amd64" "go1.21.0" helloSum 5 "archive")
  = path.Clean "other/x.tar.gz".
Proof.
  apply (dlTarget_leaves_the_release_directory "go1.21.0" "other/x.tar.gz").
  - split; [vm_compute; reflexivity|].
    split; [vm_compute; discriminate|].
    split; vm_compute; discriminate.
  - reflexivity.
  - reflexivity.
Defined.
